(** * MinWrite: session statistics, streaks, sprints and the word counter

    A shallow embedding of the statistics core of [script.js]:
    [countWords], the atomic statistics transaction
    [updateAllStatsTransaction], [registerSprintResult], the display
    read [updateSessionStats], the sprint manager returned by
    [createSprintManager], and the editor's input listener together
    with [debouncedStatsUpdate]; and, around that core, the date stamp
    and the sprint clock, [loadState], [init] and the buttons that
    clear the editor, start a new session and reset the streak, and the
    texts of the Markdown and Word exports.

    Conventions.
    - A JavaScript string is the list of its UTF-16 code units.
    - The integer counters are JavaScript numbers holding integers; they
      are modelled by [Z] (exact below 2^53).
    - A local date stamp "YYYY-MM-DD" is modelled by its three numeric
      fields; two stamps are the same string exactly when the fields
      agree.
    - The IndexedDB table [content] is a record with one optional value
      for each of the three keys the statistics code touches. *)

From Stdlib Require Import ZArith NArith List Bool Lia Permutation.
Import ListNotations.

Local Open Scope Z_scope.

(* ================================================================== *)
(** * Part I: definitions                                               *)
(* ================================================================== *)

(** ** Strings and the word counter *)

Module WordCounter.

Definition CodeUnit := N.
Definition JSString := list CodeUnit.

Definition SPACE : CodeUnit := 32%N.
Definition TAB : CodeUnit := 9%N.
Definition NEWLINE : CodeUnit := 10%N.

(** The characters matched by [\s] and removed by [trim]: ECMAScript's
    WhiteSpace and LineTerminator code points. *)
Definition isWhiteSpace (c : CodeUnit) : bool :=
  ((9 <=? c) && (c <=? 13) || (c =? 32) || (c =? 160) || (c =? 5760)
   || (8192 <=? c) && (c <=? 8202) || (c =? 8232) || (c =? 8233)
   || (c =? 8239) || (c =? 8287) || (c =? 12288) || (c =? 65279))%N.

(** The character class [[\n\t]]. *)
Definition isNewlineOrTab (c : CodeUnit) : bool :=
  ((c =? NEWLINE) || (c =? TAB))%N.

(** The literal of the first regular expression of [countWords], as the
    source file stores it: the three characters U+00E2 U+20AC U+201D,
    which are the UTF-8 bytes of the em dash U+2014 read as
    Windows-1252. *)
Definition dashLiteral : JSString := [226%N; 8364%N; 8221%N].

(** The em dash itself, U+2014. *)
Definition emDash : JSString := [8212%N].

Fixpoint startsWith (pat s : JSString) : bool :=
  match pat, s with
  | [], _ => true
  | _ :: _, [] => false
  | p :: pat', c :: s' => (p =? c)%N && startsWith pat' s'
  end.

(** [s.replace(/pat/g, rep)] for a literal, non-empty [pat]: matches are
    taken left to right and do not overlap.  [skip] counts the code units
    of the current match that are still to be consumed. *)
Fixpoint replaceLiteral (pat rep : JSString) (skip : nat) (s : JSString)
  : JSString :=
  match s with
  | [] => []
  | c :: s' =>
      match skip with
      | S k => replaceLiteral pat rep k s'
      | O =>
          if startsWith pat s
          then rep ++ replaceLiteral pat rep (length pat - 1) s'
          else c :: replaceLiteral pat rep 0 s'
      end
  end.

(** [s.replace(/[cls]+/g, rep)]: every maximal run of characters of the
    class is replaced by one [rep].  [inRun] tells that the previous
    character belonged to a run already replaced. *)
Fixpoint replaceRuns (cls : CodeUnit -> bool) (rep : JSString)
    (inRun : bool) (s : JSString) : JSString :=
  match s with
  | [] => []
  | c :: s' =>
      if cls c
      then (if inRun then [] else rep) ++ replaceRuns cls rep true s'
      else c :: replaceRuns cls rep false s'
  end.

Fixpoint dropWhile (p : CodeUnit -> bool) (s : JSString) : JSString :=
  match s with
  | [] => []
  | c :: s' => if p c then dropWhile p s' else s
  end.

(** [s.trim()]. *)
Definition trim (s : JSString) : JSString :=
  rev (dropWhile isWhiteSpace (rev (dropWhile isWhiteSpace s))).

(** [s.split(/\s+/)]: the pieces between the maximal runs of white
    space.  A run at either end of [s] leaves an empty piece there, and
    the empty string splits into one empty piece.  [cur] is the piece
    being read, reversed; [inSep] tells that the previous character was
    white space. *)
Fixpoint splitGo (cur : JSString) (inSep : bool) (s : JSString)
  : list JSString :=
  match s with
  | [] => [rev cur]
  | c :: s' =>
      if isWhiteSpace c
      then (if inSep then splitGo cur true s'
            else rev cur :: splitGo [] true s')
      else splitGo (c :: cur) false s'
  end.

Definition splitWhiteSpace (s : JSString) : list JSString :=
  splitGo [] false s.

(** [Boolean(s)] for a string: the empty string is the only falsy one. *)
Definition truthy (s : JSString) : bool :=
  match s with [] => false | _ :: _ => true end.

(** [countWords] with the literal of its first regular expression as a
    parameter. *)
Definition countWordsWith (dash : JSString) (text : JSString) : Z :=
  let cleaned :=
    replaceRuns isNewlineOrTab [SPACE] false
      (replaceLiteral dash [SPACE] 0 text) in
  let arr := filter truthy (splitWhiteSpace (trim cleaned)) in
  if (0 <? Z.of_nat (length arr)) then Z.of_nat (length arr) else 0.

(** [countWords(text)]. *)
Definition countWords (text : JSString) : Z :=
  countWordsWith dashLiteral text.

(** The number of words of a string, said directly: the number of places
    where a character that is not white space starts a maximal run of
    such characters.  [inWord] tells that the previous character was not
    white space. *)
Fixpoint wordStarts (inWord : bool) (s : JSString) : Z :=
  match s with
  | [] => 0
  | c :: s' =>
      if isWhiteSpace c then wordStarts false s'
      else (if inWord then 0 else 1) + wordStarts true s'
  end.

Definition wordRuns (s : JSString) : Z := wordStarts false s.

End WordCounter.

(** ** Local date stamps and [Date] values *)

Module Dates.

(** The stamp [`${y}-${m}-${day}`] of [getLocalDateStamp], by its
    numeric fields. *)
Record DateStamp : Type := mkStamp { year : Z; month : Z; day : Z }.

Definition stamp_eqb (a b : DateStamp) : bool :=
  (year a =? year b) && (month a =? month b) && (day a =? day b).

(** [a !== b] for a value that is a stamp or [null]. *)
Definition lastDate_eqb (a b : option DateStamp) : bool :=
  match a, b with
  | Some x, Some y => stamp_eqb x y
  | None, None => true
  | _, _ => false
  end.

Definition isLeapYear (y : Z) : bool :=
  (y mod 4 =? 0) && (negb (y mod 100 =? 0) || (y mod 400 =? 0)).

Definition daysInMonth (y m : Z) : Z :=
  if m =? 2 then (if isLeapYear y then 29 else 28)
  else if (m =? 4) || (m =? 6) || (m =? 9) || (m =? 11) then 30
  else 31.

(** The stamps that are date-only ISO strings: the year is printed
    without padding, so it must have four digits by itself. *)
Definition validStamp (s : DateStamp) : bool :=
  (1000 <=? year s) && (year s <=? 9999)
  && (1 <=? month s) && (month s <=? 12)
  && (1 <=? day s) && (day s <=? daysInMonth (year s) (month s)).

(** ECMAScript's DayFromYear: the day number of 1 January of [y]. *)
Definition dayFromYear (y : Z) : Z :=
  365 * (y - 1970) + (y - 1969) / 4 - (y - 1901) / 100 + (y - 1601) / 400.

(** Days of the year before the first day of month [m]. *)
Definition daysBeforeMonth (y m : Z) : Z :=
  let leap := if isLeapYear y then 1 else 0 in
  if m =? 1 then 0
  else if m =? 2 then 31
  else if m =? 3 then 59 + leap
  else if m =? 4 then 90 + leap
  else if m =? 5 then 120 + leap
  else if m =? 6 then 151 + leap
  else if m =? 7 then 181 + leap
  else if m =? 8 then 212 + leap
  else if m =? 9 then 243 + leap
  else if m =? 10 then 273 + leap
  else if m =? 11 then 304 + leap
  else 334 + leap.

(** The number of days from 1970-01-01 to the stamp's day. *)
Definition dayNumber (s : DateStamp) : Z :=
  dayFromYear (year s) + daysBeforeMonth (year s) (month s) + (day s - 1).

Definition msPerDay : Z := 86400000.

(** The time value of [new Date(v)] for [v] a stamp or [null]: a
    date-only ISO string is midnight UTC of its day, [null] converts to
    the number 0 and so to the epoch, and a string that is no date gives
    an invalid Date, whose time value is NaN ([None]). *)
Definition newDate (v : option DateStamp) : option Z :=
  match v with
  | None => Some 0
  | Some s => if validStamp s then Some (dayNumber s * msPerDay) else None
  end.

(** The calendar day after [s]. *)
Definition nextDay (s : DateStamp) : DateStamp :=
  if day s <? daysInMonth (year s) (month s)
  then mkStamp (year s) (month s) (day s + 1)
  else if month s <? 12 then mkStamp (year s) (month s + 1) 1
  else mkStamp (year s + 1) 1 1.

End Dates.

(** ** The stored records and the statistics ledger *)

Module Ledger.

Import Dates.

(** The value stored under ['wt:sessionStats']. *)
Record SessionStats : Type := mkSession {
  date : DateStamp;
  words : Z;
  minutes : Z;
  sprints : Z;
  bestSprint : Z
}.

(** The value stored under ['wt:streakData']; [lastDate] may be [null]. *)
Record StreakData : Type := mkStreak {
  count : Z;
  record : Z;
  lastDate : option DateStamp
}.

(** The value stored under ['wt:typingTime'].  Its [date] is the text of
    [Date.prototype.toDateString], which names the same local day as a
    stamp does; only [time] is read by the statistics code. *)
Record TypingTime : Type := mkTyping {
  typingDate : DateStamp;
  time : Z
}.

(** The rows of [db.content] the statistics code reads and writes. *)
Record Db : Type := mkDb {
  typingTime : option TypingTime;
  sessionStats : option SessionStats;
  streakData : option StreakData
}.

Definition emptyDb : Db := mkDb None None None.

Definition putTypingTime (v : TypingTime) (db : Db) : Db :=
  mkDb (Some v) (sessionStats db) (streakData db).
Definition putSessionStats (v : SessionStats) (db : Db) : Db :=
  mkDb (typingTime db) (Some v) (streakData db).
Definition putStreakData (v : StreakData) (db : Db) : Db :=
  mkDb (typingTime db) (sessionStats db) (Some v).

(** How a request to IndexedDB ends. *)
Inductive Io : Type := Ok | Fault.

(** [storage.get(key, defaultValue)]: the stored value, or the default
    when the row is missing or the read throws. *)
Definition storage_get {A : Type} (io : Io) (row : Db -> option A)
    (defaultValue : option A) (db : Db) : option A :=
  match io with
  | Fault => defaultValue
  | Ok => match row db with Some v => Some v | None => defaultValue end
  end.

(** [storage.set(key, value)]: the table, and whether the write went
    through. *)
Definition storage_set {A : Type} (io : Io) (put : A -> Db -> Db)
    (value : A) (db : Db) : Db * bool :=
  match io with
  | Fault => (db, false)
  | Ok => (put value db, true)
  end.

(** The record literal written whenever a session starts a new day. *)
Definition freshSession (todayStamp : DateStamp) : SessionStats :=
  mkSession todayStamp 0 0 0 0.

(** The literal [{ count: 0, record: 0, lastDate: null }]. *)
Definition defaultStreak : StreakData := mkStreak 0 0 None.

(** [diff === 1] where
    [diff = (new Date(todayStamp) - new Date(lastDate)) / 86400000]:
    the quotient of two time values is 1 exactly when they differ by
    86400000, and a NaN on either side makes the comparison false. *)
Definition diffIsOne (todayStamp : DateStamp) (last : option DateStamp)
  : bool :=
  match newDate (Some todayStamp), newDate last with
  | Some t, Some l => (t - l =? msPerDay)
  | _, _ => false
  end.

(** The body of the streak branch of the transaction. *)
Definition creditStreak (todayStamp : DateStamp) (currentStreak : StreakData)
  : StreakData :=
  let count' :=
    if diffIsOne todayStamp (lastDate currentStreak)
    then count currentStreak + 1 else 1 in
  mkStreak count' (Z.max (record currentStreak) count') (Some todayStamp).

(** [streak?.value || { count: 0, record: 0, lastDate: null }]. *)
Definition currentStreakOf (db : Db) : StreakData :=
  match streakData db with Some v => v | None => defaultStreak end.

(** The condition of the streak branch. *)
Definition streakDue (todayStamp : DateStamp) (wordsGained : Z)
    (currentStreak : StreakData) : bool :=
  (0 <? wordsGained)
  && negb (lastDate_eqb (lastDate currentStreak) (Some todayStamp)).

(** The session record after the rollover test. *)
Definition currentSessionOf (todayStamp : DateStamp) (db : Db)
  : SessionStats :=
  let currentSession :=
    match sessionStats db with
    | Some v => v
    | None => freshSession todayStamp
    end in
  if negb (stamp_eqb (date currentSession) todayStamp)
  then freshSession todayStamp
  else currentSession.

(** [Math.floor((savedTyping?.value?.time || 0) / 60000)]. *)
Definition minutesOf (db : Db) : Z :=
  (match typingTime db with Some t => time t | None => 0 end) / 60000.

(** The callback given to [db.transaction]: the three rows are read
    first, then the streak row is written if due, then the session
    row. *)
Definition statsTransactionBody (todayStamp : DateStamp) (wordsGained : Z)
    (db : Db) : Db :=
  let currentStreak := currentStreakOf db in
  let db1 :=
    if streakDue todayStamp wordsGained currentStreak
    then putStreakData (creditStreak todayStamp currentStreak) db
    else db in
  let currentSession := currentSessionOf todayStamp db in
  let mins := minutesOf db in
  putSessionStats
    (mkSession (date currentSession) (words currentSession + wordsGained)
       mins (sprints currentSession) (bestSprint currentSession))
    db1.

(** How a Dexie transaction ends: all its writes, or none of them. *)
Inductive TxOutcome : Type := Committed | Aborted.

(** [updateAllStatsTransaction(wordsGained)], with the stamp read from
    the clock at its first line.  An aborted transaction is caught and
    reported, and leaves the table as it was. *)
Definition updateAllStatsTransaction (outcome : TxOutcome)
    (todayStamp : DateStamp) (wordsGained : Z) (db : Db) : Db :=
  match outcome with
  | Committed => statsTransactionBody todayStamp wordsGained db
  | Aborted => db
  end.

(** [registerSprintResult(wordsGained)]: one read and one write outside
    any transaction.  Its last line, [updateSessionStats()], refreshes
    the sidebar and writes nothing. *)
Definition registerSprintResult (ioGet ioSet : Io) (wordsGained : Z)
    (db : Db) : Db :=
  match storage_get ioGet sessionStats None db with
  | None => db
  | Some session =>
      let session' :=
        mkSession (date session) (words session) (minutes session)
          (sprints session + 1)
          (Z.max (bestSprint session) wordsGained) in
      fst (storage_set ioSet putSessionStats session' db)
  end.

(** [updateSessionStats()]: the record whose fields are shown in the
    sidebar.  Nothing is written. *)
Definition updateSessionStats (ioSession ioTyping : Io)
    (todayStamp : DateStamp) (db : Db) : SessionStats :=
  let session :=
    match storage_get ioSession sessionStats None db with
    | Some v => v
    | None => freshSession todayStamp
    end in
  let session :=
    if negb (stamp_eqb (date session) todayStamp)
    then freshSession todayStamp else session in
  let savedTime :=
    match storage_get ioTyping typingTime None db with
    | Some t => time t
    | None => 0
    end in
  mkSession (date session) (words session) (savedTime / 60000)
    (sprints session) (bestSprint session).

(** A run of transactions, each with its own clock reading, word delta
    and outcome. *)
Definition TxCall : Type := (TxOutcome * DateStamp * Z)%type.

Definition applyTx (db : Db) (c : TxCall) : Db :=
  let '(o, d, g) := c in updateAllStatsTransaction o d g db.

Definition runTransactions (calls : list TxCall) (db : Db) : Db :=
  fold_left applyTx calls db.

(** The gap in calendar days from a stored [lastDate] to today is one:
    both are days of the calendar, and today's day number is the
    other's plus one. *)
Definition dayGapIsOne (last : option DateStamp) (todayStamp : DateStamp)
  : bool :=
  match last with
  | Some d =>
      validStamp d && validStamp todayStamp
      && (dayNumber todayStamp - dayNumber d =? 1)
  | None => false
  end.

(** A streak record as the transaction leaves it and as the default
    literal has it: without a last date there is no count. *)
Definition streakWritten (sd : StreakData) : Prop :=
  lastDate sd = None -> count sd = 0.

(** The sprint counter of the stored session, 0 when nothing is
    stored. *)
Definition sprintsOf (db : Db) : Z :=
  match sessionStats db with Some s => sprints s | None => 0 end.

(** Calls of the transaction that all read the same day from the
    clock. *)
Definition onDay (todayStamp : DateStamp) (calls : list (TxOutcome * Z))
  : list TxCall :=
  map (fun c => (fst c, todayStamp, snd c)) calls.

End Ledger.

(** ** The sprint manager *)

Module Sprint.

Import WordCounter Dates Ledger.

Inductive Status : Type := idle | running | paused | finished.

Definition status_eqb (a b : Status) : bool :=
  match a, b with
  | idle, idle | running, running | paused, paused | finished, finished =>
      true
  | _, _ => false
  end.

(** The countdown object of the Tock library, as far as the manager
    uses it: whether it is counting, and the milliseconds left, which is
    what [lap()] returns. *)
Record Tock : Type := mkTock { going : bool; lap : Z }.

(** [new Tock({countdown: true, ...}).start(durationMs)]. *)
Definition tock_start (durationMs : Z) : Tock := mkTock true durationMs.
(** [tock.pause()] as a toggle between counting and frozen: what it is
    while the countdown has an interval or more left.  [Ticks.tockToggle]
    has the last interval too. *)
Definition tock_pause (t : Tock) : Tock := mkTock (negb (going t)) (lap t).

(** The private [state] of [createSprintManager]. *)
Record SprintState : Type := mkSprint {
  tock : option Tock;
  status : Status;
  durationMs : Z;
  startTime : Z;
  startWords : Z;
  wordsGained : Z
}.

Definition initialState : SprintState := mkSprint None idle 0 0 0 0.

(** What the manager shows: the status classes on the sprint pill (the
    class names are the names of the statuses), how often
    [showSprintComplete] has run, and whether the popover with the
    sprint lengths is open. *)
Record Ui : Type := mkUi {
  pillClasses : list Status;
  completionsShown : nat;
  popoverOpen : bool
}.

Definition hasClass (c : Status) (l : list Status) : bool :=
  existsb (status_eqb c) l.

Definition classAdd (l : list Status) (c : Status) : list Status :=
  if hasClass c l then l else l ++ [c].

Definition classRemove (l : list Status) (c : Status) : list Status :=
  filter (fun x => negb (status_eqb c x)) l.

(** [updatePillClasses(add, remove)]. *)
Definition updatePillClasses (add remove : list Status) (u : Ui) : Ui :=
  mkUi (fold_left classAdd add (fold_left classRemove remove (pillClasses u)))
    (completionsShown u) (popoverOpen u).

(** The manager together with the table it reports to. *)
Record Machine : Type := mkMachine {
  sprint : SprintState;
  ui : Ui;
  db : Db
}.

(** [start(minutes, currentWordCount)] at clock reading [now]. *)
Definition start (minutes currentWordCount now : Z) (m : Machine) : Machine :=
  let d := Z.max 1 minutes * 60000 in
  mkMachine
    (mkSprint (Some (tock_start d)) running d now currentWordCount 0)
    (updatePillClasses [running] [idle; paused; finished] (ui m))
    (db m).

(** [pause()] of a sprint whose Tock is counting; [Ticks.pause] is
    [pause()] in every state. *)
Definition pause (m : Machine) : Machine :=
  let s := sprint m in
  match status s, tock s with
  | running, Some t =>
      mkMachine
        (mkSprint (Some (tock_pause t)) paused (durationMs s) (startTime s)
           (startWords s) (wordsGained s))
        (updatePillClasses [paused] [running] (ui m))
        (db m)
  | _, _ => m
  end.

(** [resume()] of a sprint that has an interval or more left;
    [Ticks.resume] is [resume()] in every state. *)
Definition resume (m : Machine) : Machine :=
  let s := sprint m in
  match status s, tock s with
  | paused, Some t =>
      mkMachine
        (mkSprint (Some (tock_pause t)) running (durationMs s) (startTime s)
           (startWords s) (wordsGained s))
        (updatePillClasses [running] [paused] (ui m))
        (db m)
  | _, _ => m
  end.

(** [reset()]. *)
Definition reset (m : Machine) : Machine :=
  mkMachine initialState
    (updatePillClasses [] [running; paused; finished] (ui m))
    (db m).

(** The [complete] callback given to Tock; [editorValue] is the text in
    the editor when it runs. *)
Definition complete (ioGet ioSet : Io) (editorValue : JSString)
    (m : Machine) : Machine :=
  let s := sprint m in
  let finalWords := countWords editorValue in
  let gained := Z.max 0 (finalWords - startWords s) in
  let u := updatePillClasses [finished] [running; paused] (ui m) in
  mkMachine
    (mkSprint None finished 0 (startTime s) (startWords s) gained)
    (mkUi (pillClasses u) (S (completionsShown u)) (popoverOpen u))
    (registerSprintResult ioGet ioSet gained (db m)).

(** The callback of the 500 ms timer set by [complete]:
    [updatePillClasses([], ['finished'])]. *)
Definition flashTimeout (m : Machine) : Machine :=
  mkMachine (sprint m) (updatePillClasses [] [finished] (ui m)) (db m).

(** [end(userCancelled)]; its last line, [updateSessionStats()],
    refreshes the sidebar and writes nothing. *)
Definition end_ (userCancelled : bool) (ioGet ioSet : Io)
    (editorValue : JSString) (m : Machine) : Machine :=
  let gained := Z.max 0 (countWords editorValue - startWords (sprint m)) in
  let db1 :=
    if negb userCancelled && (0 <? gained)
    then registerSprintResult ioGet ioSet gained (db m)
    else db m in
  reset (mkMachine (sprint m) (ui m) db1).

(** [dt] milliseconds pass.  A counting Tock comes [dt] closer to zero
    and calls [complete] when it gets there; a frozen or missing one
    does nothing.  Tock finds this out on its ticks, one interval
    ahead: the countdown of a sprint, a whole number of intervals, ends
    when its time is up, and one started again by [resume()] ends up to
    an interval before that, which is a tick with a larger [dt]. *)
Definition elapse (dt : Z) (ioGet ioSet : Io) (editorValue : JSString)
    (m : Machine) : Machine :=
  let s := sprint m in
  match tock s with
  | Some t =>
      if going t then
        if lap t - dt <=? 0
        then complete ioGet ioSet editorValue m
        else mkMachine
               (mkSprint (Some (mkTock true (lap t - dt))) (status s)
                  (durationMs s) (startTime s) (startWords s)
                  (wordsGained s))
               (ui m) (db m)
      else m
  | None => m
  end.

(** The click listener of the sprint pill, for a click outside the
    popover: an idle or paused manager gets its popover opened or
    closed, a running one is paused. *)
Definition pillClick (m : Machine) : Machine :=
  let toggled :=
    mkMachine (sprint m)
      (mkUi (pillClasses (ui m)) (completionsShown (ui m))
         (negb (popoverOpen (ui m))))
      (db m) in
  match status (sprint m) with
  | idle => toggled
  | running => pause m
  | paused => toggled
  | finished => m
  end.

(** What can happen to the manager: the calls of its methods, the two
    timers, and a click on the pill. *)
Inductive Event : Type :=
| EvStart (minutes currentWordCount now : Z)
| EvPause
| EvResume
| EvReset
| EvEnd (userCancelled : bool) (ioGet ioSet : Io) (editorValue : JSString)
| EvElapse (dt : Z) (ioGet ioSet : Io) (editorValue : JSString)
| EvFlashTimeout
| EvPillClick.

Definition step (m : Machine) (e : Event) : Machine :=
  match e with
  | EvStart minutes w now => start minutes w now m
  | EvPause => pause m
  | EvResume => resume m
  | EvReset => reset m
  | EvEnd c g s t => end_ c g s t m
  | EvElapse dt g s t => elapse dt g s t m
  | EvFlashTimeout => flashTimeout m
  | EvPillClick => pillClick m
  end.

Definition run (evs : list Event) (m : Machine) : Machine :=
  fold_left step evs m.

(** The events that are not calls of [start], [reset] or [end]. *)
Definition isTimerOrToggle (e : Event) : bool :=
  match e with
  | EvPause | EvResume | EvElapse _ _ _ _ | EvFlashTimeout | EvPillClick =>
      true
  | _ => false
  end.

End Sprint.

(** ** The editor's input listener and the debounced statistics update *)

Module Keystroke.

Import WordCounter Dates Ledger.

(** [appState.typing]; [burstTimer] is kept as whether a timer is set. *)
Record Typing : Type := mkTypingState {
  burstTimer : bool;
  startTimestamp : option Z;
  totalTime : Z;
  typingDay : DateStamp
}.

(** The fields of [appState] the listener works on, the text of the
    editor, the timer held by [debouncedStatsUpdate], and the table. *)
Record App : Type := mkApp {
  editorValue : JSString;
  typing : Typing;
  lastWordCount : Z;
  peakWordCount : Z;
  lastSyncedWords : Z;
  statsTimer : bool;
  db : Db
}.

(** [!appState.typing.startTimestamp]. *)
Definition noStartTimestamp (t : Typing) : bool :=
  match startTimestamp t with
  | None => true
  | Some v => v =? 0
  end.

(** [resetTypingTimeIfNewDay()], with today's [toDateString] given by
    the day it names. *)
Definition resetTypingTimeIfNewDay (io : Io) (today : DateStamp) (a : App)
  : App :=
  if negb (stamp_eqb today (typingDay (typing a)))
  then
    let t := typing a in
    mkApp (editorValue a)
      (mkTypingState (burstTimer t) (startTimestamp t) 0 today)
      (lastWordCount a) (peakWordCount a) (lastSyncedWords a) (statsTimer a)
      (fst (storage_set io putTypingTime (mkTyping today 0) (db a)))
  else a.

(** The listener of the editor's [input] event: the browser has put
    [text] into the editor, the clock reads [now], the local day is
    [today].  Setting a debounce timer again replaces the one that is
    set. *)
Definition onInput (io : Io) (now : Z) (today : DateStamp) (text : JSString)
    (a0 : App) : App :=
  let a := resetTypingTimeIfNewDay io today a0 in
  let t := typing a in
  let t' :=
    mkTypingState true
      (if noStartTimestamp t then Some now else startTimestamp t)
      (totalTime t) (typingDay t) in
  let currentCount := countWords text in
  let grew := peakWordCount a <? currentCount in
  mkApp text t' currentCount
    (if grew then currentCount else peakWordCount a)
    (lastSyncedWords a)
    (if grew then true else statsTimer a)
    (db a).

(** The timer of [debouncedStatsUpdate] fires, 16 ms after the last call
    of it: the function given to [debounce] runs. *)
Definition statsTimerFires (outcome : TxOutcome) (today : DateStamp)
    (a : App) : App :=
  if statsTimer a then
    let currentWords := countWords (editorValue a) in
    let wordsGained := Z.max 0 (currentWords - lastSyncedWords a) in
    if 0 <? wordsGained
    then mkApp (editorValue a) (typing a) (lastWordCount a)
           (peakWordCount a) currentWords false
           (updateAllStatsTransaction outcome today wordsGained (db a))
    else mkApp (editorValue a) (typing a) (lastWordCount a)
           (peakWordCount a) (lastSyncedWords a) false (db a)
  else a.

(** The burst timer fires, 3000 ms after the last keystroke. *)
Definition burstTimerFires (io : Io) (now : Z) (a : App) : App :=
  let t := typing a in
  if burstTimer t then
    if noStartTimestamp t
    then mkApp (editorValue a)
           (mkTypingState false (startTimestamp t) (totalTime t)
              (typingDay t))
           (lastWordCount a) (peakWordCount a) (lastSyncedWords a)
           (statsTimer a) (db a)
    else
      let started := match startTimestamp t with Some v => v | None => 0 end in
      let total := totalTime t + (now - started) in
      mkApp (editorValue a)
        (mkTypingState false None total (typingDay t))
        (lastWordCount a) (peakWordCount a) (lastSyncedWords a)
        (statsTimer a)
        (fst (storage_set io putTypingTime (mkTyping (typingDay t) total)
                (db a)))
  else a.

Inductive Event : Type :=
| EvInput (io : Io) (now : Z) (today : DateStamp) (text : JSString)
| EvStatsTimer (outcome : TxOutcome) (today : DateStamp)
| EvBurstTimer (io : Io) (now : Z).

Definition step (a : App) (e : Event) : App :=
  match e with
  | EvInput io now today text => onInput io now today text a
  | EvStatsTimer o today => statsTimerFires o today a
  | EvBurstTimer io now => burstTimerFires io now a
  end.

Definition run (evs : list Event) (a : App) : App := fold_left step evs a.

(** An input event whose text has more words than [bound]. *)
Definition exceeds (bound : Z) (e : Event) : bool :=
  match e with
  | EvInput _ _ _ text => bound <? countWords text
  | _ => false
  end.

End Keystroke.

(** ** Runs of ledger operations *)

Module Runs.

Import Dates Ledger.

(** Committed transactions on one day, one for each delta. *)
Definition committedOn (todayStamp : DateStamp) (deltas : list Z)
  : list TxCall :=
  onDay todayStamp (map (fun g => (Committed, g)) deltas).

Definition sumDeltas (deltas : list Z) : Z := fold_right Z.add 0 deltas.

(** One committed transaction on each of the days after [D], in turn. *)
Fixpoint consecutiveDays (D : DateStamp) (deltas : list Z) : list TxCall :=
  match deltas with
  | [] => []
  | g :: deltas' =>
      (Committed, nextDay D, g) :: consecutiveDays (nextDay D) deltas'
  end.

(** The day [k] days after [D]. *)
Fixpoint daysAfter (k : nat) (D : DateStamp) : DateStamp :=
  match k with
  | O => D
  | S k' => daysAfter k' (nextDay D)
  end.

(** [registerSprintResult] called for each result in turn, the storage
    working. *)
Definition registerAll (results : list Z) (db : Db) : Db :=
  fold_left (fun d w => registerSprintResult Ok Ok w d) results db.

(** Every counter of the table is a non-negative number. *)
Definition sessionNonNegative (s : SessionStats) : Prop :=
  0 <= words s /\ 0 <= minutes s /\ 0 <= sprints s /\ 0 <= bestSprint s.

Definition nonNegative (db : Db) : Prop :=
  (forall t, typingTime db = Some t -> 0 <= time t)
  /\ (forall s, sessionStats db = Some s -> sessionNonNegative s)
  /\ (forall sd, streakData db = Some sd -> 0 <= count sd /\ 0 <= record sd).

(** A ledger operation: a transaction or the registration of a sprint
    result. *)
Inductive LedgerOp : Type :=
| OpTransaction (outcome : TxOutcome) (todayStamp : DateStamp)
    (wordsGained : Z)
| OpSprintResult (ioGet ioSet : Io) (wordsGained : Z).

Definition applyOp (db : Db) (op : LedgerOp) : Db :=
  match op with
  | OpTransaction o d g => updateAllStatsTransaction o d g db
  | OpSprintResult ig is_ w => registerSprintResult ig is_ w db
  end.

(** The word delta of a transaction is not negative. *)
Definition deltaNonNegative (op : LedgerOp) : bool :=
  match op with
  | OpTransaction _ _ g => 0 <=? g
  | OpSprintResult _ _ _ => true
  end.

End Runs.

(** ** Printing numbers: stamps and the sprint clock *)

Module Format.

Import WordCounter Dates.

Definition DIGIT_ZERO : CodeUnit := 48%N.
Definition HYPHEN : CodeUnit := 45%N.
Definition COLON : CodeUnit := 58%N.

Fixpoint uintCodes (u : Decimal.uint) : JSString :=
  match u with
  | Decimal.Nil => []
  | Decimal.D0 u' => 48%N :: uintCodes u'
  | Decimal.D1 u' => 49%N :: uintCodes u'
  | Decimal.D2 u' => 50%N :: uintCodes u'
  | Decimal.D3 u' => 51%N :: uintCodes u'
  | Decimal.D4 u' => 52%N :: uintCodes u'
  | Decimal.D5 u' => 53%N :: uintCodes u'
  | Decimal.D6 u' => 54%N :: uintCodes u'
  | Decimal.D7 u' => 55%N :: uintCodes u'
  | Decimal.D8 u' => 56%N :: uintCodes u'
  | Decimal.D9 u' => 57%N :: uintCodes u'
  end.

(** [String(z)] for an integer [z] (below 10^21, where JavaScript
    switches to exponents). *)
Definition numberToString (z : Z) : JSString :=
  match z with
  | Z0 => [DIGIT_ZERO]
  | Zpos p => uintCodes (Pos.to_uint p)
  | Zneg p => HYPHEN :: uintCodes (Pos.to_uint p)
  end.

(** [s.padStart(targetLength, pad)] for a pad of one character. *)
Definition padStart (targetLength : nat) (pad : CodeUnit) (s : JSString)
  : JSString :=
  repeat pad (targetLength - length s) ++ s.

(** The text [`${y}-${m}-${day}`] built by [getLocalDateStamp] and by
    [getLocalExportStamp] from the fields of the local date; the month
    of the stamp is [getMonth() + 1]. *)
Definition getLocalDateStamp (s : DateStamp) : JSString :=
  numberToString (year s) ++ [HYPHEN]
  ++ padStart 2 DIGIT_ZERO (numberToString (month s)) ++ [HYPHEN]
  ++ padStart 2 DIGIT_ZERO (numberToString (day s)).

(** The pair [{ mm, ss }] returned by [updateClockDisplay(ms)]; [%] is
    JavaScript's remainder, which takes the sign of [ms]. *)
Definition updateClockDisplay (ms : Z) : JSString * JSString :=
  (padStart 2 DIGIT_ZERO (numberToString (ms / 60000)),
   padStart 2 DIGIT_ZERO (numberToString (Z.rem ms 60000 / 1000))).

(** The text [`${mm}:${ss}`] it puts on the sprint pill. *)
Definition clockText (ms : Z) : JSString :=
  fst (updateClockDisplay ms) ++ [COLON] ++ snd (updateClockDisplay ms).

(** Reading decimal digits back: the number written by a text of
    digits, if it is one. *)
Definition digitValue (c : CodeUnit) : option Z :=
  if ((48 <=? c) && (c <=? 57))%N then Some (Z.of_N c - 48) else None.

Fixpoint readDigits (acc : Z) (s : JSString) : option Z :=
  match s with
  | [] => Some acc
  | c :: s' =>
      match digitValue c with
      | Some d => readDigits (acc * 10 + d) s'
      | None => None
      end
  end.

Definition readNumber (s : JSString) : option Z :=
  match s with
  | [] => None
  | _ :: _ => readDigits 0 s
  end.

(** Reading a text of the shape YYYY-MM-DD back into its fields. *)
Definition readStamp (s : JSString) : option DateStamp :=
  match s with
  | [y1; y2; y3; y4; h1; m1; m2; h2; d1; d2] =>
      if ((h1 =? HYPHEN) && (h2 =? HYPHEN))%N then
        match readNumber [y1; y2; y3; y4], readNumber [m1; m2],
              readNumber [d1; d2] with
        | Some y, Some m, Some d => Some (mkStamp y m d)
        | _, _, _ => None
        end
      else None
  | _ => None
  end.

(** [s] has exactly [w] characters and reads back as [n]. *)
Definition writtenWith (w : nat) (s : JSString) (n : Z) : bool :=
  (length s =? w)%nat
  && match readNumber s with Some v => v =? n | None => false end.

(** The integers from [lo] on, [len] of them. *)
Definition zRange (lo len : Z) : list Z :=
  map (fun k => lo + Z.of_nat k) (seq 0 (Z.to_nat len)).

End Format.

(** ** Loading, clearing and starting a new session *)

Module Lifecycle.

Import WordCounter Dates Ledger Keystroke.

(** [loadState()], as far as the counters go: [savedText] is what
    [storage.get] returned for the text, [None] for [null]. *)
Definition loadState (savedText : option JSString) (a : App) : App :=
  let text :=
    match savedText with Some t => t | None => editorValue a end in
  let n := countWords text in
  mkApp text (typing a) n n n (statsTimer a) (db a).

(** The click listener of the "new session" button, once the user has
    confirmed. *)
Definition newSession (ioSession ioTyping : Io) (todayStamp : DateStamp)
    (a : App) : App :=
  let t := typing a in
  let db1 :=
    fst (storage_set ioSession putSessionStats (freshSession todayStamp)
           (db a)) in
  let db2 :=
    fst (storage_set ioTyping putTypingTime (mkTyping (typingDay t) 0) db1) in
  mkApp []
    (mkTypingState (burstTimer t) (startTimestamp t) 0 (typingDay t))
    0 0 0 (statsTimer a) db2.

(** The click listener of the "clear editor" button, once the user has
    confirmed: the text goes, the counters stay. *)
Definition clearEditor (a : App) : App :=
  mkApp [] (typing a) (lastWordCount a) (peakWordCount a)
    (lastSyncedWords a) (statsTimer a) (db a).

(** The first step of [init()]: the total of the typing time is taken
    from the stored row if that row is of the day the page was loaded
    on. *)
Definition initTyping (io : Io) (a : App) : App :=
  match storage_get io typingTime None (db a) with
  | Some saved =>
      let t := typing a in
      if stamp_eqb (typingDate saved) (typingDay t)
      then mkApp (editorValue a)
             (mkTypingState (burstTimer t) (startTimestamp t) (time saved)
                (typingDay t))
             (lastWordCount a) (peakWordCount a) (lastSyncedWords a)
             (statsTimer a) (db a)
      else a
  | None => a
  end.

(** The click listener of the "reset streak" button, once the user has
    confirmed: [storage.remove('wt:streakData')]. *)
Definition resetStreak (io : Io) (d : Db) : Db :=
  match io with
  | Ok => mkDb (typingTime d) (sessionStats d) None
  | Fault => d
  end.

(** The counters are in step with the editor: neither the text in the
    editor nor the count last synced has more words than the peak. *)
Definition inStep (a : App) : Prop :=
  countWords (editorValue a) <= peakWordCount a
  /\ lastSyncedWords a <= peakWordCount a.

(** The words of today's session as a transaction would find them. *)
Definition wordsToday (todayStamp : DateStamp) (d : Db) : Z :=
  words (currentSessionOf todayStamp d).

(** Every firing of the statistics timer in the run reads [todayStamp]
    from the clock. *)
Definition timersOnDay (todayStamp : DateStamp) (e : Event) : bool :=
  match e with
  | EvStatsTimer _ d => stamp_eqb d todayStamp
  | _ => true
  end.

(** ... and its transaction commits. *)
Definition timersCommit (e : Event) : bool :=
  match e with
  | EvStatsTimer Aborted _ => false
  | _ => true
  end.

(** The input events of a burst of typing on day [todayStamp]. *)
Definition burstInputs (todayStamp : DateStamp)
    (keys : list (Io * Z * JSString)) : list Event :=
  map (fun k => EvInput (fst (fst k)) (snd (fst k)) todayStamp (snd k)) keys.

End Lifecycle.

(** ** The Markdown export *)

Module Markdown.

Import WordCounter.

Definition CR : CodeUnit := 13%N.

(** The length of the match of [/\r?\n\r?\n/] at the head of [s], if
    there is one. *)
Definition matchBlankLine (s : JSString) : option nat :=
  let afterCr (t : JSString) : JSString * nat :=
    match t with
    | c :: t' => if (c =? CR)%N then (t', 1%nat) else (t, 0%nat)
    | [] => (t, 0%nat)
    end in
  let '(s1, n1) := afterCr s in
  match s1 with
  | c1 :: s2 =>
      if (c1 =? NEWLINE)%N then
        let '(s3, n2) := afterCr s2 in
        match s3 with
        | c2 :: _ =>
            if (c2 =? NEWLINE)%N then Some (n1 + 1 + n2 + 1)%nat else None
        | [] => None
        end
      else None
  | [] => None
  end.

(** [md.replace(/\r?\n\r?\n/g, '\n\n')]; [skip] counts the code units of
    the current match that are still to be consumed. *)
Fixpoint replaceBlankLines (skip : nat) (s : JSString) : JSString :=
  match s with
  | [] => []
  | c :: s' =>
      match skip with
      | S k => replaceBlankLines k s'
      | O =>
          match matchBlankLine s with
          | Some n => [NEWLINE; NEWLINE] ++ replaceBlankLines (n - 1) s'
          | None => c :: replaceBlankLines 0 s'
          end
      end
  end.

(** The text [exportMarkdown] puts into the file. *)
Definition exportMarkdown (editorValue : JSString) : JSString :=
  replaceBlankLines 0 editorValue.

Definition notCR (c : CodeUnit) : bool := negb (c =? CR)%N.

(** [editorValue.split(/\n/g)], the lines [exportDocx] makes its
    paragraphs of; [cur] is the line being read, reversed. *)
Fixpoint splitLinesGo (cur : JSString) (s : JSString) : list JSString :=
  match s with
  | [] => [rev cur]
  | c :: s' =>
      if (c =? NEWLINE)%N then rev cur :: splitLinesGo [] s'
      else splitLinesGo (c :: cur) s'
  end.

Definition docxLines (editorValue : JSString) : list JSString :=
  splitLinesGo [] editorValue.

(** The lines put together again with a newline between them. *)
Fixpoint joinLines (ls : list JSString) : JSString :=
  match ls with
  | [] => []
  | [l] => l
  | l :: ls' => l ++ NEWLINE :: joinLines ls'
  end.

Definition isNewline (c : CodeUnit) : bool := (c =? NEWLINE)%N.

End Markdown.

(** ** The sprint manager on Tock's ticks *)

Module Ticks.

Import WordCounter Dates Ledger Sprint.

(** The interval the manager gives its Tock, in milliseconds. *)
Definition INTERVAL : Z := 250.

(** The manager with another Tock, and with another status. *)
Definition withTock (t : option Tock) (m : Machine) : Machine :=
  let s := sprint m in
  mkMachine
    (mkSprint t (status s) (durationMs s) (startTime s) (startWords s)
       (wordsGained s))
    (ui m) (db m).

Definition withStatus (st : Status) (m : Machine) : Machine :=
  let s := sprint m in
  mkMachine
    (mkSprint (tock s) st (durationMs s) (startTime s) (startWords s)
       (wordsGained s))
    (ui m) (db m).

(** [state.tock.pause()].  A counting Tock is frozen with the time it
    has left.  A frozen one starts a countdown of the time it has left,
    unless that is 0, and the new countdown ticks at once, one interval
    ahead: with less than an interval to go this first tick ends the
    countdown and calls [complete], inside the call of [pause()]. *)
Definition tockToggle (ioGet ioSet : Io) (editorValue : JSString)
    (m : Machine) : Machine :=
  match tock (sprint m) with
  | None => m
  | Some t =>
      if going t then withTock (Some (mkTock false (lap t))) m
      else if lap t =? 0 then m
      else if lap t <? INTERVAL then complete ioGet ioSet editorValue m
      else withTock (Some (mkTock true (lap t))) m
  end.

(** [pause()]: the guard, [state.tock.pause()], then the status and the
    classes of the pill. *)
Definition pause (ioGet ioSet : Io) (editorValue : JSString) (m : Machine)
  : Machine :=
  match status (sprint m), tock (sprint m) with
  | running, Some _ =>
      let m1 := withStatus paused (tockToggle ioGet ioSet editorValue m) in
      mkMachine (sprint m1) (updatePillClasses [paused] [running] (ui m1))
        (db m1)
  | _, _ => m
  end.

(** [resume()]: the guard, [state.tock.pause()], then the status and
    the classes of the pill. *)
Definition resume (ioGet ioSet : Io) (editorValue : JSString) (m : Machine)
  : Machine :=
  match status (sprint m), tock (sprint m) with
  | paused, Some _ =>
      let m1 := withStatus running (tockToggle ioGet ioSet editorValue m) in
      mkMachine (sprint m1) (updatePillClasses [running] [paused] (ui m1))
        (db m1)
  | _, _ => m
  end.

(** The click listener of the sprint pill. *)
Definition pillClick (ioGet ioSet : Io) (editorValue : JSString)
    (m : Machine) : Machine :=
  let toggled :=
    mkMachine (sprint m)
      (mkUi (pillClasses (ui m)) (completionsShown (ui m))
         (negb (popoverOpen (ui m))))
      (db m) in
  match status (sprint m) with
  | idle => toggled
  | running => pause ioGet ioSet editorValue m
  | paused => toggled
  | finished => m
  end.

(** What can happen to the manager.  Where [complete] can run, the
    event carries what it needs: how the storage answers and the text
    in the editor.  [EvElapse dt] is a tick that finds the countdown
    [dt] milliseconds further on. *)
Inductive Event : Type :=
| EvStart (minutes currentWordCount now : Z)
| EvPause (ioGet ioSet : Io) (editorValue : JSString)
| EvResume (ioGet ioSet : Io) (editorValue : JSString)
| EvReset
| EvEnd (userCancelled : bool) (ioGet ioSet : Io) (editorValue : JSString)
| EvElapse (dt : Z) (ioGet ioSet : Io) (editorValue : JSString)
| EvFlashTimeout
| EvPillClick (ioGet ioSet : Io) (editorValue : JSString).

Definition step (m : Machine) (e : Event) : Machine :=
  match e with
  | EvStart minutes w now => start minutes w now m
  | EvPause g s t => pause g s t m
  | EvResume g s t => resume g s t m
  | EvReset => reset m
  | EvEnd c g s t => end_ c g s t m
  | EvElapse dt g s t => elapse dt g s t m
  | EvFlashTimeout => flashTimeout m
  | EvPillClick g s t => pillClick g s t m
  end.

Definition run (evs : list Event) (m : Machine) : Machine :=
  fold_left step evs m.

(** The sprint is paused with less than one interval left (and not
    nothing): the state in which [resume()] ends it. *)
Definition lastInterval (m : Machine) : bool :=
  match status (sprint m), tock (sprint m) with
  | paused, Some t =>
      negb (going t) && negb (lap t =? 0) && (lap t <? INTERVAL)
  | _, _ => false
  end.

(** No [resume()] of the run finds the sprint in its last interval. *)
Fixpoint calmRun (evs : list Event) (m : Machine) : bool :=
  match evs with
  | [] => true
  | e :: evs' =>
      match e with
      | EvResume _ _ _ => negb (lastInterval m)
      | _ => true
      end
      && calmRun evs' (step m e)
  end.

(** The events that are neither [resume()], nor the passing of time,
    nor [end(false)]. *)
Definition controlEvent (e : Event) : bool :=
  match e with
  | EvResume _ _ _ => false
  | EvElapse _ _ _ _ => false
  | EvEnd userCancelled _ _ _ => userCancelled
  | _ => true
  end.

End Ticks.

(** ** What the sprint pill shows *)

Module SprintView.

Import Sprint.

(** The pill carries the class of the status. *)
Definition shows (c : Status) (m : Machine) : bool :=
  hasClass c (pillClasses (ui m)).

(** The pill agrees with the manager: a running or paused manager shows
    its status and no other; an idle one shows none of [running],
    [paused], [finished]; a finished one shows at most [finished]. *)
Definition pillAgrees (m : Machine) : Prop :=
  match status (sprint m) with
  | idle =>
      shows running m = false /\ shows paused m = false
      /\ shows finished m = false
  | running =>
      shows running m = true /\ shows paused m = false
      /\ shows finished m = false
  | paused =>
      shows running m = false /\ shows paused m = true
      /\ shows finished m = false
  | finished => shows running m = false /\ shows paused m = false
  end.

(** The Tock fits the status: an idle or finished manager has none, a
    paused one has a frozen one, and the Tock of a running one, if it
    has one, is counting or is frozen with nothing left. *)
Definition tockFits (m : Machine) : Prop :=
  match status (sprint m), tock (sprint m) with
  | idle, None | finished, None => True
  | idle, Some _ | finished, Some _ => False
  | paused, Some t => going t = false
  | paused, None => False
  | running, Some t => going t = true \/ lap t = 0
  | running, None => True
  end.

End SprintView.

Import WordCounter Dates Ledger.

(* ================================================================== *)
(** * Part II: properties                                               *)
(* ================================================================== *)

(** ** The word counter *)

Section WordCounterFacts.

Lemma truthy_rev (s : JSString) : truthy (rev s) = truthy s.
Proof.
  destruct s as [|c s]; [reflexivity|].
  simpl. destruct (rev s); reflexivity.
Qed.

Lemma newlineOrTab_isWhiteSpace (c : CodeUnit) :
  isNewlineOrTab c = true -> isWhiteSpace c = true.
Proof.
  unfold isNewlineOrTab, NEWLINE, TAB. intros H.
  apply orb_true_iff in H.
  destruct H as [H|H]; apply N.eqb_eq in H; subst c; reflexivity.
Qed.

Lemma wordStarts_white (s : JSString) (inWord : bool) :
  forallb isWhiteSpace s = true -> wordStarts inWord s = 0.
Proof.
  revert inWord. induction s as [|c s IH]; intros inWord H; [reflexivity|].
  simpl in H. apply andb_true_iff in H. destruct H as [Hc Hs].
  simpl. rewrite Hc. now apply IH.
Qed.

Lemma wordStarts_app_white (s t : JSString) (inWord : bool) :
  forallb isWhiteSpace t = true ->
  wordStarts inWord (s ++ t) = wordStarts inWord s.
Proof.
  intros Ht. revert inWord.
  induction s as [|c s IH]; intros inWord; simpl.
  - now apply wordStarts_white.
  - destruct (isWhiteSpace c); now rewrite IH.
Qed.

Lemma wordStarts_nonneg (s : JSString) (inWord : bool) :
  0 <= wordStarts inWord s.
Proof.
  revert inWord. induction s as [|c s IH]; intros inWord; simpl; [lia|].
  destruct (isWhiteSpace c).
  - apply IH.
  - specialize (IH true). destruct inWord; lia.
Qed.

(** What [dropWhile] removes is a prefix of characters of the class. *)
Lemma dropWhile_prefix (p : CodeUnit -> bool) (s : JSString) :
  exists pre, s = pre ++ dropWhile p s /\ forallb p pre = true.
Proof.
  induction s as [|c s [pre [E F]]]; simpl.
  - exists []. split; reflexivity.
  - destruct (p c) eqn:Hc.
    + exists (c :: pre). simpl. rewrite Hc, F. split; [now f_equal|reflexivity].
    + exists []. split; reflexivity.
Qed.

Lemma forallb_rev (p : CodeUnit -> bool) (s : JSString) :
  forallb p (rev s) = forallb p s.
Proof.
  induction s as [|c s IH]; [reflexivity|].
  simpl. rewrite forallb_app, IH. simpl.
  rewrite andb_true_r. apply andb_comm.
Qed.

Lemma wordRuns_trim (s : JSString) : wordRuns (trim s) = wordRuns s.
Proof.
  unfold wordRuns, trim.
  destruct (dropWhile_prefix isWhiteSpace s) as [pre [E F]].
  set (s1 := dropWhile isWhiteSpace s) in *.
  destruct (dropWhile_prefix isWhiteSpace (rev s1)) as [post [E' F']].
  set (s2 := dropWhile isWhiteSpace (rev s1)) in *.
  assert (Es1 : s1 = rev s2 ++ rev post).
  { rewrite <- rev_app_distr, <- E'. now rewrite rev_involutive. }
  assert (H1 : wordStarts false s = wordStarts false s1).
  { rewrite E at 1. clear E. induction pre as [|c pre IH]; [reflexivity|].
    simpl in F. apply andb_true_iff in F. destruct F as [Fc Fp].
    simpl. rewrite Fc. now apply IH. }
  rewrite H1, Es1.
  symmetry. apply wordStarts_app_white. now rewrite forallb_rev.
Qed.

(** Splitting and dropping the empty pieces counts the words: the piece
    being read counts as one word as soon as it is not empty. *)
Lemma splitGo_count (s : JSString) :
  forall (cur : JSString) (inSep : bool),
    (inSep = true -> cur = []) ->
    Z.of_nat (length (filter truthy (splitGo cur inSep s)))
    = (if truthy cur then 1 else 0) + wordStarts (truthy cur) s.
Proof.
  induction s as [|c s IH]; intros cur inSep Hinv.
  - simpl. rewrite truthy_rev. destruct (truthy cur); reflexivity.
  - cbn [splitGo wordStarts]. destruct (isWhiteSpace c) eqn:Hc.
    + destruct inSep.
      * rewrite (Hinv eq_refl). rewrite (IH [] true (fun _ => eq_refl)).
        reflexivity.
      * cbn [filter]. rewrite truthy_rev.
        destruct (truthy cur); cbn [length];
          rewrite ?Nat2Z.inj_succ, (IH [] true (fun _ => eq_refl));
          cbn [truthy]; lia.
    + rewrite IH by discriminate. cbn [truthy].
      destruct (truthy cur); lia.
Qed.

Lemma wordStarts_replaceRuns (s : JSString) :
  forall (inRun inWord : bool),
    (inRun = true -> inWord = false) ->
    wordStarts inWord (replaceRuns isNewlineOrTab [SPACE] inRun s)
    = wordStarts inWord s.
Proof.
  induction s as [|c s IH]; intros inRun inWord Hinv; [reflexivity|].
  simpl. destruct (isNewlineOrTab c) eqn:Hnt.
  - rewrite (newlineOrTab_isWhiteSpace c Hnt).
    destruct inRun; simpl.
    + rewrite (Hinv eq_refl). now apply IH.
    + now apply IH.
  - simpl. destruct (isWhiteSpace c); now rewrite IH by discriminate.
Qed.

Lemma replaceLiteral_white (pat rep s : JSString) :
  forallb isWhiteSpace rep = true ->
  forall skip, forallb isWhiteSpace s = true ->
  forallb isWhiteSpace (replaceLiteral pat rep skip s) = true.
Proof.
  intros Hrep. induction s as [|c s IH]; intros skip Hs; [reflexivity|].
  simpl in Hs. apply andb_true_iff in Hs. destruct Hs as [Hc Hs].
  unfold replaceLiteral; fold replaceLiteral.
  destruct skip as [|k].
  - destruct (startsWith pat (c :: s)).
    + rewrite forallb_app, Hrep. now apply IH.
    + simpl. rewrite Hc. now apply IH.
  - now apply IH.
Qed.

(** [countWords] counts the maximal runs of characters that are not
    white space, after each occurrence of the dash literal has been
    turned into a space. *)
Lemma countWordsWith_wordRuns (dash text : JSString) :
  countWordsWith dash text = wordRuns (replaceLiteral dash [SPACE] 0 text).
Proof.
  unfold countWordsWith, splitWhiteSpace.
  rewrite splitGo_count by discriminate. simpl truthy. cbv iota.
  fold (wordRuns (trim (replaceRuns isNewlineOrTab [SPACE] false
                          (replaceLiteral dash [SPACE] 0 text)))).
  rewrite wordRuns_trim. unfold wordRuns.
  rewrite wordStarts_replaceRuns by discriminate.
  pose proof (wordStarts_nonneg (replaceLiteral dash [SPACE] 0 text) false).
  destruct (0 <? 0 + wordStarts false (replaceLiteral dash [SPACE] 0 text))
    eqn:E; [lia|]. apply Z.ltb_ge in E. lia.
Qed.

Lemma countWordsWith_white (dash text : JSString) :
  forallb isWhiteSpace text = true -> countWordsWith dash text = 0.
Proof.
  intros H. rewrite countWordsWith_wordRuns. unfold wordRuns.
  apply wordStarts_white. now apply replaceLiteral_white.
Qed.

(** A text that begins with the literal has it replaced by the
    replacement, and the rest is treated the same way. *)
Lemma replaceLiteral_at_match (p : CodeUnit) (pat rep s : JSString) :
  replaceLiteral (p :: pat) rep 0 ((p :: pat) ++ s)
  = rep ++ replaceLiteral (p :: pat) rep 0 s.
Proof.
  assert (Hsw : forall q t, startsWith q (q ++ t) = true).
  { induction q as [|x q IH]; intros t; [reflexivity|].
    simpl. now rewrite N.eqb_refl, IH. }
  assert (Hskip : forall q t,
             replaceLiteral (p :: pat) rep (length q) (q ++ t)
             = replaceLiteral (p :: pat) rep 0 t).
  { induction q as [|x q IH]; intros t; [reflexivity|]. simpl. apply IH. }
  change ((p :: pat) ++ s) with (p :: (pat ++ s)).
  unfold replaceLiteral at 1; fold replaceLiteral.
  change (p :: pat ++ s) with ((p :: pat) ++ s).
  rewrite Hsw. f_equal.
  replace (length (p :: pat) - 1)%nat with (length pat)
    by (simpl; now rewrite Nat.sub_0_r).
  apply Hskip.
Qed.

End WordCounterFacts.

(** What holds of the word counter as the file stores it.  [countWords]
    is a function of its argument alone; it returns the number of
    maximal runs of characters that are not white space in the text
    whose dash literals have been replaced by spaces (the later
    replacement of newlines and tabs, the trim, the split and the filter
    change nothing more); it returns 0 for every text made of white
    space only, the empty text among them; and
    [countWords("  a   b\tc\n d ")] is 4. *)
Theorem countWords_spec :
  (forall text,
      countWords text
      = wordRuns (replaceLiteral dashLiteral [SPACE] 0 text))
  /\ (forall text,
         forallb isWhiteSpace text = true -> countWords text = 0)
  /\ countWords [] = 0
  /\ countWords [32; 32; 97; 32; 32; 32; 98; 9; 99; 10; 32; 100; 32]%N = 4.
Proof.
  split; [|split; [|split]].
  - intros text. apply countWordsWith_wordRuns.
  - intros text. apply countWordsWith_white.
  - reflexivity.
  - reflexivity.
Qed.

Lemma countWords_spec_witness :
  forallb isWhiteSpace [32; 9; 10; 13; 160]%N = true
  /\ countWords [32; 9; 10; 13; 160]%N = 0.
Proof.
  split; [reflexivity|].
  apply (proj1 (proj2 countWords_spec)). reflexivity.
Defined.

(** Two words joined by the dash literal are two words: with the
    literal as the source file stores it, and with the em dash as the
    literal. *)
Example countWords_dash_joined :
  countWords ([97; 98]%N ++ dashLiteral ++ [99; 100]%N) = 2
  /\ countWordsWith emDash ([97; 98]%N ++ emDash ++ [99; 100]%N) = 2.
Proof. split; reflexivity. Qed.

(** The first replacement of [countWords] changes nothing in a text
    without the character U+00E2, with which its literal begins: every
    em dash of such a text stays where it is. *)
Lemma dashLiteral_absent (rep text : JSString) :
  forallb (fun c => negb (c =? 226)%N) text = true ->
  replaceLiteral dashLiteral rep 0 text = text.
Proof.
  induction text as [|c text IH]; intros H; [reflexivity|].
  cbn [forallb] in H. apply andb_true_iff in H. destruct H as [Hc Ht].
  unfold replaceLiteral; fold replaceLiteral.
  replace (startsWith dashLiteral (c :: text)) with false.
  - now rewrite IH.
  - unfold dashLiteral. cbn [startsWith].
    apply negb_true_iff in Hc. rewrite N.eqb_sym in Hc. now rewrite Hc.
Qed.

(** C10, at the input where the code departs from it.  The comment of
    [countWords] says that it splits on white space and em dashes, but
    the expression it replaces is the three characters U+00E2 U+20AC
    U+201D, not the em dash U+2014.  So in "ab", em dash, "cd" nothing is
    replaced and the text counts as one word, where the same text with
    a space for the dash counts two, and where [countWords] with the em
    dash as its literal would count two. *)
Theorem countWords_em_dash_not_separated :
  let text := [97; 98; 8212; 99; 100]%N in
  replaceLiteral dashLiteral [SPACE] 0 text = text
  /\ countWords text = 1
  /\ countWords [97; 98; 32; 99; 100]%N = 2
  /\ countWordsWith emDash text = 2.
Proof. cbn zeta. repeat split. Qed.


(** ** Day numbers *)

Section DateFacts.

Lemma stamp_eqb_eq (a b : DateStamp) : stamp_eqb a b = true <-> a = b.
Proof.
  unfold stamp_eqb. destruct a as [y m d], b as [y' m' d']; simpl.
  rewrite !andb_true_iff, !Z.eqb_eq. split.
  - intros [[-> ->] ->]. reflexivity.
  - intros E. injection E as -> -> ->. auto.
Qed.

Lemma stamp_eqb_refl (a : DateStamp) : stamp_eqb a a = true.
Proof. now apply stamp_eqb_eq. Qed.

Lemma lastDate_eqb_eq (a b : option DateStamp) :
  lastDate_eqb a b = true <-> a = b.
Proof.
  destruct a as [x|], b as [y|]; simpl;
    try (split; [discriminate|discriminate]); try tauto.
  rewrite stamp_eqb_eq. split; [now intros ->|now intros [= ->]].
Qed.

Lemma lastDate_eqb_neq (a b : option DateStamp) :
  lastDate_eqb a b = false <-> a <> b.
Proof.
  rewrite <- lastDate_eqb_eq. destruct (lastDate_eqb a b); split;
    congruence.
Qed.

(** A year has 365 days, and one more when it is a leap year. *)
Lemma dayFromYear_succ (y : Z) :
  dayFromYear (y + 1)
  = dayFromYear y + 365 + (if isLeapYear y then 1 else 0).
Proof.
  unfold dayFromYear, isLeapYear.
  destruct (Z.eqb_spec (y mod 4) 0) as [H4|H4];
    destruct (Z.eqb_spec (y mod 100) 0) as [H100|H100];
    destruct (Z.eqb_spec (y mod 400) 0) as [H400|H400];
    cbn [andb orb negb];
    Z.div_mod_to_equations; lia.
Qed.

(** The day after has the next day number. *)
Lemma dayNumber_nextDay (s : DateStamp) :
  validStamp s = true -> dayNumber (nextDay s) = dayNumber s + 1.
Proof.
  destruct s as [y m d]. unfold validStamp, nextDay, dayNumber. simpl.
  rewrite !andb_true_iff, !Z.leb_le. intros [[[[[Hy1 Hy2] Hm1] Hm2] Hd1] Hd2].
  destruct (Z.ltb_spec d (daysInMonth y m)) as [Hd|Hd]; simpl.
  - lia.
  - assert (Ed : d = daysInMonth y m) by lia.
    destruct (Z.ltb_spec m 12) as [Hm|Hm]; simpl.
    + subst d. unfold daysInMonth, daysBeforeMonth.
      assert (Hcases : m = 1 \/ m = 2 \/ m = 3 \/ m = 4 \/ m = 5 \/ m = 6
                       \/ m = 7 \/ m = 8 \/ m = 9 \/ m = 10 \/ m = 11) by lia.
      destruct (isLeapYear y);
        repeat (destruct Hcases as [->|Hcases]; [simpl; lia|]);
        subst m; simpl; lia.
    + assert (m = 12) by lia. subst m d.
      rewrite dayFromYear_succ. unfold daysInMonth, daysBeforeMonth. simpl.
      destruct (isLeapYear y); lia.
Qed.

Lemma validStamp_iff (y m d : Z) :
  validStamp (mkStamp y m d) = true
  <-> 1000 <= y <= 9999 /\ 1 <= m <= 12 /\ 1 <= d <= daysInMonth y m.
Proof.
  unfold validStamp. cbn [year month day].
  rewrite !andb_true_iff, !Z.leb_le. tauto.
Qed.

Lemma daysInMonth_ge_28 (y m : Z) : 28 <= daysInMonth y m.
Proof.
  unfold daysInMonth.
  destruct (m =? 2); [destruct (isLeapYear y); lia|].
  destruct ((m =? 4) || (m =? 6) || (m =? 9) || (m =? 11)); lia.
Qed.

Lemma validStamp_nextDay (s : DateStamp) :
  validStamp s = true -> year s < 9999 -> validStamp (nextDay s) = true.
Proof.
  destruct s as [y m d]. unfold nextDay. cbn [year month day].
  rewrite validStamp_iff. intros (Hy & Hm & Hd) Hlt.
  destruct (Z.ltb_spec d (daysInMonth y m)) as [Hd'|Hd'].
  - apply validStamp_iff. lia.
  - destruct (Z.ltb_spec m 12) as [Hm'|Hm']; apply validStamp_iff.
    + pose proof (daysInMonth_ge_28 y (m + 1)). lia.
    + pose proof (daysInMonth_ge_28 (y + 1) 1). lia.
Qed.

(** The calendar and the stamps: the day after is another stamp. *)
Lemma nextDay_neq (s : DateStamp) : validStamp s = true -> nextDay s <> s.
Proof.
  intros Hv E. pose proof (dayNumber_nextDay s Hv) as H.
  rewrite E in H. lia.
Qed.

End DateFacts.

(** ** The streak *)

Section StreakFacts.

(** On stamps of the calendar the test [diff === 1] is the test that the
    day numbers differ by one. *)
Lemma diffIsOne_dayGap (todayStamp d : DateStamp) :
  diffIsOne todayStamp (Some d) = dayGapIsOne (Some d) todayStamp.
Proof.
  unfold diffIsOne, dayGapIsOne, newDate, msPerDay.
  destruct (validStamp todayStamp), (validStamp d); cbn [andb];
    try reflexivity.
  destruct (Z.eqb_spec (dayNumber todayStamp - dayNumber d) 1) as [E|E];
    [apply Z.eqb_eq|apply Z.eqb_neq]; lia.
Qed.

Lemma streakDue_true (todayStamp : DateStamp) (g : Z) (sd : StreakData) :
  0 < g -> lastDate sd <> Some todayStamp ->
  streakDue todayStamp g sd = true.
Proof.
  intros Hg Hd. unfold streakDue.
  apply andb_true_iff. split; [now apply Z.ltb_lt|].
  apply negb_true_iff. now apply lastDate_eqb_neq.
Qed.

Lemma streakDue_same_day (todayStamp : DateStamp) (g : Z) (sd : StreakData) :
  lastDate sd = Some todayStamp -> streakDue todayStamp g sd = false.
Proof.
  intros E. unfold streakDue. rewrite E. cbn [lastDate_eqb].
  rewrite stamp_eqb_refl. apply andb_false_r.
Qed.

(** What a committed transaction leaves in the streak row. *)
Lemma streakData_after (todayStamp : DateStamp) (g : Z) (db : Db) :
  streakData (statsTransactionBody todayStamp g db)
  = if streakDue todayStamp g (currentStreakOf db)
    then Some (creditStreak todayStamp (currentStreakOf db))
    else streakData db.
Proof.
  unfold statsTransactionBody.
  destruct (streakDue todayStamp g (currentStreakOf db)); reflexivity.
Qed.

Lemma currentStreak_after (todayStamp : DateStamp) (g : Z) (db : Db) :
  currentStreakOf (statsTransactionBody todayStamp g db)
  = if streakDue todayStamp g (currentStreakOf db)
    then creditStreak todayStamp (currentStreakOf db)
    else currentStreakOf db.
Proof.
  unfold currentStreakOf at 1. rewrite streakData_after.
  destruct (streakDue todayStamp g (currentStreakOf db)); reflexivity.
Qed.

Lemma currentStreak_tx (o : TxOutcome) (todayStamp : DateStamp) (g : Z)
    (db : Db) :
  currentStreakOf (updateAllStatsTransaction o todayStamp g db)
  = currentStreakOf db
  \/ currentStreakOf (updateAllStatsTransaction o todayStamp g db)
     = creditStreak todayStamp (currentStreakOf db).
Proof.
  destruct o; cbn [updateAllStatsTransaction]; [|now left].
  rewrite currentStreak_after.
  destruct (streakDue todayStamp g (currentStreakOf db)); auto.
Qed.

(** The transaction keeps [streakWritten], and the default literal has
    it: every streak the code reads has it. *)
Lemma streakWritten_default : streakWritten (currentStreakOf emptyDb).
Proof. intros _. reflexivity. Qed.

Lemma streakWritten_tx (o : TxOutcome) (todayStamp : DateStamp) (g : Z)
    (db : Db) :
  streakWritten (currentStreakOf db) ->
  streakWritten (currentStreakOf (updateAllStatsTransaction o todayStamp g db)).
Proof.
  intros H. destruct (currentStreak_tx o todayStamp g db) as [E|E];
    rewrite E; [exact H|].
  intros Habs. discriminate Habs.
Qed.

(** On a streak the code wrote, crediting follows the gap in calendar
    days: without a last date the count is 0, and 0 + 1 is the 1 of a
    new streak. *)
Lemma creditStreak_dayGap (todayStamp : DateStamp) (cur : StreakData) :
  streakWritten cur ->
  creditStreak todayStamp cur
  = let count' :=
      if dayGapIsOne (lastDate cur) todayStamp then count cur + 1 else 1 in
    mkStreak count' (Z.max (record cur) count') (Some todayStamp).
Proof.
  intros Hw. unfold creditStreak. cbn zeta.
  destruct (lastDate cur) as [d|] eqn:El.
  - rewrite diffIsOne_dayGap. reflexivity.
  - rewrite (Hw El). cbn [dayGapIsOne].
    destruct (diffIsOne todayStamp None); reflexivity.
Qed.

Lemma streakData_credited (todayStamp : DateStamp) (g : Z) (db : Db) :
  0 < g -> lastDate (currentStreakOf db) <> Some todayStamp ->
  streakData (updateAllStatsTransaction Committed todayStamp g db)
  = Some (creditStreak todayStamp (currentStreakOf db)).
Proof.
  intros Hg Hd. cbn [updateAllStatsTransaction].
  now rewrite streakData_after, streakDue_true.
Qed.

Lemma streakWritten_run (calls : list TxCall) (db : Db) :
  streakWritten (currentStreakOf db) ->
  streakWritten (currentStreakOf (runTransactions calls db)).
Proof.
  revert db. induction calls as [|[[o d] g] calls IH]; intros db H;
    [exact H|].
  apply IH. now apply streakWritten_tx.
Qed.

End StreakFacts.

(** C1.  A committed transaction with [wordsGained > 0] that finds a
    [lastDate] other than today's stamp writes the streak row: the count
    is the old count plus one when the gap in calendar days from
    [lastDate] to today is one, and 1 otherwise (no last date, a longer
    gap, a gap that is zero or negative, a stamp that is no day of the
    calendar); [lastDate] is today; [record] is the larger of the old
    record and the new count.  The streak read is one the code writes:
    without a last date its count is 0. *)
Theorem streak_credit (db : Db) (todayStamp : DateStamp) (wordsGained : Z) :
  0 < wordsGained ->
  lastDate (currentStreakOf db) <> Some todayStamp ->
  streakWritten (currentStreakOf db) ->
  let cur := currentStreakOf db in
  let count' :=
    if dayGapIsOne (lastDate cur) todayStamp then count cur + 1 else 1 in
  streakData (updateAllStatsTransaction Committed todayStamp wordsGained db)
  = Some (mkStreak count' (Z.max (record cur) count') (Some todayStamp)).
Proof.
  intros Hg Hd Hw. cbn zeta.
  rewrite (streakData_credited todayStamp wordsGained db Hg Hd).
  now rewrite creditStreak_dayGap.
Qed.

Lemma streak_credit_witness :
  let db := mkDb None None (Some (mkStreak 4 6 (Some (mkStamp 2025 11 19)))) in
  streakData
    (updateAllStatsTransaction Committed (mkStamp 2025 11 20) 3 db)
  = Some (mkStreak 5 6 (Some (mkStamp 2025 11 20))).
Proof.
  intros db.
  apply (streak_credit db (mkStamp 2025 11 20) 3);
    [reflexivity | discriminate | intros E; discriminate E].
Defined.

(** Streak continuity in the calendar's own terms: a gain on the day
    after [lastDate] continues the streak. *)
Lemma streak_continues_next_day (tt : option TypingTime)
    (ss : option SessionStats) (c r g : Z) (D : DateStamp) :
  0 < g -> validStamp D = true -> year D < 9999 ->
  streakData
    (updateAllStatsTransaction Committed (nextDay D) g
       (mkDb tt ss (Some (mkStreak c r (Some D)))))
  = Some (mkStreak (c + 1) (Z.max r (c + 1)) (Some (nextDay D))).
Proof.
  intros Hg Hv Hy.
  rewrite streakData_credited; [|exact Hg|].
  - cbn [currentStreakOf streakData].
    rewrite creditStreak_dayGap by (intros E; discriminate E).
    cbn zeta. cbn [lastDate count record].
    unfold dayGapIsOne. rewrite Hv, (validStamp_nextDay D Hv Hy).
    rewrite (dayNumber_nextDay D Hv).
    replace (dayNumber D + 1 - dayNumber D) with 1 by lia. reflexivity.
  - cbn [currentStreakOf streakData lastDate].
    intros [= E]. symmetry in E. now apply (nextDay_neq D Hv).
Qed.

(** ... and a gain three days after [lastDate] starts a new one. *)
Lemma streak_restarts_after_gap (tt : option TypingTime)
    (ss : option SessionStats) (c r g : Z) (D : DateStamp) :
  0 < g -> validStamp D = true -> year D < 9997 ->
  let D3 := nextDay (nextDay (nextDay D)) in
  streakData
    (updateAllStatsTransaction Committed D3 g
       (mkDb tt ss (Some (mkStreak c r (Some D)))))
  = Some (mkStreak 1 (Z.max r 1) (Some D3)).
Proof.
  intros Hg Hv Hy D3.
  assert (Hy1 : year (nextDay D) <= year D + 1).
  { unfold nextDay. destruct (day D <? daysInMonth (year D) (month D));
      [simpl; lia|]. destruct (month D <? 12); simpl; lia. }
  assert (Hv1 : validStamp (nextDay D) = true)
    by (apply validStamp_nextDay; [assumption|lia]).
  assert (Hy2 : year (nextDay (nextDay D)) <= year D + 2).
  { unfold nextDay at 1.
    destruct (day (nextDay D) <? daysInMonth (year (nextDay D)) (month (nextDay D)));
      [simpl; lia|]. destruct (month (nextDay D) <? 12); simpl; lia. }
  assert (Hv2 : validStamp (nextDay (nextDay D)) = true)
    by (apply validStamp_nextDay; [assumption|lia]).
  assert (Hv3 : validStamp D3 = true)
    by (apply validStamp_nextDay; [assumption|lia]).
  assert (Hn : dayNumber D3 = dayNumber D + 3).
  { unfold D3. rewrite !dayNumber_nextDay by assumption. lia. }
  rewrite streakData_credited; [|exact Hg|].
  - cbn [currentStreakOf streakData].
    rewrite creditStreak_dayGap by (intros E; discriminate E).
    cbn zeta. cbn [lastDate count record].
    unfold dayGapIsOne. rewrite Hv, Hv3, Hn. cbn [andb].
    replace (dayNumber D + 3 - dayNumber D =? 1) with false
      by (symmetry; apply Z.eqb_neq; lia).
    reflexivity.
  - cbn [currentStreakOf streakData lastDate].
    intros [= E]. rewrite <- E in Hn. lia.
Qed.

(** Why the streak read has to be one the code wrote: [new Date(null)]
    is the epoch, so a record with no last date is one day before
    1970-01-02, and there a count that is not 0 would be continued.  No
    path of the code stores such a record. *)
Example creditStreak_unwritten_record :
  creditStreak (mkStamp 1970 1 2) (mkStreak 5 5 None)
  = mkStreak 6 6 (Some (mkStamp 1970 1 2))
  /\ creditStreak (mkStamp 2025 11 20) (mkStreak 5 5 None)
     = mkStreak 1 5 (Some (mkStamp 2025 11 20)).
Proof. split; reflexivity. Qed.

(** C2.  Once the streak row carries today's stamp, no run of
    transactions on that day, committed or aborted, with whatever word
    deltas, changes the row: count, record and lastDate stay as they
    are.  And from any table whatever, two transactions on one day leave
    either the streak that was read at first or that streak credited
    once. *)
Theorem streak_idempotent_same_day :
  (forall (db : Db) (sd : StreakData) (todayStamp : DateStamp)
          (calls : list (TxOutcome * Z)),
      streakData db = Some sd ->
      lastDate sd = Some todayStamp ->
      streakData (runTransactions (onDay todayStamp calls) db) = Some sd)
  /\ (forall (db : Db) (todayStamp : DateStamp) (o1 o2 : TxOutcome)
             (g1 g2 : Z),
         let db2 :=
           updateAllStatsTransaction o2 todayStamp g2
             (updateAllStatsTransaction o1 todayStamp g1 db) in
         currentStreakOf db2 = currentStreakOf db
         \/ currentStreakOf db2 = creditStreak todayStamp (currentStreakOf db)).
Proof.
  split.
  - intros db sd todayStamp calls. revert db.
    induction calls as [|[o g] calls IH]; intros db Hs Hl; [exact Hs|].
    cbn [onDay map runTransactions fold_left applyTx fst snd].
    apply IH; [|exact Hl].
    destruct o; cbn [updateAllStatsTransaction]; [|exact Hs].
    rewrite streakData_after.
    unfold currentStreakOf. rewrite Hs.
    now rewrite streakDue_same_day.
  - intros db todayStamp o1 o2 g1 g2 db2. subst db2.
    destruct (currentStreak_tx o1 todayStamp g1 db) as [E1|E1].
    + destruct (currentStreak_tx o2 todayStamp g2
                  (updateAllStatsTransaction o1 todayStamp g1 db)) as [E2|E2];
        rewrite E2, E1; auto.
    + right.
      destruct o2; cbn [updateAllStatsTransaction]; [|exact E1].
      rewrite currentStreak_after, E1.
      now rewrite streakDue_same_day.
Qed.

Lemma streak_idempotent_same_day_witness :
  let today := mkStamp 2025 11 20 in
  let sd := mkStreak 5 6 (Some today) in
  streakData
    (runTransactions
       (onDay today [(Committed, 3); (Aborted, 1); (Committed, 40)])
       (mkDb None None (Some sd)))
  = Some sd.
Proof.
  intros today sd.
  apply (proj1 streak_idempotent_same_day
           (mkDb None None (Some sd)) sd today); reflexivity.
Defined.

(** C4.  Along every run of transactions the record never decreases, and
    if the record was at least the count before the run it is at least
    the count after it, hence after every transaction of it. *)
Theorem record_monotone :
  (forall (calls : list TxCall) (db : Db),
      record (currentStreakOf db)
      <= record (currentStreakOf (runTransactions calls db)))
  /\ (forall (calls : list TxCall) (db : Db),
         count (currentStreakOf db) <= record (currentStreakOf db) ->
         count (currentStreakOf (runTransactions calls db))
         <= record (currentStreakOf (runTransactions calls db))).
Proof.
  split.
  - intros calls. induction calls as [|[[o d] g] calls IH]; intros db.
    + cbn. lia.
    + cbn [runTransactions fold_left applyTx].
      specialize (IH (updateAllStatsTransaction o d g db)).
      unfold runTransactions in IH.
      destruct (currentStreak_tx o d g db) as [E|E]; rewrite E in IH.
      * exact IH.
      * cbn [creditStreak record] in IH. lia.
  - intros calls. induction calls as [|[[o d] g] calls IH]; intros db H.
    + exact H.
    + cbn [runTransactions fold_left applyTx].
      apply (IH (updateAllStatsTransaction o d g db)).
      destruct (currentStreak_tx o d g db) as [E|E]; rewrite E.
      * exact H.
      * cbn [creditStreak record count]. lia.
Qed.

Lemma record_monotone_witness :
  let db := mkDb None None (Some (mkStreak 4 6 (Some (mkStamp 2025 11 19)))) in
  let calls :=
    [(Committed, mkStamp 2025 11 20, 3); (Committed, mkStamp 2025 11 21, 1);
     (Aborted, mkStamp 2025 11 22, 9); (Committed, mkStamp 2025 11 25, 2)] in
  count (currentStreakOf (runTransactions calls db))
  <= record (currentStreakOf (runTransactions calls db)).
Proof.
  intros db calls.
  apply (proj2 record_monotone calls db). cbn. lia.
Defined.

(** ** The session record *)

Section SessionFacts.

(** What a committed transaction leaves in the session row. *)
Lemma sessionStats_after (todayStamp : DateStamp) (g : Z) (db : Db) :
  sessionStats (statsTransactionBody todayStamp g db)
  = let cs := currentSessionOf todayStamp db in
    Some (mkSession (date cs) (words cs + g) (minutesOf db) (sprints cs)
            (bestSprint cs)).
Proof.
  unfold statsTransactionBody.
  destruct (streakDue todayStamp g (currentStreakOf db)); reflexivity.
Qed.

Lemma typingTime_after (todayStamp : DateStamp) (g : Z) (db : Db) :
  typingTime (statsTransactionBody todayStamp g db) = typingTime db.
Proof.
  unfold statsTransactionBody.
  destruct (streakDue todayStamp g (currentStreakOf db)); reflexivity.
Qed.

Lemma minutesOf_after (todayStamp : DateStamp) (g : Z) (db : Db) :
  minutesOf (statsTransactionBody todayStamp g db) = minutesOf db.
Proof. unfold minutesOf. now rewrite typingTime_after. Qed.

(** The date of the record the transaction works on is today's. *)
Lemma currentSessionOf_date (todayStamp : DateStamp) (db : Db) :
  date (currentSessionOf todayStamp db) = todayStamp.
Proof.
  unfold currentSessionOf.
  destruct (sessionStats db) as [v|]; cbn [negb].
  - destruct (stamp_eqb (date v) todayStamp) eqn:E; cbn [negb];
      [now apply stamp_eqb_eq|reflexivity].
  - cbn [freshSession date]. rewrite stamp_eqb_refl. reflexivity.
Qed.

(** A stale record is replaced by the fresh one before the update. *)
Lemma currentSessionOf_stale (todayStamp : DateStamp) (db : Db)
    (sess : SessionStats) :
  sessionStats db = Some sess -> date sess <> todayStamp ->
  currentSessionOf todayStamp db = freshSession todayStamp.
Proof.
  intros E Hd. unfold currentSessionOf. rewrite E.
  destruct (stamp_eqb (date sess) todayStamp) eqn:Eb; [|reflexivity].
  apply stamp_eqb_eq in Eb. contradiction.
Qed.

Lemma currentSessionOf_after (todayStamp : DateStamp) (g : Z) (db : Db) :
  currentSessionOf todayStamp (statsTransactionBody todayStamp g db)
  = let cs := currentSessionOf todayStamp db in
    mkSession (date cs) (words cs + g) (minutesOf db) (sprints cs)
      (bestSprint cs).
Proof.
  unfold currentSessionOf at 1. rewrite sessionStats_after. cbn zeta.
  cbn [date]. rewrite currentSessionOf_date, stamp_eqb_refl. reflexivity.
Qed.

(** Two committed transactions on one day, in one step. *)
Lemma two_transactions (todayStamp : DateStamp) (g1 g2 : Z) (db : Db) :
  statsTransactionBody todayStamp g2 (statsTransactionBody todayStamp g1 db)
  = let cs := currentSessionOf todayStamp db in
    let cur := currentStreakOf db in
    mkDb (typingTime db)
      (Some (mkSession todayStamp (words cs + g1 + g2) (minutesOf db)
               (sprints cs) (bestSprint cs)))
      (if streakDue todayStamp g1 cur || streakDue todayStamp g2 cur
       then Some (creditStreak todayStamp cur)
       else streakData db).
Proof.
  cbn zeta.
  set (db1 := statsTransactionBody todayStamp g1 db).
  assert (E : forall d, d = mkDb (typingTime d) (sessionStats d) (streakData d))
    by (intros []; reflexivity).
  rewrite (E (statsTransactionBody todayStamp g2 db1)).
  rewrite typingTime_after, sessionStats_after, streakData_after.
  unfold db1.
  rewrite typingTime_after, minutesOf_after, currentSessionOf_after,
    currentStreak_after, streakData_after.
  cbn zeta. cbn [date words sprints bestSprint].
  rewrite currentSessionOf_date.
  f_equal.
  destruct (streakDue todayStamp g1 (currentStreakOf db)) eqn:E1;
    cbn [orb].
  - rewrite streakDue_same_day by reflexivity. reflexivity.
  - reflexivity.
Qed.

End SessionFacts.

(** C8.  From a table whose session record is the zeroed one for today,
    two committed transactions on that day with non-negative deltas [g1]
    and [g2] leave [words = g1 + g2], and the whole table is the same
    whichever of the two ran first. *)
Theorem words_additive (todayStamp : DateStamp) (g1 g2 : Z)
    (tt : option TypingTime) (sd : option StreakData) :
  0 <= g1 -> 0 <= g2 ->
  let db0 := mkDb tt (Some (freshSession todayStamp)) sd in
  let db12 :=
    updateAllStatsTransaction Committed todayStamp g2
      (updateAllStatsTransaction Committed todayStamp g1 db0) in
  let db21 :=
    updateAllStatsTransaction Committed todayStamp g1
      (updateAllStatsTransaction Committed todayStamp g2 db0) in
  option_map words (sessionStats db12) = Some (g1 + g2)
  /\ db12 = db21.
Proof.
  intros _ _ db0 db12 db21. subst db12 db21.
  cbn [updateAllStatsTransaction]. rewrite !two_transactions. cbn zeta.
  assert (Ecs : currentSessionOf todayStamp db0 = freshSession todayStamp).
  { unfold currentSessionOf, db0. cbn [sessionStats freshSession date].
    rewrite stamp_eqb_refl. reflexivity. }
  rewrite Ecs. cbn [freshSession words sprints bestSprint sessionStats option_map].
  split; [reflexivity|].
  rewrite (orb_comm (streakDue todayStamp g2 (currentStreakOf db0))).
  replace (0 + g2 + g1) with (0 + g1 + g2) by lia. reflexivity.
Qed.

Lemma words_additive_witness :
  let today := mkStamp 2025 11 20 in
  let db0 := mkDb (Some (mkTyping today 185000))
               (Some (freshSession today))
               (Some (mkStreak 4 6 (Some (mkStamp 2025 11 19)))) in
  option_map words
    (sessionStats
       (updateAllStatsTransaction Committed today 12
          (updateAllStatsTransaction Committed today 30 db0)))
  = Some 42.
Proof.
  intros today db0.
  apply (proj1 (words_additive today 30 12
                  (Some (mkTyping today 185000))
                  (Some (mkStreak 4 6 (Some (mkStamp 2025 11 19))))
                  ltac:(lia) ltac:(lia))).
Defined.

(** The same from any table: whatever is stored, the words after two
    committed transactions on one day are those of the record the first
    one works on, plus both deltas. *)
Lemma words_after_two (todayStamp : DateStamp) (g1 g2 : Z) (db : Db) :
  option_map words
    (sessionStats
       (updateAllStatsTransaction Committed todayStamp g2
          (updateAllStatsTransaction Committed todayStamp g1 db)))
  = Some (words (currentSessionOf todayStamp db) + g1 + g2).
Proof.
  cbn [updateAllStatsTransaction]. rewrite two_transactions. reflexivity.
Qed.

(** The transaction's half of the day rollover: a stale record is
    replaced by the zeroed one, and the delta is applied to that. *)
Lemma transaction_rolls_stale_session (todayStamp : DateStamp) (g : Z)
    (db : Db) (sess : SessionStats) :
  sessionStats db = Some sess -> date sess <> todayStamp ->
  sessionStats (updateAllStatsTransaction Committed todayStamp g db)
  = Some (mkSession todayStamp g (minutesOf db) 0 0).
Proof.
  intros E Hd. cbn [updateAllStatsTransaction].
  rewrite sessionStats_after. cbn zeta.
  rewrite (currentSessionOf_stale todayStamp db sess E Hd).
  reflexivity.
Qed.

(** [registerSprintResult] never looks at the date: the record it finds
    is the record it updates. *)
Lemma registerSprintResult_in_place (w : Z) (tt : option TypingTime)
    (sess : SessionStats) (sd : option StreakData) :
  registerSprintResult Ok Ok w (mkDb tt (Some sess) sd)
  = mkDb tt
      (Some (mkSession (date sess) (words sess) (minutes sess)
               (sprints sess + 1) (Z.max (bestSprint sess) w)))
      sd.
Proof. reflexivity. Qed.

Lemma registerSprintResult_absent (ioGet ioSet : Io) (w : Z) (db : Db) :
  sessionStats db = None -> registerSprintResult ioGet ioSet w db = db.
Proof.
  intros E. unfold registerSprintResult, storage_get. rewrite E.
  destruct ioGet; reflexivity.
Qed.

(** [registerSprintResult] touches the session row only. *)
Lemma registerSprintResult_frame (ioGet ioSet : Io) (w : Z) (db : Db) :
  typingTime (registerSprintResult ioGet ioSet w db) = typingTime db
  /\ streakData (registerSprintResult ioGet ioSet w db) = streakData db.
Proof.
  unfold registerSprintResult, storage_get, storage_set.
  destruct ioGet; [|split; reflexivity].
  destruct (sessionStats db); [|split; reflexivity].
  destruct ioSet; split; reflexivity.
Qed.

(** C3, at the input where the code departs from it.  Yesterday's record
    holds 120 words, 7 minutes, 2 sprints, best sprint 80.  The
    transaction replaces it by the zeroed record before adding its
    delta.  [registerSprintResult] does not: it writes yesterday's
    record back with one more sprint, still under yesterday's date, and
    the sidebar, which does roll the day over when it reads, shows no
    sprint at all. *)
Theorem stale_session_rollover :
  let yesterday := mkStamp 2025 11 19 in
  let today := mkStamp 2025 11 20 in
  let db := mkDb None (Some (mkSession yesterday 120 7 2 80)) None in
  sessionStats (updateAllStatsTransaction Committed today 5 db)
  = Some (mkSession today 5 0 0 0)
  /\ sessionStats (registerSprintResult Ok Ok 30 db)
     = Some (mkSession yesterday 120 7 3 80)
  /\ sessionStats (registerSprintResult Ok Ok 30 db)
     <> Some (mkSession today 0 0 1 30)
  /\ updateSessionStats Ok Ok today (registerSprintResult Ok Ok 30 db)
     = mkSession today 0 0 0 0.
Proof.
  cbn zeta. repeat split. discriminate.
Qed.

(** ** The sprint manager *)

Section SprintFacts.

Import Sprint.

Lemma hasClass_classRemove (c : Status) (l : list Status) :
  hasClass c (classRemove l c) = false.
Proof.
  unfold hasClass, classRemove.
  induction l as [|x l IH]; [reflexivity|].
  cbn [filter]. destruct (status_eqb c x) eqn:E; cbn [negb existsb].
  - exact IH.
  - now rewrite E, IH.
Qed.

(** A counting Tock that has no more than [dt] milliseconds left
    completes when [dt] milliseconds pass. *)
Lemma elapse_reaches_zero (dt : Z) (ioGet ioSet : Io) (text : JSString)
    (m : Machine) (t : Tock) :
  tock (sprint m) = Some t -> going t = true -> lap t <= dt ->
  elapse dt ioGet ioSet text m = complete ioGet ioSet text m.
Proof.
  intros Et Hg Hl. unfold elapse. rewrite Et, Hg.
  destruct (Z.leb_spec (lap t - dt) 0); [reflexivity|lia].
Qed.

(** The timers, [pause], [resume] and a click on the pill leave a
    finished manager finished. *)
Lemma finished_is_kept (e : Event) (m : Machine) :
  isTimerOrToggle e = true ->
  status (sprint m) = finished /\ tock (sprint m) = None ->
  status (sprint (step m e)) = finished /\ tock (sprint (step m e)) = None.
Proof.
  intros He [Hs Ht].
  destruct e; try discriminate He; cbn [step].
  - unfold pause. rewrite Hs. auto.
  - unfold resume. rewrite Hs. auto.
  - unfold elapse. rewrite Ht. auto.
  - cbn [flashTimeout sprint]. auto.
  - unfold pillClick. rewrite Hs. auto.
Qed.

Lemma finished_is_kept_run (evs : list Event) (m : Machine) :
  status (sprint m) = finished /\ tock (sprint m) = None ->
  status (sprint (run (filter isTimerOrToggle evs) m)) = finished.
Proof.
  revert m. induction evs as [|e evs IH]; intros m H; [apply H|].
  cbn [filter]. destruct (isTimerOrToggle e) eqn:He.
  - cbn [run fold_left]. apply IH. now apply finished_is_kept.
  - now apply IH.
Qed.

End SprintFacts.

(** C5, as the code has it.  A sprint that is started is running; when
    its countdown reaches zero it is finished.  The callback of the
    500 ms timer takes the class [finished] off the pill and leaves the
    status alone: the status is still [finished], not [idle]; a click on
    the pill then does nothing; and the status stays [finished] through
    every later timer, click, [pause] and [resume]: only [start],
    [reset] or [end] leave it. *)
Theorem sprint_stays_finished (m0 : Sprint.Machine)
    (minutes currentWordCount now : Z) (ioGet ioSet : Io)
    (text : JSString) (evs : list Sprint.Event) :
  let m1 := Sprint.start minutes currentWordCount now m0 in
  let m2 :=
    Sprint.elapse (Sprint.durationMs (Sprint.sprint m1)) ioGet ioSet text m1 in
  let m3 := Sprint.flashTimeout m2 in
  Sprint.status (Sprint.sprint m1) = Sprint.running
  /\ Sprint.status (Sprint.sprint m2) = Sprint.finished
  /\ Sprint.status (Sprint.sprint m3) = Sprint.finished
  /\ Sprint.status (Sprint.sprint m3) <> Sprint.idle
  /\ Sprint.hasClass Sprint.finished (Sprint.pillClasses (Sprint.ui m3)) = false
  /\ Sprint.pillClick m3 = m3
  /\ Sprint.status
       (Sprint.sprint (Sprint.run (filter Sprint.isTimerOrToggle evs) m3))
     = Sprint.finished.
Proof.
  intros m1 m2 m3.
  assert (E2 : m2 = Sprint.complete ioGet ioSet text m1).
  { unfold m2. apply (elapse_reaches_zero _ _ _ _ _
                        (Sprint.tock_start (Z.max 1 minutes * 60000)));
      [reflexivity|reflexivity|]. cbn. lia. }
  assert (S3 : Sprint.status (Sprint.sprint m3) = Sprint.finished)
    by (unfold m3; rewrite E2; reflexivity).
  repeat split.
  - rewrite E2. reflexivity.
  - exact S3.
  - rewrite S3. discriminate.
  - unfold m3, Sprint.flashTimeout, Sprint.updatePillClasses.
    cbn [Sprint.ui Sprint.pillClasses fold_left].
    apply hasClass_classRemove.
  - unfold Sprint.pillClick. rewrite S3. reflexivity.
  - apply finished_is_kept_run. split; [exact S3|].
    unfold m3; rewrite E2; reflexivity.
Qed.

(** C6, as amended.  When the countdown of a sprint reaches zero,
    [wordsGained] is [max(0, words in the editor - startWords)].  If a
    session record for today is stored (and the read and the write go
    through), that record is written back with [sprints] one higher and
    [bestSprint] the larger of its old value and [wordsGained], and the
    sidebar shows these two values.  If no session record is stored,
    nothing is written. *)
Theorem sprint_completion_accounting (m : Sprint.Machine) (t : Sprint.Tock)
    (dt : Z) (text : JSString) (today : DateStamp) :
  Sprint.tock (Sprint.sprint m) = Some t ->
  Sprint.going t = true ->
  Sprint.lap t <= dt ->
  let m' := Sprint.elapse dt Ok Ok text m in
  let gained :=
    Z.max 0 (countWords text - Sprint.startWords (Sprint.sprint m)) in
  let shown := updateSessionStats Ok Ok today (Sprint.db m') in
  Sprint.wordsGained (Sprint.sprint m') = gained
  /\ (forall sess,
         sessionStats (Sprint.db m) = Some sess ->
         date sess = today ->
         sessionStats (Sprint.db m')
         = Some (mkSession today (words sess) (minutes sess)
                   (sprints sess + 1) (Z.max (bestSprint sess) gained))
         /\ sprints shown = sprints sess + 1
         /\ bestSprint shown = Z.max (bestSprint sess) gained)
  /\ (sessionStats (Sprint.db m) = None -> Sprint.db m' = Sprint.db m).
Proof.
  intros Et Hg Hl m' gained shown. unfold shown, m'.
  rewrite (elapse_reaches_zero dt Ok Ok text m t Et Hg Hl).
  cbn [Sprint.complete Sprint.db Sprint.sprint Sprint.wordsGained].
  split; [reflexivity|split].
  - intros sess Es Ed.
    unfold registerSprintResult, updateSessionStats, storage_get, storage_set.
    rewrite Es. cbn [fst sessionStats putSessionStats date].
    rewrite Ed, stamp_eqb_refl. cbn [negb sprints bestSprint].
    repeat split.
  - intros En. now apply registerSprintResult_absent.
Qed.

(** The sprint of the specification's example: started at 500 words for
    25 minutes, 650 words in the editor when the countdown ends. *)
Lemma sprint_completion_accounting_witness :
  let today := mkStamp 2025 11 20 in
  let text650 := concat (repeat [97; 32]%N 650) in
  let m0 :=
    Sprint.mkMachine Sprint.initialState (Sprint.mkUi [] 0 false)
      (mkDb None (Some (mkSession today 650 9 2 80)) None) in
  let m1 := Sprint.start 25 500 0 m0 in
  let m2 := Sprint.elapse 1500000 Ok Ok text650 m1 in
  Sprint.wordsGained (Sprint.sprint m2) = 150
  /\ sessionStats (Sprint.db m2) = Some (mkSession today 650 9 3 150)
  /\ sprints (updateSessionStats Ok Ok today (Sprint.db m2)) = 3
  /\ bestSprint (updateSessionStats Ok Ok today (Sprint.db m2)) = 150.
Proof.
  intros today text650 m0 m1 m2.
  assert (Ec : countWords text650 = 650) by (vm_compute; reflexivity).
  pose proof (sprint_completion_accounting m1
                (Sprint.tock_start 1500000) 1500000 text650 today
                eq_refl eq_refl ltac:(cbn; lia)) as H.
  cbn zeta in H. cbn [Sprint.startWords Sprint.sprint m1 Sprint.start] in H.
  rewrite Ec in H. destruct H as (H1 & H2 & _).
  split; [exact H1|].
  exact (H2 (mkSession today 650 9 2 80) eq_refl eq_refl).
Defined.

(** C6 as it was stated fails when no session record is stored: on a
    fresh table a sprint started with an empty editor and left to run
    out is finished with 0 words gained, and the sprint counter is not
    one higher than before, because nothing is written. *)
Lemma sprint_completion_without_record :
  let m0 := Sprint.mkMachine Sprint.initialState (Sprint.mkUi [] 0 false) emptyDb in
  let m1 := Sprint.start 25 0 0 m0 in
  let m2 := Sprint.elapse 1500000 Ok Ok [] m1 in
  Sprint.status (Sprint.sprint m2) = Sprint.finished
  /\ Sprint.wordsGained (Sprint.sprint m2) = 0
  /\ sessionStats (Sprint.db m2) = None
  /\ sprintsOf (Sprint.db m2) <> sprintsOf (Sprint.db m1) + 1.
Proof.
  cbn zeta. repeat split. cbn. discriminate.
Qed.

(** C7.  [end(true)] writes nothing: whatever the manager's state, the
    table and the text in the editor, and however the storage behaves,
    the table after the call is the table before it, so the stored
    [sprints] and [bestSprint] are unchanged; the manager is idle. *)
Theorem cancel_discards_result (m : Sprint.Machine) (ioGet ioSet : Io)
    (text : JSString) :
  let m' := Sprint.end_ true ioGet ioSet text m in
  Sprint.db m' = Sprint.db m
  /\ option_map sprints (sessionStats (Sprint.db m'))
     = option_map sprints (sessionStats (Sprint.db m))
  /\ option_map bestSprint (sessionStats (Sprint.db m'))
     = option_map bestSprint (sessionStats (Sprint.db m))
  /\ Sprint.status (Sprint.sprint m') = Sprint.idle.
Proof.
  cbn zeta. repeat split.
Qed.

(** The specification's cancelled sprint, next to the same sprint ended
    without cancelling: started at 300 words, 340 words in the editor. *)
Example cancel_versus_end :
  let today := mkStamp 2025 11 20 in
  let text340 := concat (repeat [97; 32]%N 340) in
  let m0 :=
    Sprint.mkMachine Sprint.initialState (Sprint.mkUi [] 0 false)
      (mkDb None (Some (mkSession today 340 4 1 25)) None) in
  let m1 := Sprint.start 15 300 0 m0 in
  sessionStats (Sprint.db (Sprint.end_ true Ok Ok text340 m1))
  = Some (mkSession today 340 4 1 25)
  /\ sessionStats (Sprint.db (Sprint.end_ false Ok Ok text340 m1))
     = Some (mkSession today 340 4 2 40).
Proof. vm_compute. split; reflexivity. Qed.

(** ** The keystroke path *)

Section KeystrokeFacts.

Import Keystroke.

(** The listener and the burst timer write the typing-time row only. *)
Lemma resetTypingTimeIfNewDay_frame (io : Io) (today : DateStamp) (a : App) :
  let a' := resetTypingTimeIfNewDay io today a in
  sessionStats (db a') = sessionStats (db a)
  /\ streakData (db a') = streakData (db a)
  /\ peakWordCount a' = peakWordCount a
  /\ lastSyncedWords a' = lastSyncedWords a
  /\ statsTimer a' = statsTimer a.
Proof.
  unfold resetTypingTimeIfNewDay.
  destruct (negb (stamp_eqb today (typingDay (typing a))));
    [destruct io|]; cbn; repeat split.
Qed.

Lemma onInput_frame (io : Io) (now : Z) (today : DateStamp) (text : JSString)
    (a : App) :
  sessionStats (db (onInput io now today text a)) = sessionStats (db a)
  /\ streakData (db (onInput io now today text a)) = streakData (db a).
Proof.
  unfold onInput. cbn [db].
  destruct (resetTypingTimeIfNewDay_frame io today a) as (E1 & E2 & _).
  split; assumption.
Qed.

Lemma onInput_timer (io : Io) (now : Z) (today : DateStamp) (text : JSString)
    (a : App) :
  statsTimer (onInput io now today text a)
  = (peakWordCount a <? countWords text) || statsTimer a.
Proof.
  unfold onInput. cbn [statsTimer].
  destruct (resetTypingTimeIfNewDay_frame io today a) as (_ & _ & Ep & _ & Et).
  cbn zeta in Ep, Et. rewrite Ep, Et.
  destruct (peakWordCount a <? countWords text); reflexivity.
Qed.

Lemma onInput_peak (io : Io) (now : Z) (today : DateStamp) (text : JSString)
    (a : App) :
  peakWordCount (onInput io now today text a)
  = Z.max (peakWordCount a) (countWords text).
Proof.
  unfold onInput. cbn [peakWordCount].
  destruct (resetTypingTimeIfNewDay_frame io today a) as (_ & _ & Ep & _).
  cbn zeta in Ep. rewrite Ep.
  destruct (Z.ltb_spec (peakWordCount a) (countWords text)); lia.
Qed.

Lemma burstTimerFires_frame (io : Io) (now : Z) (a : App) :
  let a' := burstTimerFires io now a in
  sessionStats (db a') = sessionStats (db a)
  /\ streakData (db a') = streakData (db a)
  /\ peakWordCount a' = peakWordCount a
  /\ statsTimer a' = statsTimer a.
Proof.
  unfold burstTimerFires.
  destruct (burstTimer (typing a)); [|cbn; repeat split].
  destruct (noStartTimestamp (typing a)); [cbn; repeat split|].
  destruct io; cbn; repeat split.
Qed.

(** What the debounced function does to the table when its timer
    fires. *)
Lemma statsTimerFires_db (o : TxOutcome) (today : DateStamp) (a : App) :
  db (statsTimerFires o today a)
  = let delta :=
      Z.max 0 (countWords (editorValue a) - lastSyncedWords a) in
    if statsTimer a && (0 <? delta)
    then updateAllStatsTransaction o today delta (db a)
    else db a.
Proof.
  unfold statsTimerFires. cbn zeta.
  destruct (statsTimer a); [|reflexivity]. cbn [andb].
  destruct (0 <? Z.max 0 (countWords (editorValue a) - lastSyncedWords a));
    reflexivity.
Qed.

(** While no input exceeds the peak and no timer of the debounced update
    is set, none gets set and the peak stays. *)
Lemma quiet_step (P : Z) (e : Event) (a : App) :
  exceeds P e = false ->
  statsTimer a = false /\ peakWordCount a = P ->
  (statsTimer (step a e) = false /\ peakWordCount (step a e) = P)
  /\ sessionStats (db (step a e)) = sessionStats (db a)
  /\ streakData (db (step a e)) = streakData (db a).
Proof.
  intros He [Ht Ep]. destruct e as [io now today text|o today|io now];
    cbn [step].
  - cbn [exceeds] in He. apply Z.ltb_ge in He.
    rewrite onInput_timer, onInput_peak, Ht, Ep.
    destruct (onInput_frame io now today text a) as [E1 E2].
    repeat split; try assumption.
    + apply orb_false_iff. split; [now apply Z.ltb_ge|reflexivity].
    + lia.
  - unfold statsTimerFires. rewrite Ht. auto.
  - destruct (burstTimerFires_frame io now a) as (E1 & E2 & E3 & E4).
    cbn zeta in E1, E2, E3, E4. rewrite E3, E4. auto.
Qed.

Lemma quiet_run (P : Z) (evs : list Event) (a : App) :
  forallb (fun e => negb (exceeds P e)) evs = true ->
  statsTimer a = false /\ peakWordCount a = P ->
  sessionStats (db (run evs a)) = sessionStats (db a)
  /\ streakData (db (run evs a)) = streakData (db a).
Proof.
  revert a. induction evs as [|e evs IH]; intros a Hq Ha; [auto|].
  cbn [forallb] in Hq. apply andb_true_iff in Hq. destruct Hq as [He Hq].
  apply negb_true_iff in He.
  destruct (quiet_step P e a He Ha) as (Ha' & E1 & E2).
  cbn [run fold_left]. destruct (IH (step a e) Hq Ha') as [F1 F2].
  unfold run in F1, F2. rewrite F1, F2. auto.
Qed.

End KeystrokeFacts.



(** ... and the eleventh word is counted once the timer fires. *)
Example keystroke_path_exceeds_peak :
  let today := mkStamp 2025 11 20 in
  let text n := concat (repeat [97; 32]%N n) in
  let a :=
    Keystroke.mkApp (text 10%nat)
      (Keystroke.mkTypingState false None 0 today) 10 10 10 false
      (mkDb None (Some (mkSession today 10 0 0 0))
         (Some (mkStreak 1 1 (Some today)))) in
  let evs :=
    [Keystroke.EvInput Ok 1000 today (text 5%nat);
     Keystroke.EvInput Ok 2000 today (text 11%nat);
     Keystroke.EvStatsTimer Committed today] in
  sessionStats (Keystroke.db (Keystroke.run evs a))
  = Some (mkSession today 11 0 0 0).
Proof. vm_compute. reflexivity. Qed.

(* ================================================================== *)
(** * Part III: further properties of the code                         *)
(* ================================================================== *)

(** ** The ledger *)

Section LedgerMore.

Import Runs.

Lemma db_eta (d : Db) :
  d = mkDb (typingTime d) (sessionStats d) (streakData d).
Proof. destruct d; reflexivity. Qed.

Lemma currentSessionOf_ext (todayStamp : DateStamp) (d d' : Db) :
  sessionStats d = sessionStats d' ->
  currentSessionOf todayStamp d = currentSessionOf todayStamp d'.
Proof. intros E. unfold currentSessionOf. now rewrite E. Qed.

Lemma currentSessionOf_today (todayStamp : DateStamp) (d : Db)
    (sess : SessionStats) :
  sessionStats d = Some sess -> date sess = todayStamp ->
  currentSessionOf todayStamp d = sess.
Proof.
  intros E Ed. unfold currentSessionOf. rewrite E, Ed, stamp_eqb_refl.
  reflexivity.
Qed.

Lemma streakDue_nonpositive (todayStamp : DateStamp) (g : Z)
    (sd : StreakData) :
  g <= 0 -> streakDue todayStamp g sd = false.
Proof.
  intros Hg. unfold streakDue.
  destruct (Z.ltb_spec 0 g); [lia|reflexivity].
Qed.

Lemma sumDeltas_permutation (l l' : list Z) :
  Permutation.Permutation l l' -> sumDeltas l = sumDeltas l'.
Proof.
  unfold sumDeltas. induction 1; cbn [fold_right]; lia.
Qed.

(** The session a run of committed same-day transactions leaves for the
    next one. *)
Lemma currentSessionOf_committedOn (todayStamp : DateStamp)
    (deltas : list Z) (db : Db) :
  let cs := currentSessionOf todayStamp db in
  let cs' :=
    currentSessionOf todayStamp
      (runTransactions (committedOn todayStamp deltas) db) in
  date cs' = todayStamp
  /\ words cs' = words cs + sumDeltas deltas
  /\ sprints cs' = sprints cs
  /\ bestSprint cs' = bestSprint cs.
Proof.
  revert db. induction deltas as [|g deltas IH]; intros db; cbn zeta.
  - cbn. rewrite currentSessionOf_date. repeat split; lia.
  - unfold committedOn, onDay in *.
    cbn [map fst snd runTransactions fold_left applyTx
           updateAllStatsTransaction].
    specialize (IH (statsTransactionBody todayStamp g db)).
    cbn zeta in IH. unfold runTransactions in IH.
    destruct IH as (I1 & I2 & I3 & I4).
    rewrite I1, I2, I3, I4, currentSessionOf_after. cbn zeta.
    cbn [words sprints bestSprint sumDeltas fold_right].
    repeat split; unfold sumDeltas; lia.
Qed.

End LedgerMore.

(** X1.  A transaction, committed or aborted, never writes the
    typing-time row; with a delta that is not positive it never writes
    the streak row; and on a session record dated today it leaves the
    date, [sprints] and [bestSprint] as they are. *)
Theorem transaction_frame (o : TxOutcome) (todayStamp : DateStamp) (g : Z)
    (db : Db) :
  let db' := updateAllStatsTransaction o todayStamp g db in
  typingTime db' = typingTime db
  /\ (g <= 0 -> streakData db' = streakData db)
  /\ (forall sess,
         sessionStats db = Some sess -> date sess = todayStamp ->
         exists sess',
           sessionStats db' = Some sess'
           /\ date sess' = todayStamp
           /\ sprints sess' = sprints sess
           /\ bestSprint sess' = bestSprint sess).
Proof.
  cbn zeta. destruct o; cbn [updateAllStatsTransaction].
  - split; [apply typingTime_after|split].
    + intros Hg. rewrite streakData_after.
      now rewrite streakDue_nonpositive.
    + intros sess Es Ed. rewrite sessionStats_after. cbn zeta.
      rewrite (currentSessionOf_today todayStamp db sess Es Ed).
      eexists. split; [reflexivity|]. cbn. auto.
  - split; [reflexivity|split; [reflexivity|]].
    intros sess Es Ed. exists sess. auto.
Qed.

Lemma transaction_frame_witness :
  let today := mkStamp 2025 11 20 in
  let sd := mkStreak 4 6 (Some (mkStamp 2025 11 19)) in
  let db := mkDb None (Some (mkSession today 10 0 2 80)) (Some sd) in
  streakData (updateAllStatsTransaction Committed today 0 db) = Some sd.
Proof.
  intros today sd db.
  apply (proj1 (proj2 (transaction_frame Committed today 0 db))).
  lia.
Defined.

(** X2.  After a committed transaction the sidebar shows exactly the
    session record that was stored: [updateSessionStats] on the same
    day returns the stored record, field by field. *)
Theorem display_agrees_with_store (todayStamp : DateStamp) (g : Z) (db : Db) :
  let db' := updateAllStatsTransaction Committed todayStamp g db in
  sessionStats db' = Some (updateSessionStats Ok Ok todayStamp db').
Proof.
  cbn zeta. cbn [updateAllStatsTransaction].
  unfold updateSessionStats, storage_get.
  rewrite typingTime_after, sessionStats_after. cbn zeta. cbn [date].
  rewrite currentSessionOf_date, stamp_eqb_refl. cbn [negb].
  cbn [date words sprints bestSprint].
  unfold minutesOf. destruct (typingTime db); reflexivity.
Qed.

(** X3.  Any number of committed transactions on one day add up: the
    words of today's record grow by the sum of the deltas, whatever
    their order, and [sprints] and [bestSprint] are not touched. *)
Theorem words_sum_of_deltas (todayStamp : DateStamp) (deltas : list Z)
    (db : Db) :
  let after ds :=
    currentSessionOf todayStamp
      (runTransactions (Runs.committedOn todayStamp ds) db) in
  words (after deltas)
  = words (currentSessionOf todayStamp db) + Runs.sumDeltas deltas
  /\ sprints (after deltas) = sprints (currentSessionOf todayStamp db)
  /\ bestSprint (after deltas) = bestSprint (currentSessionOf todayStamp db)
  /\ (forall deltas',
         Permutation.Permutation deltas deltas' ->
         words (after deltas') = words (after deltas)).
Proof.
  cbn zeta.
  destruct (currentSessionOf_committedOn todayStamp deltas db)
    as (_ & E2 & E3 & E4).
  cbn zeta in E2, E3, E4.
  repeat split; try assumption.
  intros deltas' Hp.
  destruct (currentSessionOf_committedOn todayStamp deltas' db)
    as (_ & E2' & _).
  cbn zeta in E2'. rewrite E2, E2'.
  now rewrite (sumDeltas_permutation deltas deltas' Hp).
Qed.

Lemma words_sum_of_deltas_witness :
  let today := mkStamp 2025 11 20 in
  let db := mkDb None (Some (mkSession (mkStamp 2025 11 19) 99 3 1 50)) None in
  words
    (currentSessionOf today
       (runTransactions (Runs.committedOn today [3; 4; 5]) db))
  = words
      (currentSessionOf today
         (runTransactions (Runs.committedOn today [5; 3; 4]) db)).
Proof.
  intros today db.
  apply (proj2 (proj2 (proj2 (words_sum_of_deltas today [5; 3; 4] db)))
           [3; 4; 5]).
  apply (Permutation.Permutation_cons_app [3; 4] [] 5).
  apply Permutation.Permutation_refl.
Defined.

Section StreakRuns.

Import Runs.

Lemma year_nextDay (D : DateStamp) : year (nextDay D) <= year D + 1.
Proof.
  unfold nextDay. destruct (day D <? daysInMonth (year D) (month D));
    [cbn; lia|]. destruct (month D <? 12); cbn; lia.
Qed.

End StreakRuns.

(** X4.  Writing on each of the [k] days that follow [lastDate] raises
    the streak by [k]: after one committed transaction with a positive
    delta on each of those days, in turn, the count is the old count
    plus [k], the record is the larger of the old record and that
    count, and [lastDate] is the last of the days. *)
Theorem streak_grows_day_by_day (deltas : list Z) :
  forall (D : DateStamp) (c r : Z) (tt : option TypingTime)
         (ss : option SessionStats),
    Forall (fun g => 0 < g) deltas ->
    validStamp D = true ->
    year D + Z.of_nat (length deltas) <= 9999 ->
    c <= r ->
    let k := Z.of_nat (length deltas) in
    streakData
      (runTransactions (Runs.consecutiveDays D deltas)
         (mkDb tt ss (Some (mkStreak c r (Some D)))))
    = Some (mkStreak (c + k) (Z.max r (c + k))
              (Some (Runs.daysAfter (length deltas) D))).
Proof.
  induction deltas as [|g deltas IH]; intros D c r tt ss Hpos Hv Hy Hcr k.
  - cbn. subst k. cbn. rewrite Z.add_0_r.
    now replace (Z.max r c) with r by lia.
  - inversion Hpos as [|g' l' Hg Hpos']; subst.
    cbn [Runs.consecutiveDays runTransactions fold_left applyTx].
    cbn [length] in Hy, k. rewrite Nat2Z.inj_succ in Hy.
    assert (Hy1 : year D < 9999) by lia.
    pose proof (streak_continues_next_day tt ss c r g D Hg Hv Hy1) as Hs.
    set (db1 := updateAllStatsTransaction Committed (nextDay D) g
                  (mkDb tt ss (Some (mkStreak c r (Some D))))) in *.
    rewrite (db_eta db1), Hs.
    pose proof (year_nextDay D) as Hyn.
    specialize (IH (nextDay D) (c + 1) (Z.max r (c + 1))
                  (typingTime db1) (sessionStats db1) Hpos'
                  (validStamp_nextDay D Hv Hy1) ltac:(lia) ltac:(lia)).
    cbn zeta in IH. unfold runTransactions in IH. rewrite IH.
    cbn [Runs.daysAfter]. subst k. rewrite Nat2Z.inj_succ.
    f_equal. f_equal; lia.
Qed.

Lemma streak_grows_day_by_day_witness :
  streakData
    (runTransactions (Runs.consecutiveDays (mkStamp 2025 12 30) [7; 1; 12])
       (mkDb None None (Some (mkStreak 4 5 (Some (mkStamp 2025 12 30))))))
  = Some (mkStreak 7 7 (Some (mkStamp 2026 1 2))).
Proof.
  apply (streak_grows_day_by_day [7; 1; 12] (mkStamp 2025 12 30) 4 5
           None None).
  - repeat constructor.
  - reflexivity.
  - cbn. lia.
  - lia.
Defined.

Section CounterFacts.

Import Runs.

Lemma registerSprintResult_session (ioGet ioSet : Io) (w : Z) (db : Db) :
  sessionStats (registerSprintResult ioGet ioSet w db) = sessionStats db
  \/ exists s,
       sessionStats db = Some s
       /\ sessionStats (registerSprintResult ioGet ioSet w db)
          = Some (mkSession (date s) (words s) (minutes s) (sprints s + 1)
                    (Z.max (bestSprint s) w)).
Proof.
  unfold registerSprintResult, storage_get, storage_set.
  destruct ioGet; [|now left].
  destruct (sessionStats db) as [s|] eqn:E; [|now left].
  destruct ioSet; [|now left].
  right. exists s. split; reflexivity.
Qed.

Lemma nonNegative_step (db : Db) (op : LedgerOp) :
  deltaNonNegative op = true -> nonNegative db -> nonNegative (applyOp db op).
Proof.
  intros Hd Hn. pose proof Hn as (Ht & Hs & Hk).
  destruct op as [o d g|ig is_ w]; cbn [applyOp].
  - cbn [deltaNonNegative] in Hd. apply Z.leb_le in Hd.
    destruct o; cbn [updateAllStatsTransaction]; [|exact Hn].
    assert (Hcs : sessionNonNegative (currentSessionOf d db)).
    { unfold currentSessionOf.
      destruct (sessionStats db) as [v|] eqn:E.
      - destruct (negb (stamp_eqb (date v) d)); [|now apply Hs].
        unfold sessionNonNegative; cbn; lia.
      - cbn. rewrite stamp_eqb_refl. unfold sessionNonNegative; cbn; lia. }
    assert (Hm : 0 <= minutesOf db).
    { unfold minutesOf. destruct (typingTime db) as [t|] eqn:E.
      - specialize (Ht t eq_refl). apply Z.div_pos; lia.
      - cbn. lia. }
    assert (Hcur : 0 <= count (currentStreakOf db)
                   /\ 0 <= record (currentStreakOf db)).
    { unfold currentStreakOf. destruct (streakData db) as [v|] eqn:E.
      - now apply Hk.
      - cbn. lia. }
    split; [|split].
    + intros t. rewrite typingTime_after. apply Ht.
    + intros s0 H. rewrite sessionStats_after in H. cbn zeta in H.
      injection H as <-. destruct Hcs as (? & ? & ? & ?).
      unfold sessionNonNegative. cbn. repeat split; lia.
    + intros sd H. rewrite streakData_after in H.
      destruct (streakDue d g (currentStreakOf db)); [|now apply Hk].
      injection H as <-. cbn.
      destruct (diffIsOne d (lastDate (currentStreakOf db))); lia.
  - destruct (registerSprintResult_frame ig is_ w db) as [Et Es].
    split; [|split].
    + intros t. rewrite Et. apply Ht.
    + intros s1 H.
      destruct (registerSprintResult_session ig is_ w db) as [E|(s0 & E0 & E)];
        rewrite E in H; [now apply Hs|].
      injection H as <-. destruct (Hs s0 E0) as (? & ? & ? & ?).
      unfold sessionNonNegative. cbn. repeat split; lia.
    + intros sd H. rewrite Es in H. now apply Hk.
Qed.

End CounterFacts.

(** X5.  The counters stay non-negative: from a table whose typing
    time, session counters and streak counters are all at least 0,
    every run of transactions with non-negative deltas and of sprint
    registrations with any results, whatever the storage does, leads to
    such a table again. *)
Theorem counters_stay_nonnegative (ops : list Runs.LedgerOp) (db : Db) :
  forallb Runs.deltaNonNegative ops = true ->
  Runs.nonNegative db ->
  Runs.nonNegative (fold_left Runs.applyOp ops db).
Proof.
  revert db. induction ops as [|op ops IH]; intros db Hd Hn; [exact Hn|].
  cbn [forallb] in Hd. apply andb_true_iff in Hd. destruct Hd as [H1 H2].
  cbn [fold_left]. apply IH; [exact H2|].
  now apply nonNegative_step.
Qed.

Lemma counters_stay_nonnegative_witness :
  Runs.nonNegative
    (fold_left Runs.applyOp
       [Runs.OpTransaction Committed (mkStamp 2025 11 20) 5;
        Runs.OpSprintResult Ok Ok (-3);
        Runs.OpTransaction Aborted (mkStamp 2025 11 21) 0]
       (mkDb (Some (mkTyping (mkStamp 2025 11 19) 185000))
          (Some (mkSession (mkStamp 2025 11 19) 120 3 2 80))
          (Some (mkStreak 4 6 (Some (mkStamp 2025 11 19)))))).
Proof.
  apply counters_stay_nonnegative; [reflexivity|].
  split; [|split]; intros x Hx; injection Hx as <-.
  - cbn. lia.
  - unfold Runs.sessionNonNegative. cbn. lia.
  - cbn. lia.
Defined.

Section SprintResults.

Import Runs.

Lemma registerAll_session (results : list Z) :
  forall (tt : option TypingTime) (sess : SessionStats)
         (sd : option StreakData),
    registerAll results (mkDb tt (Some sess) sd)
    = mkDb tt
        (Some (mkSession (date sess) (words sess) (minutes sess)
                 (sprints sess + Z.of_nat (length results))
                 (fold_left Z.max results (bestSprint sess))))
        sd.
Proof.
  induction results as [|w results IH]; intros tt sess sd.
  - cbn. rewrite Z.add_0_r. now destruct sess.
  - cbn [registerAll fold_left]. rewrite registerSprintResult_in_place.
    fold (registerAll results). rewrite IH.
    cbn [date words minutes sprints bestSprint length].
    rewrite Nat2Z.inj_succ.
    replace (sprints sess + 1 + Z.of_nat (length results))
      with (sprints sess + Z.succ (Z.of_nat (length results))) by lia.
    reflexivity.
Qed.

Lemma fold_max_ge (results : list Z) (b : Z) :
  b <= fold_left Z.max results b
  /\ Forall (fun w => w <= fold_left Z.max results b) results.
Proof.
  revert b. induction results as [|w results IH]; intros b.
  - cbn. split; [lia|constructor].
  - cbn [fold_left]. destruct (IH (Z.max b w)) as [H1 H2].
    split; [lia|]. constructor; [lia|exact H2].
Qed.

End SprintResults.

(** X6.  Sprint results add up on the stored record: after [n] calls of
    [registerSprintResult] on a stored session (the storage working),
    [sprints] is [n] higher, [bestSprint] is the largest of its old
    value and the results, so it never goes down and is at least every
    result; the date, the words and the minutes of the record and the
    other two rows are as before. *)
Theorem sprint_results_accumulate (results : list Z)
    (tt : option TypingTime) (sess : SessionStats) (sd : option StreakData) :
  let best := fold_left Z.max results (bestSprint sess) in
  Runs.registerAll results (mkDb tt (Some sess) sd)
  = mkDb tt
      (Some (mkSession (date sess) (words sess) (minutes sess)
               (sprints sess + Z.of_nat (length results)) best))
      sd
  /\ bestSprint sess <= best
  /\ Forall (fun w => w <= best) results.
Proof.
  cbn zeta. split; [apply registerAll_session|].
  apply fold_max_ge.
Qed.

(** X7.  On a session record dated today the transaction and the
    registration of a sprint result do not disturb each other: in
    either order they leave the same table. *)
Theorem transaction_and_sprint_result_commute (todayStamp : DateStamp)
    (g w : Z) (tt : option TypingTime) (sess : SessionStats)
    (sd : option StreakData) :
  date sess = todayStamp ->
  let db := mkDb tt (Some sess) sd in
  updateAllStatsTransaction Committed todayStamp g
    (registerSprintResult Ok Ok w db)
  = registerSprintResult Ok Ok w
      (updateAllStatsTransaction Committed todayStamp g db).
Proof.
  intros Ed db. subst db.
  destruct sess as [d0 w0 m0 s0 b0]. cbn [date] in Ed. subst d0.
  cbn [updateAllStatsTransaction].
  unfold registerSprintResult, storage_get, storage_set,
    statsTransactionBody, currentSessionOf, currentStreakOf, minutesOf.
  cbn [sessionStats streakData typingTime date fst putSessionStats].
  rewrite stamp_eqb_refl. cbn [negb].
  destruct (streakDue todayStamp g
              match sd with Some v => v | None => defaultStreak end);
    reflexivity.
Qed.

Lemma transaction_and_sprint_result_commute_witness :
  let today := mkStamp 2025 11 20 in
  let db := mkDb (Some (mkTyping today 185000))
              (Some (mkSession today 120 3 2 80))
              (Some (mkStreak 4 6 (Some (mkStamp 2025 11 19)))) in
  updateAllStatsTransaction Committed today 12
    (registerSprintResult Ok Ok 95 db)
  = registerSprintResult Ok Ok 95
      (updateAllStatsTransaction Committed today 12 db).
Proof.
  intros today db.
  apply (transaction_and_sprint_result_commute today 12 95). reflexivity.
Defined.

(** ** The keystroke path, the burst timer and the session buttons *)

Section KeystrokeMore.

Import Keystroke Lifecycle.

Lemma countWords_nonneg (text : JSString) : 0 <= countWords text.
Proof.
  unfold countWords. rewrite countWordsWith_wordRuns.
  apply wordStarts_nonneg.
Qed.

Lemma onInput_synced (io : Io) (now : Z) (today : DateStamp) (text : JSString)
    (a : App) :
  lastSyncedWords (onInput io now today text a) = lastSyncedWords a.
Proof.
  unfold onInput. cbn [lastSyncedWords].
  now destruct (resetTypingTimeIfNewDay_frame io today a) as (_ & _ & _ & E & _).
Qed.

Lemma onInput_editor (io : Io) (now : Z) (today : DateStamp) (text : JSString)
    (a : App) :
  editorValue (onInput io now today text a) = text.
Proof. reflexivity. Qed.

Lemma burstTimerFires_counters (io : Io) (now : Z) (a : App) :
  lastSyncedWords (burstTimerFires io now a) = lastSyncedWords a
  /\ editorValue (burstTimerFires io now a) = editorValue a.
Proof.
  unfold burstTimerFires.
  destruct (burstTimer (typing a)); [|split; reflexivity].
  destruct (noStartTimestamp (typing a)); split; reflexivity.
Qed.

(** One event keeps the counters in step and lets neither the peak nor
    the synced count go down. *)
Lemma inStep_step (e : Event) (a : App) :
  inStep a ->
  inStep (step a e)
  /\ peakWordCount a <= peakWordCount (step a e)
  /\ lastSyncedWords a <= lastSyncedWords (step a e).
Proof.
  intros [He Hs]. destruct e as [io now today text|o today|io now];
    cbn [step].
  - unfold inStep.
    rewrite onInput_peak, onInput_synced, onInput_editor. lia.
  - unfold statsTimerFires, inStep.
    destruct (statsTimer a); [|cbn; lia].
    destruct (Z.ltb_spec 0
                (Z.max 0 (countWords (editorValue a) - lastSyncedWords a)));
      cbn; lia.
  - destruct (burstTimerFires_frame io now a) as (_ & _ & Ep & _).
    destruct (burstTimerFires_counters io now a) as [Es Ee].
    cbn zeta in Ep. unfold inStep. rewrite Ep, Es, Ee. lia.
Qed.

(** What one event adds to today's words and to the synced count. *)
Lemma conservation_step (todayStamp : DateStamp) (e : Event) (a : App) :
  timersOnDay todayStamp e = true ->
  let dw := wordsToday todayStamp (db (step a e))
            - wordsToday todayStamp (db a) in
  let ds := lastSyncedWords (step a e) - lastSyncedWords a in
  0 <= dw <= ds /\ (timersCommit e = true -> dw = ds).
Proof.
  intros Hd. cbn zeta. unfold wordsToday.
  destruct e as [io now today text|o today|io now]; cbn [step].
  - rewrite onInput_synced.
    rewrite (currentSessionOf_ext todayStamp _ (db a)
               (proj1 (onInput_frame io now today text a))).
    split; [lia|intros _; lia].
  - cbn [timersOnDay] in Hd. apply stamp_eqb_eq in Hd. subst today.
    unfold statsTimerFires.
    destruct (statsTimer a); [|split; [lia|intros _; lia]].
    destruct (Z.ltb_spec 0
                (Z.max 0 (countWords (editorValue a) - lastSyncedWords a)))
      as [Hpos|Hneg]; cbn [db lastSyncedWords];
      [|split; [lia|intros _; lia]].
    destruct o; cbn [updateAllStatsTransaction timersCommit].
    + rewrite currentSessionOf_after. cbn zeta. cbn [words].
      split; [lia|intros _; lia].
    + split; [lia|discriminate].
  - destruct (burstTimerFires_frame io now a) as (E1 & _).
    destruct (burstTimerFires_counters io now a) as [Es _].
    cbn zeta in E1. rewrite Es.
    rewrite (currentSessionOf_ext todayStamp _ (db a) E1).
    split; [lia|intros _; lia].
Qed.

End KeystrokeMore.

(** X8.  The counters of the keystroke path stay in step with the
    editor.  [loadState] and the new-session button leave them so that
    neither the text in the editor nor the count last synced has more
    words than the peak; every input event and every timer keeps that;
    and along any run of them the peak and the synced count never go
    down. *)
Theorem keystroke_counters_in_step :
  (forall savedText a, Lifecycle.inStep (Lifecycle.loadState savedText a))
  /\ (forall ioS ioT today a,
         Lifecycle.inStep (Lifecycle.newSession ioS ioT today a))
  /\ (forall evs a,
         Lifecycle.inStep a ->
         Lifecycle.inStep (Keystroke.run evs a)
         /\ Keystroke.peakWordCount a
            <= Keystroke.peakWordCount (Keystroke.run evs a)
         /\ Keystroke.lastSyncedWords a
            <= Keystroke.lastSyncedWords (Keystroke.run evs a)).
Proof.
  split; [|split].
  - intros savedText a. unfold Lifecycle.inStep, Lifecycle.loadState.
    cbn. lia.
  - intros ioS ioT today a. unfold Lifecycle.inStep, Lifecycle.newSession.
    cbn. lia.
  - intros evs. induction evs as [|e evs IH]; intros a Ha.
    + cbn. repeat split; try apply Ha; lia.
    + cbn [Keystroke.run fold_left].
      destruct (inStep_step e a Ha) as (Ha' & Hp & Hs).
      destruct (IH (Keystroke.step a e) Ha') as (I1 & I2 & I3).
      unfold Keystroke.run in I1, I2, I3.
      repeat split; try apply I1; lia.
Qed.

Lemma keystroke_counters_in_step_witness :
  let today := mkStamp 2025 11 20 in
  let text n := concat (repeat [97; 32]%N n) in
  let a :=
    Lifecycle.loadState (Some (text 10%nat))
      (Keystroke.mkApp [] (Keystroke.mkTypingState false None 0 today)
         0 0 0 false emptyDb) in
  let evs :=
    [Keystroke.EvInput Ok 1000 today (text 12%nat);
     Keystroke.EvStatsTimer Committed today;
     Keystroke.EvInput Ok 2000 today (text 3%nat)] in
  Keystroke.lastSyncedWords a
  <= Keystroke.lastSyncedWords (Keystroke.run evs a).
Proof.
  intros today text a evs.
  apply (proj2 (proj2 keystroke_counters_in_step) evs a).
  apply (proj1 keystroke_counters_in_step).
Defined.

(** X9.  Words are credited once.  Along any run of input events and
    timers whose transactions all read the same day from the clock,
    today's words never go down and grow by no more than the synced
    count grows; when every transaction commits they grow by exactly
    that much. *)
Theorem words_follow_synced_count (todayStamp : DateStamp)
    (evs : list Keystroke.Event) (a : Keystroke.App) :
  forallb (Lifecycle.timersOnDay todayStamp) evs = true ->
  let dw :=
    Lifecycle.wordsToday todayStamp (Keystroke.db (Keystroke.run evs a))
    - Lifecycle.wordsToday todayStamp (Keystroke.db a) in
  let ds :=
    Keystroke.lastSyncedWords (Keystroke.run evs a)
    - Keystroke.lastSyncedWords a in
  0 <= dw <= ds
  /\ (forallb Lifecycle.timersCommit evs = true -> dw = ds).
Proof.
  revert a. induction evs as [|e evs IH]; intros a Hd; cbn zeta.
  - cbn. split; [lia|intros _; lia].
  - cbn [forallb] in Hd. apply andb_true_iff in Hd. destruct Hd as [H1 H2].
    cbn [Keystroke.run fold_left].
    pose proof (conservation_step todayStamp e a H1) as [Hs1 Hs2].
    pose proof (IH (Keystroke.step a e) H2) as [Hi1 Hi2].
    cbn zeta in Hs1, Hs2, Hi1, Hi2. unfold Keystroke.run in Hi1, Hi2.
    split; [lia|].
    intros Hc. cbn [forallb] in Hc. apply andb_true_iff in Hc.
    destruct Hc as [Hc1 Hc2].
    specialize (Hs2 Hc1). specialize (Hi2 Hc2). lia.
Qed.

Lemma words_follow_synced_count_witness :
  let today := mkStamp 2025 11 20 in
  let text n := concat (repeat [97; 32]%N n) in
  let a :=
    Keystroke.mkApp (text 10%nat)
      (Keystroke.mkTypingState false None 0 today) 10 10 10 false
      (mkDb None (Some (mkSession today 10 0 0 0)) None) in
  let evs :=
    [Keystroke.EvInput Ok 1000 today (text 12%nat);
     Keystroke.EvStatsTimer Committed today;
     Keystroke.EvInput Ok 2000 today (text 15%nat);
     Keystroke.EvStatsTimer Committed today] in
  Lifecycle.wordsToday today (Keystroke.db (Keystroke.run evs a))
  - Lifecycle.wordsToday today (Keystroke.db a)
  = Keystroke.lastSyncedWords (Keystroke.run evs a)
    - Keystroke.lastSyncedWords a.
Proof.
  intros today text a evs.
  apply (proj2 (words_follow_synced_count today evs a eq_refl)).
  reflexivity.
Defined.

Section BurstFacts.

Import Keystroke Lifecycle.

(** An input on the day of the accumulator, while a burst is under way,
    keeps the burst as it is and sets its timer again. *)
Lemma onInput_in_burst (io : Io) (now t0 : Z) (today : DateStamp)
    (text : JSString) (a : App) :
  typingDay (typing a) = today ->
  startTimestamp (typing a) = Some t0 -> t0 <> 0 ->
  typing (onInput io now today text a)
  = mkTypingState true (Some t0) (totalTime (typing a)) today
  /\ typingTime (db (onInput io now today text a)) = typingTime (db a).
Proof.
  intros Ed Es Ht. unfold onInput, resetTypingTimeIfNewDay.
  rewrite Ed, stamp_eqb_refl. cbn [negb typing db].
  unfold noStartTimestamp. rewrite Es.
  destruct (Z.eqb_spec t0 0); [contradiction|].
  now rewrite Ed.
Qed.

Lemma burst_inputs_keep (today : DateStamp) (t0 : Z)
    (keys : list (Io * Z * JSString)) :
  forall a,
    typing a = mkTypingState true (Some t0) (totalTime (typing a)) today ->
    t0 <> 0 ->
    typing (run (burstInputs today keys) a)
    = mkTypingState true (Some t0) (totalTime (typing a)) today
    /\ typingTime (db (run (burstInputs today keys) a)) = typingTime (db a).
Proof.
  induction keys as [|[[io now] text] keys IH]; intros a Ha Ht.
  - cbn. now split.
  - cbn [burstInputs map run fold_left step fst snd].
    assert (Ed : typingDay (typing a) = today) by (rewrite Ha; reflexivity).
    assert (Es : startTimestamp (typing a) = Some t0)
      by (rewrite Ha; reflexivity).
    destruct (onInput_in_burst io now t0 today text a Ed Es Ht) as [E1 E2].
    specialize (IH (onInput io now today text a)).
    rewrite E1 in IH. cbn [totalTime] in IH.
    destruct (IH eq_refl Ht) as [I1 I2].
    unfold run, burstInputs in I1, I2. rewrite I1, I2. now split.
Qed.

End BurstFacts.

(** X10.  A burst of typing is timed once, from its first keystroke to
    the firing of the burst timer.  With no burst under way, after any
    number of keystrokes on the accumulator's day (the first at a clock
    reading other than 0) the burst timer adds to the total the time
    from the first keystroke to its own firing, ends the burst, and
    stores the total under that day if the write goes through; fired
    again without a keystroke in between it changes nothing. *)
Theorem typing_burst_is_timed_once (today : DateStamp) (io1 : Io) (now1 : Z)
    (text1 : JSString) (keys : list (Io * Z * JSString))
    (ioT ioT' : Io) (nowEnd nowLater : Z) (a : Keystroke.App) :
  Keystroke.typingDay (Keystroke.typing a) = today ->
  Keystroke.startTimestamp (Keystroke.typing a) = None ->
  now1 <> 0 ->
  let a1 :=
    Keystroke.run (Lifecycle.burstInputs today ((io1, now1, text1) :: keys))
      a in
  let a2 := Keystroke.burstTimerFires ioT nowEnd a1 in
  let total := Keystroke.totalTime (Keystroke.typing a) + (nowEnd - now1) in
  Keystroke.typing a2 = Keystroke.mkTypingState false None total today
  /\ (ioT = Ok ->
      typingTime (Keystroke.db a2) = Some (mkTyping today total))
  /\ (ioT = Fault ->
      typingTime (Keystroke.db a2) = typingTime (Keystroke.db a))
  /\ Keystroke.burstTimerFires ioT' nowLater a2 = a2.
Proof.
  intros Ed Es Hn a1 a2 total.
  set (a0 := Keystroke.onInput io1 now1 today text1 a).
  assert (E0 : Keystroke.typing a0
               = Keystroke.mkTypingState true (Some now1)
                   (Keystroke.totalTime (Keystroke.typing a)) today
               /\ typingTime (Keystroke.db a0) = typingTime (Keystroke.db a)).
  { unfold a0, Keystroke.onInput, Keystroke.resetTypingTimeIfNewDay.
    rewrite Ed, stamp_eqb_refl. cbn [negb Keystroke.typing Keystroke.db].
    unfold Keystroke.noStartTimestamp. rewrite Es, Ed. now split. }
  destruct E0 as [E0 E0'].
  assert (E1 : Keystroke.typing a1
               = Keystroke.mkTypingState true (Some now1)
                   (Keystroke.totalTime (Keystroke.typing a)) today
               /\ typingTime (Keystroke.db a1) = typingTime (Keystroke.db a)).
  { unfold a1.
    cbn [Lifecycle.burstInputs map Keystroke.run fold_left Keystroke.step
           fst snd].
    fold a0.
    pose proof (burst_inputs_keep today now1 keys a0) as H.
    rewrite E0 in H. cbn [Keystroke.totalTime] in H.
    destruct (H eq_refl Hn) as [H1 H2].
    unfold Keystroke.run, Lifecycle.burstInputs in H1, H2.
    rewrite H1, H2. now split. }
  destruct E1 as [E1 E1'].
  assert (E2 : a2 = Keystroke.mkApp (Keystroke.editorValue a1)
                      (Keystroke.mkTypingState false None total today)
                      (Keystroke.lastWordCount a1)
                      (Keystroke.peakWordCount a1)
                      (Keystroke.lastSyncedWords a1)
                      (Keystroke.statsTimer a1)
                      (fst (storage_set ioT putTypingTime
                              (mkTyping today total) (Keystroke.db a1)))).
  { unfold a2, Keystroke.burstTimerFires. rewrite E1.
    cbn [Keystroke.burstTimer]. unfold Keystroke.noStartTimestamp.
    cbn [Keystroke.startTimestamp Keystroke.totalTime Keystroke.typingDay].
    destruct (Z.eqb_spec now1 0); [contradiction|]. reflexivity. }
  rewrite E2. cbn [Keystroke.typing Keystroke.db].
  split; [reflexivity|split; [|split]].
  - intros ->. reflexivity.
  - intros ->. cbn. exact E1'.
  - reflexivity.
Qed.

Lemma typing_burst_is_timed_once_witness :
  let today := mkStamp 2025 11 20 in
  let a :=
    Keystroke.mkApp [] (Keystroke.mkTypingState false None 60000 today)
      0 0 0 false emptyDb in
  let a1 :=
    Keystroke.run
      (Lifecycle.burstInputs today
         [(Ok, 1000, [97]%N); (Ok, 2500, [97; 98]%N); (Ok, 4000, [97]%N)])
      a in
  Keystroke.typing (Keystroke.burstTimerFires Ok 7000 a1)
  = Keystroke.mkTypingState false None 66000 today.
Proof.
  intros today a a1.
  apply (typing_burst_is_timed_once today Ok 1000 [97]%N
           [(Ok, 2500, [97; 98]%N); (Ok, 4000, [97]%N)] Ok Ok 7000 0 a);
    [reflexivity|reflexivity|discriminate].
Defined.

(** X11.  A new session starts the count from nothing and keeps the
    streak.  The new-session button leaves the streak row as it is and,
    when its two writes go through, a zeroed session for today, which
    is what the sidebar then shows; the first text typed after it is
    credited in full when the statistics timer fires. *)
Theorem new_session_counts_from_zero (today : DateStamp)
    (a : Keystroke.App) (io : Io) (now : Z) (text : JSString) :
  0 < countWords text ->
  let a1 := Lifecycle.newSession Ok Ok today a in
  let a2 := Keystroke.onInput io now today text a1 in
  let a3 := Keystroke.statsTimerFires Committed today a2 in
  streakData (Keystroke.db a1) = streakData (Keystroke.db a)
  /\ sessionStats (Keystroke.db a1) = Some (freshSession today)
  /\ updateSessionStats Ok Ok today (Keystroke.db a1) = freshSession today
  /\ sessionStats (Keystroke.db a3)
     = Some (mkSession today (countWords text) 0 0 0).
Proof.
  intros Hw a1 a2 a3.
  split; [reflexivity|split; [reflexivity|split]].
  { unfold updateSessionStats, storage_get, a1, Lifecycle.newSession.
    cbn [Keystroke.db storage_set fst putSessionStats putTypingTime
           sessionStats typingTime freshSession date time].
    rewrite stamp_eqb_refl. reflexivity. }
  assert (Et : Keystroke.statsTimer a2 = true).
  { unfold a2. rewrite onInput_timer.
    replace (Keystroke.peakWordCount a1 <? countWords text) with true;
      [reflexivity|]. symmetry. apply Z.ltb_lt. exact Hw. }
  assert (Es : Keystroke.lastSyncedWords a2 = 0)
    by (unfold a2; rewrite onInput_synced; reflexivity).
  assert (Ess : sessionStats (Keystroke.db a2) = Some (freshSession today))
    by (unfold a2; rewrite (proj1 (onInput_frame io now today text a1));
        reflexivity).
  assert (Em : minutesOf (Keystroke.db a2) = 0).
  { unfold a2, Keystroke.onInput, Keystroke.resetTypingTimeIfNewDay.
    cbn [Keystroke.db].
    destruct (negb (stamp_eqb today
                      (Keystroke.typingDay (Keystroke.typing a1))));
      [destruct io|]; reflexivity. }
  assert (Ee : Keystroke.editorValue a2 = text) by reflexivity.
  unfold a3. rewrite statsTimerFires_db. cbn zeta.
  rewrite Et, Es, Ee, Z.sub_0_r.
  replace (Z.max 0 (countWords text)) with (countWords text) by lia.
  replace (0 <? countWords text) with true
    by (symmetry; apply Z.ltb_lt; exact Hw).
  cbn [andb updateAllStatsTransaction].
  rewrite sessionStats_after. cbn zeta.
  rewrite (currentSessionOf_today today (Keystroke.db a2) (freshSession today)
             Ess eq_refl), Em.
  reflexivity.
Qed.

Lemma new_session_counts_from_zero_witness :
  let today := mkStamp 2025 11 20 in
  let a :=
    Keystroke.mkApp (concat (repeat [97; 32]%N 500))
      (Keystroke.mkTypingState false None 185000 today) 500 500 500 false
      (mkDb (Some (mkTyping today 185000))
         (Some (mkSession today 500 3 2 80))
         (Some (mkStreak 4 6 (Some today)))) in
  let a1 := Lifecycle.newSession Ok Ok today a in
  let a2 := Keystroke.onInput Ok 1000 today [97; 32; 98]%N a1 in
  sessionStats (Keystroke.db (Keystroke.statsTimerFires Committed today a2))
  = Some (mkSession today 2 0 0 0).
Proof.
  intros today a a1 a2.
  apply (proj2 (proj2 (proj2
           (new_session_counts_from_zero today a Ok 1000 [97; 32; 98]%N
              eq_refl)))).
Defined.

(** X12.  Loading or clearing credits nothing.  After [loadState] has
    put a saved text into the editor, and after the clear button has
    emptied it, no run of input events whose texts have no more words
    than the peak (the words of the loaded text; the peak from before
    the clearing) changes the session row or the streak row, whatever
    timers fire. *)
Theorem load_and_clear_credit_nothing :
  (forall saved a evs,
      Keystroke.statsTimer a = false ->
      forallb (fun e => negb (Keystroke.exceeds (countWords saved) e)) evs
      = true ->
      let a' := Keystroke.run evs (Lifecycle.loadState (Some saved) a) in
      sessionStats (Keystroke.db a') = sessionStats (Keystroke.db a)
      /\ streakData (Keystroke.db a') = streakData (Keystroke.db a))
  /\ (forall a evs,
         Keystroke.statsTimer a = false ->
         forallb
           (fun e => negb (Keystroke.exceeds (Keystroke.peakWordCount a) e))
           evs = true ->
         let a' := Keystroke.run evs (Lifecycle.clearEditor a) in
         sessionStats (Keystroke.db a') = sessionStats (Keystroke.db a)
         /\ streakData (Keystroke.db a') = streakData (Keystroke.db a)).
Proof.
  split.
  - intros saved a evs Ht Hq. cbn zeta.
    apply (quiet_run (countWords saved) evs
             (Lifecycle.loadState (Some saved) a) Hq).
    split; [exact Ht|reflexivity].
  - intros a evs Ht Hq. cbn zeta.
    apply (quiet_run (Keystroke.peakWordCount a) evs
             (Lifecycle.clearEditor a) Hq).
    split; [exact Ht|reflexivity].
Qed.

Lemma load_and_clear_credit_nothing_witness :
  let today := mkStamp 2025 11 20 in
  let text n := concat (repeat [97; 32]%N n) in
  let a :=
    Keystroke.mkApp (text 10%nat)
      (Keystroke.mkTypingState false None 0 today) 10 10 10 false
      (mkDb None (Some (mkSession today 10 0 0 0)) None) in
  let evs :=
    [Keystroke.EvInput Ok 1000 today (text 4%nat);
     Keystroke.EvStatsTimer Committed today;
     Keystroke.EvInput Ok 2000 today (text 10%nat);
     Keystroke.EvStatsTimer Committed today] in
  sessionStats (Keystroke.db (Keystroke.run evs (Lifecycle.clearEditor a)))
  = Some (mkSession today 10 0 0 0).
Proof.
  intros today text a evs.
  apply (proj1 (proj2 load_and_clear_credit_nothing a evs eq_refl
                  ltac:(vm_compute; reflexivity))).
Defined.

(** ** The sprint manager *)

Section SprintMore.

Import Sprint SprintView.

Lemma status_eqb_eq (a b : Status) : status_eqb a b = true <-> a = b.
Proof. destruct a, b; cbn; split; congruence. Qed.

Lemma hasClass_classAdd (c d : Status) (l : list Status) :
  hasClass c (classAdd l d) = status_eqb c d || hasClass c l.
Proof.
  unfold classAdd. destruct (hasClass d l) eqn:Hd.
  - destruct (status_eqb c d) eqn:E; [|reflexivity].
    apply status_eqb_eq in E. subst c. now rewrite Hd.
  - unfold hasClass. rewrite existsb_app. cbn.
    rewrite orb_false_r. apply orb_comm.
Qed.

Lemma hasClass_classRemove_other (c d : Status) (l : list Status) :
  hasClass c (classRemove l d) = negb (status_eqb c d) && hasClass c l.
Proof.
  unfold hasClass, classRemove. induction l as [|x l IH].
  - cbn. now rewrite andb_false_r.
  - cbn [filter existsb]. destruct (status_eqb d x) eqn:Edx; cbn [negb].
    + apply status_eqb_eq in Edx. subst x. rewrite IH.
      destruct (status_eqb c d); reflexivity.
    + cbn [existsb]. rewrite IH.
      destruct (status_eqb c x) eqn:Ecx; [|reflexivity].
      apply status_eqb_eq in Ecx. subst x.
      destruct (status_eqb c d) eqn:Ecd; [|reflexivity].
      apply status_eqb_eq in Ecd. subst d.
      destruct c; discriminate Edx.
Qed.

(** Which classes the pill has after [updatePillClasses] with up to one
    class added and up to three removed, as the manager calls it. *)
Lemma shows_after (c : Status) (add remove : list Status) (u : Ui) :
  hasClass c (pillClasses (updatePillClasses add remove u))
  = existsb (status_eqb c) add
    || (negb (existsb (status_eqb c) remove) && hasClass c (pillClasses u)).
Proof.
  unfold updatePillClasses. cbn [pillClasses].
  assert (Hrem : forall rs l,
             hasClass c (fold_left classRemove rs l)
             = negb (existsb (status_eqb c) rs) && hasClass c l).
  { induction rs as [|r rs IH]; intros l; [reflexivity|].
    cbn [fold_left existsb]. rewrite IH, hasClass_classRemove_other.
    destruct (status_eqb c r), (existsb (status_eqb c) rs); reflexivity. }
  assert (Hadd : forall ads l,
             hasClass c (fold_left classAdd ads l)
             = existsb (status_eqb c) ads || hasClass c l).
  { induction ads as [|d ads IH]; intros l; [reflexivity|].
    cbn [fold_left existsb]. rewrite IH, hasClass_classAdd.
    destruct (status_eqb c d), (existsb (status_eqb c) ads); reflexivity. }
  now rewrite Hadd, Hrem.
Qed.

Ltac pill_classes :=
  unfold pillAgrees, shows in *;
  cbn [sprint ui status tock pillClasses] in *;
  rewrite ?shows_after; cbn [existsb status_eqb negb orb andb];
  repeat split; try tauto; try discriminate.

Lemma pillAgrees_complete (g s : Io) (text : JSString) (m : Machine) :
  pillAgrees (complete g s text m).
Proof. unfold complete. pill_classes. Qed.

(** Where the Tock is counting, [pause()] is the freezing of it; where
    a frozen Tock has an interval or more left, [resume()] is the
    starting of it again. *)
Lemma ticks_agree (g s : Io) (text : JSString) (m : Machine) (t : Tock) :
  tock (sprint m) = Some t ->
  (status (sprint m) = running -> going t = true ->
   Ticks.pause g s text m = Sprint.pause m)
  /\ (status (sprint m) = paused -> going t = false ->
      Ticks.INTERVAL <= lap t ->
      Ticks.resume g s text m = Sprint.resume m).
Proof.
  intros Et. unfold Ticks.INTERVAL. split.
  - intros Es Hg.
    unfold Ticks.pause, Sprint.pause, Ticks.tockToggle, tock_pause.
    rewrite Es, Et, Hg. reflexivity.
  - intros Es Hg Hl.
    unfold Ticks.resume, Sprint.resume, Ticks.tockToggle, tock_pause,
      Ticks.INTERVAL.
    rewrite Es, Et, Hg.
    destruct (Z.eqb_spec (lap t) 0); [lia|].
    destruct (Z.ltb_spec (lap t) 250); [lia|]. reflexivity.
Qed.

(** [state.tock.pause()] on a Tock that fits a running status never
    runs [complete]: it freezes the Tock or finds nothing to start. *)
Lemma tockToggle_running (g s : Io) (text : JSString) (m : Machine)
    (t : Tock) :
  tock (sprint m) = Some t ->
  going t = true \/ lap t = 0 ->
  Ticks.tockToggle g s text m
  = (if going t then Ticks.withTock (Some (mkTock false (lap t))) m else m).
Proof.
  intros Et H. unfold Ticks.tockToggle. rewrite Et.
  destruct (going t); [reflexivity|].
  destruct H as [H|H]; [discriminate H|]. now rewrite H.
Qed.

(** [state.tock.pause()] on a frozen Tock, by the time it has left. *)
Lemma tockToggle_frozen (g s : Io) (text : JSString) (m : Machine)
    (t : Tock) :
  tock (sprint m) = Some t -> going t = false ->
  Ticks.tockToggle g s text m
  = (if lap t =? 0 then m
     else if lap t <? Ticks.INTERVAL then complete g s text m
     else Ticks.withTock (Some (mkTock true (lap t))) m).
Proof.
  intros Et Hg. unfold Ticks.tockToggle. now rewrite Et, Hg.
Qed.

Lemma tockFits_pause (g s : Io) (text : JSString) (m : Machine) :
  tockFits m ->
  tockFits (Ticks.pause g s text m)
  /\ db (Ticks.pause g s text m) = db m
  /\ (pillAgrees m -> pillAgrees (Ticks.pause g s text m)).
Proof.
  intros Hf. unfold Ticks.pause.
  destruct (status (sprint m)) eqn:Es;
    try (split; [exact Hf|split; [reflexivity|intros Hp; exact Hp]]).
  destruct (tock (sprint m)) as [t|] eqn:Et;
    [|split; [exact Hf|split; [reflexivity|intros Hp; exact Hp]]].
  assert (Ht : going t = true \/ lap t = 0)
    by (unfold tockFits in Hf; now rewrite Es, Et in Hf).
  rewrite (tockToggle_running g s text m t Et Ht).
  destruct (going t) eqn:Hg.
  - split; [unfold tockFits; cbn; reflexivity|split; [reflexivity|]].
    intros Hp. unfold pillAgrees, shows in Hp. rewrite Es in Hp.
    destruct Hp as (H1 & H2 & H3).
    pill_classes; rewrite ?H1, ?H2, ?H3; reflexivity.
  - split; [unfold tockFits; cbn; rewrite Et; exact Hg|
            split; [reflexivity|]].
    intros Hp. unfold pillAgrees, shows in Hp. rewrite Es in Hp.
    destruct Hp as (H1 & H2 & H3).
    pill_classes; rewrite ?H1, ?H2, ?H3; reflexivity.
Qed.

Lemma tockFits_resume (g s : Io) (text : JSString) (m : Machine) :
  tockFits m ->
  tockFits (Ticks.resume g s text m)
  /\ (Ticks.lastInterval m = false ->
      db (Ticks.resume g s text m) = db m
      /\ (pillAgrees m -> pillAgrees (Ticks.resume g s text m))).
Proof.
  intros Hf. unfold Ticks.resume, Ticks.lastInterval.
  destruct (status (sprint m)) eqn:Es;
    try (split; [exact Hf|intros _; split; [reflexivity|intros Hp; exact Hp]]).
  destruct (tock (sprint m)) as [t|] eqn:Et;
    [|split; [exact Hf|intros _; split; [reflexivity|intros Hp; exact Hp]]].
  assert (Hg : going t = false)
    by (unfold tockFits in Hf; now rewrite Es, Et in Hf).
  rewrite (tockToggle_frozen g s text m t Et Hg), Hg. cbn [negb andb].
  destruct (lap t =? 0) eqn:E0; cbn [negb andb].
  - apply Z.eqb_eq in E0.
    split; [unfold tockFits; cbn; rewrite Et; now right|].
    intros _. split; [reflexivity|].
    intros Hp. unfold pillAgrees, shows in Hp. rewrite Es in Hp.
    destruct Hp as (H1 & H2 & H3).
    pill_classes; rewrite ?H1, ?H2, ?H3; reflexivity.
  - destruct (lap t <? Ticks.INTERVAL) eqn:E1.
    + split; [exact I|]. intros Habs. discriminate Habs.
    + split; [unfold tockFits; cbn; now left|]. intros _.
      split; [reflexivity|].
      intros Hp. unfold pillAgrees, shows in Hp. rewrite Es in Hp.
      destruct Hp as (H1 & H2 & H3).
      pill_classes; rewrite ?H1, ?H2, ?H3; reflexivity.
Qed.

Lemma tockFits_elapse (dt : Z) (g s : Io) (text : JSString) (m : Machine) :
  tockFits m ->
  tockFits (elapse dt g s text m)
  /\ (pillAgrees m -> pillAgrees (elapse dt g s text m)).
Proof.
  intros Hf. unfold elapse.
  destruct (tock (sprint m)) as [t|] eqn:Et; [|now split].
  destruct (going t) eqn:Hg; [|now split].
  destruct (lap t - dt <=? 0).
  - split; [exact I|]. intros _. apply pillAgrees_complete.
  - unfold tockFits in Hf. rewrite Et in Hf.
    destruct (status (sprint m)) eqn:Es; try contradiction.
    + split; [unfold tockFits; cbn; now left|].
      intros Hp. unfold pillAgrees, shows in *. cbn [sprint status ui].
      now rewrite Es in Hp.
    + rewrite Hg in Hf. discriminate Hf.
Qed.

Lemma tockFits_step (e : Ticks.Event) (m : Machine) :
  tockFits m -> tockFits (Ticks.step m e).
Proof.
  intros Hf. destruct e; cbn [Ticks.step].
  - unfold tockFits, start. cbn. now left.
  - now apply tockFits_pause.
  - now apply tockFits_resume.
  - exact I.
  - exact I.
  - now apply tockFits_elapse.
  - exact Hf.
  - unfold Ticks.pillClick. destruct (status (sprint m)) eqn:Es.
    + unfold tockFits in *. cbn. now rewrite Es in *.
    + now apply tockFits_pause.
    + unfold tockFits in *. cbn. now rewrite Es in *.
    + exact Hf.
Qed.

Lemma pillAgrees_calm_step (e : Ticks.Event) (m : Machine) :
  tockFits m -> pillAgrees m ->
  match e with
  | Ticks.EvResume _ _ _ => Ticks.lastInterval m = false
  | _ => True
  end ->
  pillAgrees (Ticks.step m e).
Proof.
  intros Hf Hp Hc. destruct e; cbn [Ticks.step].
  - unfold start. pill_classes.
  - now apply tockFits_pause.
  - now apply (proj2 (tockFits_resume ioGet ioSet editorValue m Hf) Hc).
  - unfold reset. pill_classes.
  - unfold end_, reset. pill_classes.
  - now apply tockFits_elapse.
  - unfold flashTimeout. unfold pillAgrees, shows in *.
    cbn [sprint ui] in *. rewrite !shows_after.
    cbn [existsb status_eqb negb orb andb].
    destruct (status (sprint m)); cbn [status_eqb negb orb andb];
      rewrite ?andb_true_l; tauto.
  - unfold Ticks.pillClick. destruct (status (sprint m)) eqn:Es.
    + unfold pillAgrees, shows in *. cbn [sprint ui pillClasses] in *.
      now rewrite Es in *.
    + now apply tockFits_pause.
    + unfold pillAgrees, shows in *. cbn [sprint ui pillClasses] in *.
      now rewrite Es in *.
    + exact Hp.
Qed.

Lemma control_db (e : Ticks.Event) (m : Machine) :
  tockFits m -> Ticks.controlEvent e = true -> db (Ticks.step m e) = db m.
Proof.
  intros Hf Hc.
  destruct e; cbn [Ticks.controlEvent Ticks.step] in *; try discriminate Hc.
  - reflexivity.
  - now apply tockFits_pause.
  - reflexivity.
  - subst userCancelled. reflexivity.
  - reflexivity.
  - unfold Ticks.pillClick. destruct (status (sprint m)); try reflexivity.
    now apply tockFits_pause.
Qed.

End SprintMore.

(** X13.  Pausing freezes the countdown, down to the last interval.  A
    sprint is started, [d1] milliseconds of its time pass, it is
    paused, any length of time passes, and it is resumed.  While it is
    paused no length of time ends it or writes anything.  If an interval
    (250 ms) or more was left when it was paused, it is running again
    with exactly that time left and nothing has been written.  If less
    was left, the countdown ends inside [resume()]: the result is
    registered as at a natural completion, the manager has no Tock any
    more, but [resume()] goes on to set the status to [running], and the
    pill carries both [finished] and [running]. *)
Theorem pause_freezes_countdown (m0 : Sprint.Machine)
    (minutes currentWordCount now d1 d2 : Z) (g s : Io) (text : JSString) :
  let D := Z.max 1 minutes * 60000 in
  d1 < D ->
  let m1 :=
    Sprint.elapse d1 g s text (Sprint.start minutes currentWordCount now m0) in
  let m2 := Ticks.pause g s text m1 in
  let m3 := Sprint.elapse d2 g s text m2 in
  let m4 := Ticks.resume g s text m3 in
  let gained := Z.max 0 (countWords text - currentWordCount) in
  Sprint.status (Sprint.sprint m2) = Sprint.paused
  /\ Sprint.tock (Sprint.sprint m2) = Some (Sprint.mkTock false (D - d1))
  /\ m3 = m2
  /\ Sprint.db m2 = Sprint.db m0
  /\ (Ticks.INTERVAL <= D - d1 ->
      Sprint.status (Sprint.sprint m4) = Sprint.running
      /\ Sprint.tock (Sprint.sprint m4) = Some (Sprint.mkTock true (D - d1))
      /\ Sprint.sprint m4 = Sprint.sprint m1
      /\ Sprint.db m4 = Sprint.db m0)
  /\ (D - d1 < Ticks.INTERVAL ->
      Sprint.status (Sprint.sprint m4) = Sprint.running
      /\ Sprint.tock (Sprint.sprint m4) = None
      /\ Sprint.wordsGained (Sprint.sprint m4) = gained
      /\ Sprint.db m4 = registerSprintResult g s gained (Sprint.db m0)
      /\ SprintView.shows Sprint.finished m4 = true
      /\ SprintView.shows Sprint.running m4 = true).
Proof.
  intros D Hd m1 m2 m3 m4 gained.
  assert (E1 : m1 = Sprint.mkMachine
                      (Sprint.mkSprint (Some (Sprint.mkTock true (D - d1)))
                         Sprint.running D now currentWordCount 0)
                      (Sprint.updatePillClasses [Sprint.running]
                         [Sprint.idle; Sprint.paused; Sprint.finished]
                         (Sprint.ui m0))
                      (Sprint.db m0)).
  { unfold m1, Sprint.elapse, Sprint.start, Sprint.tock_start.
    cbn [Sprint.sprint Sprint.tock Sprint.going Sprint.lap Sprint.status
           Sprint.durationMs Sprint.startTime Sprint.startWords
           Sprint.wordsGained Sprint.ui Sprint.db].
    fold D. destruct (Z.leb_spec (D - d1) 0); [lia|reflexivity]. }
  assert (E2 : m2 = Sprint.mkMachine
                      (Sprint.mkSprint (Some (Sprint.mkTock false (D - d1)))
                         Sprint.paused D now currentWordCount 0)
                      (Sprint.updatePillClasses [Sprint.paused]
                         [Sprint.running] (Sprint.ui m1))
                      (Sprint.db m0)).
  { unfold m2. rewrite E1. reflexivity. }
  assert (E3 : m3 = m2) by (unfold m3; rewrite E2; reflexivity).
  split; [rewrite E2; reflexivity|].
  split; [rewrite E2; reflexivity|].
  split; [exact E3|].
  split; [rewrite E2; reflexivity|].
  unfold m4. rewrite E3, E2. unfold Ticks.resume, Ticks.tockToggle.
  cbn [Sprint.sprint Sprint.status Sprint.tock Sprint.going Sprint.lap].
  unfold Ticks.INTERVAL.
  destruct (Z.eqb_spec (D - d1) 0); [lia|].
  split.
  - intros Hl. destruct (Z.ltb_spec (D - d1) 250); [lia|].
    rewrite E1. repeat split.
  - intros Hl. destruct (Z.ltb_spec (D - d1) 250); [|lia].
    unfold Sprint.complete, Ticks.withStatus, SprintView.shows.
    cbn [Sprint.sprint Sprint.ui Sprint.db Sprint.status Sprint.tock
           Sprint.wordsGained Sprint.startWords Sprint.pillClasses].
    repeat split;
      repeat (rewrite shows_after;
              cbn [Sprint.pillClasses existsb Sprint.status_eqb negb orb
                     andb]);
      reflexivity.
Qed.

Lemma pause_freezes_countdown_witness :
  let m0 :=
    Sprint.mkMachine Sprint.initialState (Sprint.mkUi [] 0 false) emptyDb in
  let m1 := Sprint.elapse 120000 Ok Ok [] (Sprint.start 10 0 0 m0) in
  Sprint.tock
    (Sprint.sprint
       (Ticks.resume Ok Ok []
          (Sprint.elapse 900000 Ok Ok [] (Ticks.pause Ok Ok [] m1))))
  = Some (Sprint.mkTock true 480000).
Proof.
  intros m0 m1.
  apply (proj1 (proj2 (proj1 (proj2 (proj2 (proj2 (proj2
           (pause_freezes_countdown m0 10 0 0 120000 900000 Ok Ok []
              eq_refl)))))
           ltac:(vm_compute; discriminate)))).
Defined.

(** A sprint paused with 100 ms left: [resume()] ends it and counts it,
    and leaves the manager running without a Tock. *)
Example resume_in_last_interval :
  let today := mkStamp 2025 11 20 in
  let m0 :=
    Sprint.mkMachine Sprint.initialState (Sprint.mkUi [] 0 false)
      (mkDb None (Some (mkSession today 0 0 0 0)) None) in
  let m1 := Sprint.elapse 599900 Ok Ok [] (Sprint.start 10 0 0 m0) in
  let m4 := Ticks.resume Ok Ok [] (Ticks.pause Ok Ok [] m1) in
  Sprint.status (Sprint.sprint m4) = Sprint.running
  /\ Sprint.tock (Sprint.sprint m4) = None
  /\ Sprint.pillClasses (Sprint.ui m4) = [Sprint.finished; Sprint.running]
  /\ sessionStats (Sprint.db m4) = Some (mkSession today 0 0 1 0).
Proof. vm_compute. repeat split. Qed.

(** X14.  Ending a sprint by hand and letting it run out are counted
    alike only when words were gained.  With the same text in the
    editor, [end(false)] leaves the table that the [complete] callback
    would leave whenever the gain is positive; with no gain [end(false)]
    writes nothing, while [complete] still counts the sprint on a stored
    record.  Either way [end] leaves the manager idle with its state
    cleared. *)
Theorem end_versus_completion (m : Sprint.Machine) (text : JSString) :
  let gained :=
    Z.max 0 (countWords text - Sprint.startWords (Sprint.sprint m)) in
  (forall g s,
      0 < gained ->
      Sprint.db (Sprint.end_ false g s text m)
      = Sprint.db (Sprint.complete g s text m))
  /\ (forall g s,
         gained = 0 -> Sprint.db (Sprint.end_ false g s text m) = Sprint.db m)
  /\ (forall sess,
         gained = 0 -> sessionStats (Sprint.db m) = Some sess ->
         sessionStats (Sprint.db (Sprint.complete Ok Ok text m))
         = Some (mkSession (date sess) (words sess) (minutes sess)
                   (sprints sess + 1) (Z.max (bestSprint sess) 0)))
  /\ (forall c g s,
         Sprint.sprint (Sprint.end_ c g s text m) = Sprint.initialState).
Proof.
  cbn zeta. split; [|split; [|split]].
  - intros g s Hg. unfold Sprint.end_, Sprint.complete.
    cbn [negb andb Sprint.reset Sprint.db].
    replace (0 <? Z.max 0 (countWords text
                           - Sprint.startWords (Sprint.sprint m)))
      with true by (symmetry; apply Z.ltb_lt; exact Hg).
    reflexivity.
  - intros g s Hg. unfold Sprint.end_. rewrite Hg. reflexivity.
  - intros sess Hg Es. unfold Sprint.complete. cbn [Sprint.db].
    rewrite Hg. unfold registerSprintResult, storage_get, storage_set.
    rewrite Es. reflexivity.
  - intros c g s. reflexivity.
Qed.

Lemma end_versus_completion_witness :
  let today := mkStamp 2025 11 20 in
  let text340 := concat (repeat [97; 32]%N 340) in
  let m0 :=
    Sprint.mkMachine Sprint.initialState (Sprint.mkUi [] 0 false)
      (mkDb None (Some (mkSession today 340 4 1 25)) None) in
  let m1 := Sprint.start 15 300 0 m0 in
  Sprint.db (Sprint.end_ false Ok Ok text340 m1)
  = Sprint.db (Sprint.complete Ok Ok text340 m1).
Proof.
  intros today text340 m0 m1.
  apply (proj1 (end_versus_completion m1 text340) Ok Ok).
  vm_compute. reflexivity.
Defined.

(** X15.  The pill shows the status of the manager, but for one call.
    From a manager whose pill agrees with it and whose Tock fits its
    status, after every run of method calls, timers and clicks the Tock
    still fits: an idle or finished manager has none, a paused one has a
    frozen one.  And as long as no [resume()] of the run finds the
    sprint paused in its last interval, the pill still agrees: a
    running or paused sprint shows its own class and neither of the
    other two, an idle manager shows none of [running], [paused],
    [finished], a finished one at most [finished].  A [resume()] that
    does find the sprint there leaves the pill with [finished] and
    [running] together on a manager that is running without a Tock. *)
Theorem pill_shows_status (evs : list Ticks.Event) (m : Sprint.Machine) :
  SprintView.pillAgrees m ->
  SprintView.tockFits m ->
  SprintView.tockFits (Ticks.run evs m)
  /\ (Ticks.calmRun evs m = true -> SprintView.pillAgrees (Ticks.run evs m))
  /\ (forall g s text,
         Ticks.lastInterval m = true ->
         let m' := Ticks.resume g s text m in
         Sprint.status (Sprint.sprint m') = Sprint.running
         /\ Sprint.tock (Sprint.sprint m') = None
         /\ SprintView.shows Sprint.finished m' = true
         /\ SprintView.shows Sprint.running m' = true).
Proof.
  intros Hp Hf. split; [|split].
  - clear Hp. revert m Hf. induction evs as [|e evs IH]; intros m Hf;
      [exact Hf|].
    cbn [Ticks.run fold_left]. apply IH. now apply tockFits_step.
  - revert m Hp Hf. induction evs as [|e evs IH]; intros m Hp Hf Hc;
      [exact Hp|].
    cbn [Ticks.calmRun] in Hc. apply andb_true_iff in Hc.
    destruct Hc as [Hc1 Hc2].
    cbn [Ticks.run fold_left]. apply IH.
    + apply pillAgrees_calm_step; try assumption.
      destruct e; try exact I. now apply negb_true_iff.
    + now apply tockFits_step.
    + exact Hc2.
  - intros g s text Hl. cbn zeta.
    unfold Ticks.lastInterval in Hl. unfold Ticks.resume, Ticks.tockToggle.
    destruct (Sprint.status (Sprint.sprint m)); try discriminate Hl.
    destruct (Sprint.tock (Sprint.sprint m)) as [t|]; [|discriminate Hl].
    apply andb_true_iff in Hl. destruct Hl as [Hl H3].
    apply andb_true_iff in Hl. destruct Hl as [H1 H2].
    apply negb_true_iff in H1. apply negb_true_iff in H2.
    rewrite H1, H2, H3.
    unfold Sprint.complete, Ticks.withStatus, SprintView.shows.
    cbn [Sprint.sprint Sprint.ui Sprint.status Sprint.tock
           Sprint.pillClasses].
    repeat split;
      repeat (rewrite shows_after;
              cbn [Sprint.pillClasses existsb Sprint.status_eqb negb orb
                     andb]);
      reflexivity.
Qed.

Lemma pill_shows_status_witness :
  let m0 :=
    Sprint.mkMachine Sprint.initialState
      (Sprint.mkUi [Sprint.idle] 0 false) emptyDb in
  SprintView.pillAgrees
    (Ticks.run
       [Ticks.EvStart 25 500 0; Ticks.EvPillClick Ok Ok [];
        Ticks.EvElapse 5000 Ok Ok []; Ticks.EvResume Ok Ok [];
        Ticks.EvStart 15 0 9000; Ticks.EvElapse 900000 Ok Ok [];
        Ticks.EvFlashTimeout]
       m0).
Proof.
  intros m0.
  apply (proj1 (proj2 (pill_shows_status _ m0
                         ltac:(cbn; repeat split) I))).
  reflexivity.
Defined.

(** X16.  What records a sprint.  From a manager whose Tock fits its
    status, calls of [start], [pause], [reset] and [end(true)], the
    500 ms timer and clicks on the pill never write the table, in any
    number and order.  [resume()] writes exactly when it finds the
    sprint paused in its last interval, and then it registers the
    result as the [complete] callback does.  A sprint that is started
    over another replaces it without recording it, and lasts a minute
    at least. *)
Theorem sprint_controls_write_nothing (evs : list Ticks.Event)
    (m : Sprint.Machine) (minutes currentWordCount now : Z) :
  SprintView.tockFits m ->
  forallb Ticks.controlEvent evs = true ->
  let m' := Ticks.run evs m in
  let m'' := Sprint.start minutes currentWordCount now m' in
  Sprint.db m' = Sprint.db m
  /\ Sprint.db m'' = Sprint.db m
  /\ Sprint.status (Sprint.sprint m'') = Sprint.running
  /\ Sprint.startWords (Sprint.sprint m'') = currentWordCount
  /\ Sprint.wordsGained (Sprint.sprint m'') = 0
  /\ 60000 <= Sprint.durationMs (Sprint.sprint m'')
  /\ Sprint.tock (Sprint.sprint m'')
     = Some (Sprint.mkTock true (Sprint.durationMs (Sprint.sprint m'')))
  /\ (forall g s text,
         Sprint.db (Ticks.resume g s text m)
         = if Ticks.lastInterval m
           then registerSprintResult g s
                  (Z.max 0 (countWords text
                            - Sprint.startWords (Sprint.sprint m)))
                  (Sprint.db m)
           else Sprint.db m).
Proof.
  intros Hf Hc. cbn zeta.
  assert (E : Sprint.db (Ticks.run evs m) = Sprint.db m).
  { revert m Hf. induction evs as [|e evs IH]; intros m Hf; [reflexivity|].
    cbn [forallb] in Hc. apply andb_true_iff in Hc. destruct Hc as [H1 H2].
    cbn [Ticks.run fold_left].
    rewrite <- (control_db e m Hf H1).
    apply (IH H2). now apply tockFits_step. }
  repeat split; try exact E; [cbn; lia|].
  intros g s text. unfold Ticks.resume, Ticks.lastInterval, Ticks.tockToggle.
  destruct (Sprint.status (Sprint.sprint m)); try reflexivity.
  destruct (Sprint.tock (Sprint.sprint m)) as [t|]; [|reflexivity].
  destruct (Sprint.going t); [reflexivity|]. cbn [negb andb].
  destruct (Sprint.lap t =? 0); [reflexivity|]. cbn [negb andb].
  destruct (Sprint.lap t <? Ticks.INTERVAL); reflexivity.
Qed.

Lemma sprint_controls_write_nothing_witness :
  let today := mkStamp 2025 11 20 in
  let m0 :=
    Sprint.mkMachine Sprint.initialState (Sprint.mkUi [] 0 false)
      (mkDb None (Some (mkSession today 40 1 2 30)) None) in
  let evs :=
    [Ticks.EvStart 25 10 0; Ticks.EvPause Ok Ok [97]%N;
     Ticks.EvPillClick Ok Ok [97]%N; Ticks.EvStart 15 10 5000;
     Ticks.EvEnd true Ok Ok [97]%N; Ticks.EvFlashTimeout; Ticks.EvReset] in
  Sprint.db (Ticks.run evs m0) = Sprint.db m0.
Proof.
  intros today m0 evs.
  apply (proj1 (sprint_controls_write_nothing evs m0 25 0 0 I eq_refl)).
Defined.

(** ** The word counter *)

Section WordCounterMore.

Lemma startsWith_length (pat s : JSString) :
  startsWith pat s = true -> (length pat <= length s)%nat.
Proof.
  revert s. induction pat as [|p pat IH]; intros s H; [cbn; lia|].
  destruct s as [|c s]; [discriminate H|].
  cbn in H. apply andb_true_iff in H. destruct H as [_ H].
  specialize (IH s H). cbn. lia.
Qed.

(** A literal without white space cannot reach across a white-space
    character. *)
Lemma startsWith_app_sep (pat s b : JSString) (c : CodeUnit) :
  forallb (fun p => negb (isWhiteSpace p)) pat = true ->
  pat <> [] -> isWhiteSpace c = true ->
  startsWith pat (s ++ c :: b) = startsWith pat s.
Proof.
  intros Hpat Hne Hc. revert s.
  induction pat as [|p pat IH]; [contradiction|]. intros s.
  cbn [forallb] in Hpat. apply andb_true_iff in Hpat.
  destruct Hpat as [Hp Hpat].
  destruct s as [|x s]; cbn [app startsWith].
  - destruct (N.eqb_spec p c) as [->|Hpc]; [|reflexivity].
    rewrite Hc in Hp. discriminate Hp.
  - destruct (p =? x)%N; [|reflexivity]. cbn [andb].
    destruct pat as [|q pat']; [reflexivity|].
    apply IH; [exact Hpat|discriminate].
Qed.

Lemma replaceLiteral_app_sep (pat rep b : JSString) (c : CodeUnit) :
  forallb (fun p => negb (isWhiteSpace p)) pat = true ->
  pat <> [] -> isWhiteSpace c = true ->
  forall (s : JSString) (k : nat),
    (k <= length s)%nat ->
    replaceLiteral pat rep k (s ++ c :: b)
    = replaceLiteral pat rep k s ++ c :: replaceLiteral pat rep 0 b.
Proof.
  intros Hpat Hne Hc.
  induction s as [|x s IH]; intros k Hk.
  - assert (k = 0%nat) by (cbn in Hk; lia). subst k.
    cbn [app]. unfold replaceLiteral at 1; fold replaceLiteral.
    pose proof (startsWith_app_sep pat [] b c Hpat Hne Hc) as E.
    cbn [app] in E. rewrite E.
    destruct pat; [contradiction|]. reflexivity.
  - destruct k as [|k].
    + change ((x :: s) ++ c :: b) with (x :: (s ++ c :: b)).
      unfold replaceLiteral at 1 2; fold replaceLiteral.
      change (x :: s ++ c :: b) with ((x :: s) ++ c :: b).
      rewrite (startsWith_app_sep pat (x :: s) b c Hpat Hne Hc).
      destruct (startsWith pat (x :: s)) eqn:Em.
      * apply startsWith_length in Em. cbn [length] in Em.
        rewrite IH by lia. now rewrite app_assoc.
      * rewrite IH by lia. reflexivity.
    + cbn [app]. unfold replaceLiteral at 1 2; fold replaceLiteral.
      apply IH. cbn in Hk. lia.
Qed.

Lemma wordStarts_app_sep (x y : JSString) (c : CodeUnit) (inWord : bool) :
  isWhiteSpace c = true ->
  wordStarts inWord (x ++ c :: y)
  = wordStarts inWord x + wordStarts false y.
Proof.
  intros Hc. revert inWord. induction x as [|a x IH]; intros inWord.
  - cbn. now rewrite Hc.
  - cbn. destruct (isWhiteSpace a); rewrite IH; lia.
Qed.

Lemma countWords_sep (a b : JSString) (c : CodeUnit) :
  isWhiteSpace c = true ->
  countWords (a ++ c :: b) = countWords a + countWords b.
Proof.
  intros Hc. unfold countWords. rewrite !countWordsWith_wordRuns.
  rewrite (replaceLiteral_app_sep dashLiteral [SPACE] b c eq_refl
             ltac:(discriminate) Hc a 0%nat) by lia.
  unfold wordRuns. now apply wordStarts_app_sep.
Qed.

Lemma countWords_leading (pre s : JSString) :
  forallb isWhiteSpace pre = true -> countWords (pre ++ s) = countWords s.
Proof.
  induction pre as [|c pre IH]; intros H; [reflexivity|].
  cbn [forallb] in H. apply andb_true_iff in H. destruct H as [Hc Hp].
  change ((c :: pre) ++ s) with ([] ++ c :: (pre ++ s)).
  rewrite (countWords_sep [] (pre ++ s) c Hc). cbn. now apply IH.
Qed.

Lemma countWords_trailing (s post : JSString) :
  forallb isWhiteSpace post = true -> countWords (s ++ post) = countWords s.
Proof.
  destruct post as [|c post]; intros H; [now rewrite app_nil_r|].
  cbn [forallb] in H. apply andb_true_iff in H. destruct H as [Hc Hp].
  rewrite (countWords_sep s post c Hc).
  unfold countWords at 2. rewrite (countWordsWith_white _ _ Hp). lia.
Qed.

Lemma replaceLiteral_length (pat : JSString) (r : CodeUnit) (s : JSString) :
  forall k,
    (length (replaceLiteral pat [r] k s) <= length s)%nat.
Proof.
  induction s as [|c s IH]; intros k; [cbn; lia|].
  unfold replaceLiteral; fold replaceLiteral.
  destruct k as [|k].
  - destruct (startsWith pat (c :: s)).
    + cbn [app length]. specialize (IH (length pat - 1)%nat). lia.
    + cbn [length]. specialize (IH 0%nat). lia.
  - cbn [length]. specialize (IH k). lia.
Qed.

Lemma wordStarts_half (s : JSString) :
  2 * wordStarts true s <= Z.of_nat (length s)
  /\ 2 * wordStarts false s <= Z.of_nat (length s) + 1.
Proof.
  induction s as [|c s [IH1 IH2]]; [cbn; lia|].
  cbn [wordStarts length]. rewrite Nat2Z.inj_succ.
  destruct (isWhiteSpace c); lia.
Qed.

End WordCounterMore.

(** X17.  White space only separates.  Two texts joined by a
    white-space character have the words of both,
    [countWords(a + c + b) = countWords(a) + countWords(b)]; and white
    space in front of a text or behind it changes nothing. *)
Theorem countWords_white_space_separates :
  (forall a b c,
      isWhiteSpace c = true ->
      countWords (a ++ c :: b) = countWords a + countWords b)
  /\ (forall pre s post,
         forallb isWhiteSpace pre = true ->
         forallb isWhiteSpace post = true ->
         countWords (pre ++ s ++ post) = countWords s).
Proof.
  split.
  - apply countWords_sep.
  - intros pre s post Hpre Hpost.
    rewrite (countWords_leading pre (s ++ post) Hpre).
    now apply countWords_trailing.
Qed.

Lemma countWords_white_space_separates_witness :
  countWords ([97; 98]%N ++ 10%N :: [99; 8212; 100; 32; 101]%N)
  = countWords [97; 98]%N + countWords [99; 8212; 100; 32; 101]%N.
Proof.
  apply (proj1 countWords_white_space_separates). reflexivity.
Defined.

(** X18.  The count is bounded by the text: [countWords] is never
    negative, and a text of [n] characters has at most [(n + 1) / 2]
    words. *)
Theorem countWords_bounds (text : JSString) :
  0 <= countWords text
  /\ 2 * countWords text <= Z.of_nat (length text) + 1.
Proof.
  split; [apply countWords_nonneg|].
  unfold countWords. rewrite countWordsWith_wordRuns. unfold wordRuns.
  pose proof (proj2 (wordStarts_half
                       (replaceLiteral dashLiteral [SPACE] 0 text))) as H.
  pose proof (replaceLiteral_length dashLiteral SPACE text 0) as L.
  lia.
Qed.

(** ** Stamps and the sprint clock *)

Section FormatFacts.

Import Format.

Lemma writtenWith_spec (w : nat) (s : JSString) (n : Z) :
  writtenWith w s n = true -> length s = w /\ readNumber s = Some n.
Proof.
  unfold writtenWith. intros H. apply andb_true_iff in H.
  destruct H as [Hl Hr]. apply Nat.eqb_eq in Hl. split; [exact Hl|].
  destruct (readNumber s) as [v|]; [|discriminate Hr].
  apply Z.eqb_eq in Hr. now subst v.
Qed.

Lemma in_zRange (lo len n : Z) : lo <= n < lo + len -> In n (zRange lo len).
Proof.
  intros H. unfold zRange.
  replace n with (lo + Z.of_nat (Z.to_nat (n - lo))) by lia.
  apply (in_map (fun k => lo + Z.of_nat k)), in_seq. lia.
Qed.

(** Every number from 0 to 99, padded, is two digits that read back. *)
Lemma two_digits (n : Z) :
  0 <= n <= 99 ->
  writtenWith 2 (padStart 2 DIGIT_ZERO (numberToString n)) n = true.
Proof.
  intros H.
  assert (Hall : forallb
                   (fun k => writtenWith 2
                               (padStart 2 DIGIT_ZERO (numberToString k)) k)
                   (zRange 0 100) = true)
    by (vm_compute; reflexivity).
  rewrite forallb_forall in Hall. apply Hall.
  apply in_zRange. lia.
Qed.

(** Every year from 1000 to 9999 is four digits that read back. *)
Lemma four_digits (n : Z) :
  1000 <= n <= 9999 -> writtenWith 4 (numberToString n) n = true.
Proof.
  intros H.
  assert (Hall : forallb (fun k => writtenWith 4 (numberToString k) k)
                   (zRange 1000 9000) = true)
    by (vm_compute; reflexivity).
  rewrite forallb_forall in Hall. apply Hall.
  apply in_zRange. lia.
Qed.

Lemma daysInMonth_le_31 (y m : Z) : daysInMonth y m <= 31.
Proof.
  unfold daysInMonth.
  destruct (m =? 2); [destruct (isLeapYear y); lia|].
  destruct ((m =? 4) || (m =? 6) || (m =? 9) || (m =? 11)); lia.
Qed.

Lemma stamp_reads_back (s : DateStamp) :
  validStamp s = true ->
  readStamp (getLocalDateStamp s) = Some s
  /\ length (getLocalDateStamp s) = 10%nat.
Proof.
  destruct s as [y m d]. intros Hv. apply validStamp_iff in Hv.
  destruct Hv as (Hy & Hm & Hd).
  pose proof (daysInMonth_le_31 y m) as H31.
  destruct (writtenWith_spec _ _ _ (four_digits y Hy)) as [Ly Ry].
  destruct (writtenWith_spec _ _ _ (two_digits m ltac:(lia))) as [Lm Rm].
  destruct (writtenWith_spec _ _ _ (two_digits d ltac:(lia))) as [Ld Rd].
  unfold getLocalDateStamp. cbn [year month day].
  destruct (numberToString y) as [|y1 [|y2 [|y3 [|y4 [|? ?]]]]];
    try discriminate Ly.
  destruct (padStart 2 DIGIT_ZERO (numberToString m)) as [|m1 [|m2 [|? ?]]];
    try discriminate Lm.
  destruct (padStart 2 DIGIT_ZERO (numberToString d)) as [|d1 [|d2 [|? ?]]];
    try discriminate Ld.
  split; [|reflexivity].
  cbn [app]. unfold readStamp.
  change ((HYPHEN =? HYPHEN)%N && (HYPHEN =? HYPHEN)%N) with true.
  cbv iota. now rewrite Ry, Rm, Rd.
Qed.

End FormatFacts.

(** X19.  A stamp names its day.  For every day of the calendar with a
    four-digit year, the text built by [getLocalDateStamp] has the ten
    characters YYYY-MM-DD and reads back as that day; so two different
    days never get the same stamp, which is what the comparisons
    [lastDate !== todayStamp] and [date !== todayStamp] rely on. *)
Theorem stamp_names_its_day :
  (forall s,
      validStamp s = true ->
      Format.readStamp (Format.getLocalDateStamp s) = Some s
      /\ length (Format.getLocalDateStamp s) = 10%nat)
  /\ (forall a b,
         validStamp a = true -> validStamp b = true ->
         Format.getLocalDateStamp a = Format.getLocalDateStamp b -> a = b).
Proof.
  split; [apply stamp_reads_back|].
  intros a b Ha Hb E.
  pose proof (proj1 (stamp_reads_back a Ha)) as Ra.
  pose proof (proj1 (stamp_reads_back b Hb)) as Rb.
  rewrite E, Rb in Ra. now injection Ra.
Qed.

Lemma stamp_names_its_day_witness :
  Format.getLocalDateStamp (mkStamp 2025 3 7)
  = [50; 48; 50; 53; 45; 48; 51; 45; 48; 55]%N
  /\ Format.readStamp (Format.getLocalDateStamp (mkStamp 2025 3 7))
     = Some (mkStamp 2025 3 7).
Proof.
  split; [reflexivity|].
  apply (proj1 (proj1 stamp_names_its_day (mkStamp 2025 3 7) eq_refl)).
Defined.

(** X20.  The sprint clock.  For a time left of less than a hundred
    minutes, [updateClockDisplay] gives two digits of minutes and two of
    seconds that read back as the whole seconds left,
    [60 * mm + ss = floor(ms / 1000)] with [ss] below 60; and the clock
    reads 00:00, which is when the hover is taken off the chip, exactly
    during the last second. *)
Theorem clock_shows_seconds_left (ms : Z) :
  0 <= ms < 6000000 ->
  let mm := fst (Format.updateClockDisplay ms) in
  let ss := snd (Format.updateClockDisplay ms) in
  exists m s,
    Format.readNumber mm = Some m /\ Format.readNumber ss = Some s
    /\ length mm = 2%nat /\ length ss = 2%nat
    /\ 0 <= s < 60 /\ 60 * m + s = ms / 1000
    /\ (Format.clockText ms = [48; 48; 58; 48; 48]%N <-> ms < 1000).
Proof.
  intros H. cbn zeta. unfold Format.clockText, Format.updateClockDisplay.
  cbn [fst snd].
  rewrite Z.rem_mod_nonneg by lia.
  set (m := ms / 60000). set (s := ms mod 60000 / 1000).
  assert (Hm : 0 <= m <= 99) by (unfold m; Z.div_mod_to_equations; lia).
  assert (Hs : 0 <= s < 60) by (unfold s; Z.div_mod_to_equations; lia).
  destruct (writtenWith_spec _ _ _ (two_digits m Hm)) as [Lm Rm].
  destruct (writtenWith_spec _ _ _ (two_digits s ltac:(lia))) as [Ls Rs].
  exists m, s.
  split; [exact Rm|]. split; [exact Rs|]. split; [exact Lm|].
  split; [exact Ls|]. split; [exact Hs|].
  split; [unfold m, s; Z.div_mod_to_equations; lia|].
  split.
  - intros E.
    destruct (Format.padStart 2 Format.DIGIT_ZERO (Format.numberToString m))
      as [|a1 [|a2 [|? ?]]]; try discriminate Lm.
    destruct (Format.padStart 2 Format.DIGIT_ZERO (Format.numberToString s))
      as [|b1 [|b2 [|? ?]]]; try discriminate Ls.
    cbn [app] in E. injection E as -> -> -> ->.
    cbn in Rm, Rs. injection Rm as Em. injection Rs as Es.
    unfold m, s in *. Z.div_mod_to_equations. lia.
  - intros Hlt.
    assert (Em : m = 0) by (unfold m; Z.div_mod_to_equations; lia).
    assert (Es : s = 0) by (unfold s; Z.div_mod_to_equations; lia).
    rewrite Em, Es. reflexivity.
Qed.

Lemma clock_shows_seconds_left_witness :
  exists m s,
    Format.readNumber (fst (Format.updateClockDisplay 1499750)) = Some m
    /\ Format.readNumber (snd (Format.updateClockDisplay 1499750)) = Some s
    /\ 60 * m + s = 1499.
Proof.
  destruct (clock_shows_seconds_left 1499750 ltac:(lia))
    as (m & s & Rm & Rs & _ & _ & _ & E & _).
  exists m, s. auto.
Defined.

(** ** The Markdown export *)

Section MarkdownFacts.

Import Markdown.

(** A match of the blank-line expression is a prefix of two newlines,
    each with or without a carriage return before it. *)
Lemma matchBlankLine_prefix (s : JSString) (n : nat) :
  matchBlankLine s = Some n ->
  exists m rest,
    s = m ++ rest /\ length m = n /\ (2 <= n)%nat
    /\ filter notCR m = [NEWLINE; NEWLINE].
Proof.
  unfold matchBlankLine, notCR, CR, NEWLINE.
  destruct s as [|c1 s]; [discriminate|].
  destruct (N.eqb_spec c1 13) as [->|H1].
  - destruct s as [|c2 s]; [discriminate|].
    destruct (N.eqb_spec c2 10) as [->|H2]; [|discriminate].
    destruct s as [|c3 s]; [discriminate|].
    destruct (N.eqb_spec c3 13) as [->|H3].
    + destruct s as [|c4 s]; [discriminate|].
      destruct (N.eqb_spec c4 10) as [->|H4]; [|discriminate].
      intros [= <-]. exists [13; 10; 13; 10]%N, s.
      repeat split; cbn; lia.
    + destruct (N.eqb_spec c3 10) as [->|H4]; [|discriminate].
      intros [= <-]. exists [13; 10; 10]%N, s.
      repeat split; cbn; lia.
  - destruct (N.eqb_spec c1 10) as [->|H2]; [|discriminate].
    destruct s as [|c3 s]; [discriminate|].
    destruct (N.eqb_spec c3 13) as [->|H3].
    + destruct s as [|c4 s]; [discriminate|].
      destruct (N.eqb_spec c4 10) as [->|H4]; [|discriminate].
      intros [= <-]. exists [10; 13; 10]%N, s.
      repeat split; cbn; lia.
    + destruct (N.eqb_spec c3 10) as [->|H4]; [|discriminate].
      intros [= <-]. exists [10; 10]%N, s.
      repeat split; cbn; lia.
Qed.

Lemma replaceBlankLines_skip (s : JSString) :
  forall k, replaceBlankLines k s = replaceBlankLines 0 (skipn k s).
Proof.
  induction s as [|c s IH]; intros k.
  - now destruct k.
  - destruct k as [|k]; [reflexivity|]. cbn [replaceBlankLines skipn].
    apply IH.
Qed.

(** After a match the replacement goes on with what follows the
    match. *)
Lemma replaceBlankLines_match (c : CodeUnit) (s m rest : JSString) :
  c :: s = m ++ rest -> (2 <= length m)%nat ->
  replaceBlankLines (length m - 1) s = replaceBlankLines 0 rest.
Proof.
  intros E Hm. rewrite replaceBlankLines_skip. f_equal.
  destruct m as [|x m]; [cbn in Hm; lia|].
  cbn [app] in E. injection E as _ ->.
  cbn [length]. rewrite Nat.sub_succ, Nat.sub_0_r.
  rewrite skipn_app, Nat.sub_diag, skipn_all. reflexivity.
Qed.

Lemma export_keeps_all_but_cr (n : nat) :
  forall s,
    (length s <= n)%nat ->
    filter notCR (replaceBlankLines 0 s) = filter notCR s.
Proof.
  induction n as [|n IH]; intros s Hn.
  - destruct s; [reflexivity|cbn in Hn; lia].
  - destruct s as [|c s]; [reflexivity|].
    unfold replaceBlankLines; fold replaceBlankLines.
    destruct (matchBlankLine (c :: s)) as [k|] eqn:Em.
    + destruct (matchBlankLine_prefix _ _ Em) as (m & rest & E & Lm & Hk & Fm).
      subst k. rewrite (replaceBlankLines_match c s m rest E Hk).
      rewrite E, !filter_app, Fm.
      rewrite IH; [reflexivity|].
      assert (L : length (c :: s) = (length m + length rest)%nat)
        by (rewrite E; apply length_app).
      cbn [length] in L, Hn. lia.
    + cbn [filter]. rewrite IH by (cbn in Hn; lia). reflexivity.
Qed.

Lemma export_without_cr (s : JSString) :
  forall k,
    forallb notCR s = true -> forallb notCR (replaceBlankLines k s) = true.
Proof.
  induction s as [|c s IH]; intros k H; [reflexivity|].
  cbn [forallb] in H. apply andb_true_iff in H. destruct H as [Hc Hs].
  unfold replaceBlankLines; fold replaceBlankLines.
  destruct k as [|k]; [|now apply IH].
  destruct (matchBlankLine (c :: s)).
  - cbn [app forallb]. rewrite IH by exact Hs. reflexivity.
  - cbn [forallb]. rewrite Hc. now apply IH.
Qed.

Lemma filter_all (p : CodeUnit -> bool) (s : JSString) :
  forallb p s = true -> filter p s = s.
Proof.
  induction s as [|c s IH]; intros H; [reflexivity|].
  cbn [forallb] in H. apply andb_true_iff in H. destruct H as [Hc Hs].
  cbn [filter]. rewrite Hc. f_equal. now apply IH.
Qed.

Lemma export_length (s : JSString) :
  forall k,
    (length (replaceBlankLines k s) + Nat.min k (length s) <= length s)%nat.
Proof.
  induction s as [|c s IH]; intros k; [cbn; lia|].
  unfold replaceBlankLines; fold replaceBlankLines.
  destruct k as [|k].
  - destruct (matchBlankLine (c :: s)) as [n|] eqn:Em.
    + destruct (matchBlankLine_prefix _ _ Em) as (m & rest & E & Lm & Hk & _).
      assert (L : length (c :: s) = (length m + length rest)%nat)
        by (rewrite E; apply length_app).
      cbn [length] in L. specialize (IH (n - 1)%nat).
      cbn [app length Nat.min]. lia.
    + specialize (IH 0%nat). cbn [length Nat.min] in *. lia.
  - specialize (IH k). cbn [length Nat.min]. lia.
Qed.

End MarkdownFacts.

(** X21.  The Markdown export only drops carriage returns.  The text it
    writes has the characters of the editor's text in their order, less
    some carriage returns: with all carriage returns taken out, the two
    are the same; it is never longer; and a text without carriage
    returns is exported as it is. *)
Theorem markdown_export_drops_only_cr (text : JSString) :
  filter Markdown.notCR (Markdown.exportMarkdown text)
  = filter Markdown.notCR text
  /\ (length (Markdown.exportMarkdown text) <= length text)%nat
  /\ (forallb Markdown.notCR text = true ->
      Markdown.exportMarkdown text = text).
Proof.
  unfold Markdown.exportMarkdown.
  pose proof (export_keeps_all_but_cr (length text) text (Nat.le_refl _)) as F.
  split; [exact F|split].
  - pose proof (export_length text 0). lia.
  - intros H.
    rewrite <- (filter_all Markdown.notCR
                  (Markdown.replaceBlankLines 0 text))
      by (now apply export_without_cr).
    rewrite F. now apply filter_all.
Qed.

Lemma markdown_export_drops_only_cr_witness :
  Markdown.exportMarkdown [97; 10; 10; 98; 10; 99]%N
  = [97; 10; 10; 98; 10; 99]%N.
Proof.
  apply (proj2 (proj2 (markdown_export_drops_only_cr
                         [97; 10; 10; 98; 10; 99]%N))).
  reflexivity.
Defined.

(** Windows line ends around a blank line become plain newlines; a
    single Windows line end is left alone. *)
Example markdown_export_crlf :
  Markdown.exportMarkdown [97; 13; 10; 13; 10; 98; 13; 10; 99]%N
  = [97; 10; 10; 98; 13; 10; 99]%N.
Proof. reflexivity. Qed.

Section DocxFacts.

Import Markdown.

Lemma splitLinesGo_nonempty (s cur : JSString) : splitLinesGo cur s <> [].
Proof.
  revert cur. induction s as [|c s IH]; intros cur; cbn; [discriminate|].
  destruct (c =? NEWLINE)%N; [discriminate|apply IH].
Qed.

Lemma joinLines_cons (l : JSString) (ls : list JSString) :
  ls <> [] -> joinLines (l :: ls) = l ++ NEWLINE :: joinLines ls.
Proof. destruct ls; [contradiction|reflexivity]. Qed.

Lemma splitLinesGo_spec (s : JSString) :
  forall cur,
    forallb (fun c => negb (isNewline c)) cur = true ->
    joinLines (splitLinesGo cur s) = rev cur ++ s
    /\ Forall (fun l => forallb (fun c => negb (isNewline c)) l = true)
         (splitLinesGo cur s)
    /\ length (splitLinesGo cur s) = S (length (filter isNewline s)).
Proof.
  induction s as [|c s IH]; intros cur Hcur.
  - cbn. rewrite app_nil_r. repeat split.
    constructor; [|constructor]. now rewrite forallb_rev.
  - destruct (c =? NEWLINE)%N eqn:Ec.
    + assert (Hn : isNewline c = true) by exact Ec.
      cbn [splitLinesGo filter]. rewrite Ec, Hn.
      destruct (IH [] eq_refl) as (J & F & L).
      rewrite joinLines_cons by apply splitLinesGo_nonempty.
      rewrite J. apply N.eqb_eq in Ec. subst c. cbn [rev app length].
      repeat split.
      * constructor; [now rewrite forallb_rev|exact F].
      * now rewrite L.
    + assert (Hn : isNewline c = false) by exact Ec.
      cbn [splitLinesGo filter]. rewrite Ec, Hn.
      assert (Hc : forallb (fun c0 => negb (isNewline c0)) (c :: cur) = true).
      { cbn [forallb]. now rewrite Hn, Hcur. }
      destruct (IH (c :: cur) Hc) as (J & F & L).
      rewrite J. cbn [rev]. rewrite <- app_assoc. cbn [app].
      repeat split; assumption.
Qed.

End DocxFacts.

(** X22.  The paragraphs of the Word export are the lines of the text.
    [exportDocx] makes one paragraph of each piece between newlines: no
    piece holds a newline, there is one more piece than there are
    newlines (an empty text gives one empty paragraph), and the pieces
    joined by newlines are the text again. *)
Theorem docx_paragraphs_are_the_lines (text : JSString) :
  Markdown.joinLines (Markdown.docxLines text) = text
  /\ Forall (fun l => forallb (fun c => negb (Markdown.isNewline c)) l = true)
       (Markdown.docxLines text)
  /\ length (Markdown.docxLines text)
     = S (length (filter Markdown.isNewline text)).
Proof.
  unfold Markdown.docxLines.
  destruct (splitLinesGo_spec text [] eq_refl) as (J & F & L).
  repeat split; assumption.
Qed.

(** X23.  Resetting the streak resets the record too.  After the
    reset-streak button has removed the row, the next committed
    transaction with a positive delta writes a streak of count 1 and
    record 1 for that day, whatever the record was; the reset itself
    leaves the other two rows alone, and changes nothing if the removal
    fails. *)
Theorem streak_reset_forgets_record (todayStamp : DateStamp) (g : Z)
    (db : Db) :
  0 < g ->
  let db1 := Lifecycle.resetStreak Ok db in
  streakData
    (updateAllStatsTransaction Committed todayStamp g db1)
  = Some (mkStreak 1 1 (Some todayStamp))
  /\ typingTime db1 = typingTime db
  /\ sessionStats db1 = sessionStats db
  /\ Lifecycle.resetStreak Fault db = db.
Proof.
  intros Hg db1. split; [|repeat split].
  rewrite streakData_credited; [|exact Hg|discriminate].
  unfold creditStreak. cbn [db1 Lifecycle.resetStreak currentStreakOf
                              streakData defaultStreak lastDate count record].
  destruct (diffIsOne todayStamp None); reflexivity.
Qed.

Lemma streak_reset_forgets_record_witness :
  let today := mkStamp 2025 11 20 in
  let db := mkDb None None (Some (mkStreak 12 40 (Some (mkStamp 2025 11 19)))) in
  streakData
    (updateAllStatsTransaction Committed today 3
       (Lifecycle.resetStreak Ok db))
  = Some (mkStreak 1 1 (Some today)).
Proof.
  intros today db.
  apply (proj1 (streak_reset_forgets_record today 3 db eq_refl)).
Defined.

(** X24.  The minutes are those of the stored typing row, whatever day
    that row is of.  When the page is loaded, [init] takes over the
    stored total only if the row is of the day of loading; the row
    itself stays.  So on a new day the first transaction, which runs
    before any burst has ended, writes into today's record the minutes
    of the row it finds, [floor(time / 60000)], also when that row is
    yesterday's; loaded on the row's own day, the total goes on from
    the stored one. *)
Theorem minutes_follow_stored_row (today D : DateStamp) (T : Z)
    (io ioInit : Io) (now : Z) (text : JSString) (a : Keystroke.App) :
  typingTime (Keystroke.db a) = Some (mkTyping D T) ->
  Keystroke.typingDay (Keystroke.typing a) = today ->
  Keystroke.peakWordCount a < countWords text ->
  Keystroke.lastSyncedWords a <= Keystroke.peakWordCount a ->
  let a1 := Lifecycle.initTyping ioInit a in
  let a2 := Keystroke.onInput io now today text a1 in
  let a3 := Keystroke.statsTimerFires Committed today a2 in
  Keystroke.db a1 = Keystroke.db a
  /\ (D = today -> ioInit = Ok ->
      Keystroke.totalTime (Keystroke.typing a1) = T)
  /\ (D <> today ->
      Keystroke.totalTime (Keystroke.typing a1)
      = Keystroke.totalTime (Keystroke.typing a))
  /\ option_map minutes (sessionStats (Keystroke.db a3)) = Some (T / 60000)
  /\ option_map date (sessionStats (Keystroke.db a3)) = Some today.
Proof.
  intros Ht Ed Hp Hs a1 a2 a3.
  assert (E1 : Keystroke.db a1 = Keystroke.db a
               /\ Keystroke.typingDay (Keystroke.typing a1) = today
               /\ Keystroke.peakWordCount a1 = Keystroke.peakWordCount a
               /\ Keystroke.lastSyncedWords a1 = Keystroke.lastSyncedWords a).
  { unfold a1, Lifecycle.initTyping, storage_get. rewrite Ht.
    destruct ioInit; [|now repeat split].
    cbn [typingDate].
    destruct (stamp_eqb D (Keystroke.typingDay (Keystroke.typing a)));
      now repeat split. }
  destruct E1 as (Edb & Eday & Epk & Esy).
  split; [exact Edb|]. split; [|split].
  - intros -> ->. unfold a1, Lifecycle.initTyping, storage_get.
    rewrite Ht. cbn [typingDate time]. rewrite Ed, stamp_eqb_refl.
    reflexivity.
  - intros Hne. unfold a1, Lifecycle.initTyping, storage_get. rewrite Ht.
    destruct ioInit; [|reflexivity]. cbn [typingDate]. rewrite Ed.
    destruct (stamp_eqb D today) eqn:E; [|reflexivity].
    apply stamp_eqb_eq in E. contradiction.
  - assert (Et : Keystroke.statsTimer a2 = true).
    { unfold a2. rewrite onInput_timer, Epk.
      replace (Keystroke.peakWordCount a <? countWords text) with true;
        [reflexivity|]. symmetry. now apply Z.ltb_lt. }
    assert (Es2 : Keystroke.lastSyncedWords a2 = Keystroke.lastSyncedWords a)
      by (unfold a2; now rewrite onInput_synced).
    assert (Ee : Keystroke.editorValue a2 = text) by reflexivity.
    assert (Ety : typingTime (Keystroke.db a2) = Some (mkTyping D T)).
    { unfold a2, Keystroke.onInput, Keystroke.resetTypingTimeIfNewDay.
      rewrite Eday, stamp_eqb_refl. cbn [negb Keystroke.db].
      now rewrite Edb. }
    unfold a3. rewrite statsTimerFires_db. cbn zeta.
    rewrite Et, Es2, Ee.
    replace (0 <? Z.max 0 (countWords text - Keystroke.lastSyncedWords a))
      with true by (symmetry; apply Z.ltb_lt; lia).
    cbn [andb updateAllStatsTransaction].
    rewrite sessionStats_after. cbn zeta. cbn [option_map minutes date].
    rewrite currentSessionOf_date. unfold minutesOf. rewrite Ety.
    split; reflexivity.
Qed.

Lemma minutes_follow_stored_row_witness :
  let today := mkStamp 2025 11 20 in
  let a :=
    Keystroke.mkApp [] (Keystroke.mkTypingState false None 0 today)
      0 0 0 false
      (mkDb (Some (mkTyping (mkStamp 2025 11 19) 1500000)) None None) in
  let a2 :=
    Keystroke.onInput Ok 1000 today [97]%N (Lifecycle.initTyping Ok a) in
  option_map minutes
    (sessionStats
       (Keystroke.db (Keystroke.statsTimerFires Committed today a2)))
  = Some 25.
Proof.
  intros today a a2.
  apply (proj1 (proj2 (proj2 (proj2
           (minutes_follow_stored_row today (mkStamp 2025 11 19) 1500000
              Ok Ok 1000 [97]%N a eq_refl eq_refl eq_refl
              ltac:(cbn; lia)))))).
Defined.
